(** * The Bluesky extractor of gallery-dl (gallery_dl/extractor/bluesky.py)

    A shallow embedding of the extractor and of its API client, and the
    properties of the pagination engine, of the call layer, of the identity
    resolver, of the session authenticator and of the record normalizer.

    Python values are embedded as [pyval]; a dict is a [gmap string pyval].
    Code that talks to the network runs in the monad [Run]: a state monad
    over [World] whose outcome is a value, a raised exception, or a halt.
    The HTTP requester is played by a script: the list of responses it will
    hand out, one per request, in order. *)

From Stdlib Require Import ZArith String Ascii List Lia.
From stdpp Require Import base option list gmap strings fin_maps pretty.

Set Warnings "-register-all".

Open Scope string_scope.
Open Scope Z_scope.

(** ** Python values *)

(** A naive [datetime]: what [strptime] with format [%Y-%m-%dT%H:%M:%S]
    produces. *)
Record datetime : Type := mkDatetime {
  dt_year : Z; dt_month : Z; dt_day : Z;
  dt_hour : Z; dt_minute : Z; dt_second : Z
}.

(** The values the extractor handles: decoded JSON (without floats), tuples
    and dates.  Characters are the [ascii] of Rocq's strings. *)
Inductive pyval : Type :=
| PNone
| PBool (b : bool)
| PInt (n : Z)
| PStr (s : string)
| PList (l : list pyval)
| PTuple (l : list pyval)
| PDict (d : gmap string pyval)
| PDate (t : datetime).

Abbreviation pydict := (gmap string pyval).

(** The exceptions that can leave the module. [StopExtraction] keeps the
    message template and its arguments, as the source passes them. *)
Inductive exn : Type :=
| StopExtraction (msg : string) (args : list pyval)
| AuthenticationError (msg : string)
| KeyError (key : pyval)
| IndexError
| TypeError
| AttributeError.

(** How a computation ends. *)
Inductive outcome (A : Type) : Type :=
| Return (a : A)
| Raise (e : exn)
| Awaiting      (* the script is exhausted: the run blocks on the network *)
| OutOfScope    (* Python behaviour outside the modelled fragment *)
| OutOfFuel.    (* a loop bound of the model was reached *)

Arguments Return {A} a.
Arguments Raise {A} e.
Arguments Awaiting {A}.
Arguments OutOfScope {A}.
Arguments OutOfFuel {A}.

Definition obind {A B : Type} (o : outcome A) (k : A -> outcome B) : outcome B :=
  match o with
  | Return a => k a
  | Raise e => Raise e
  | Awaiting => Awaiting
  | OutOfScope => OutOfScope
  | OutOfFuel => OutOfFuel
  end.

Definition is_return {A : Type} (o : outcome A) : bool :=
  match o with Return _ => true | _ => false end.

(** ** Python's operations on values *)

Module Py.

(** [bool(v)] *)
Definition truthy (v : pyval) : bool :=
  match v with
  | PNone => false
  | PBool b => b
  | PInt n => negb (n =? 0)
  | PStr s => negb (String.eqb s "")
  | PList l | PTuple l => match l with [] => false | _ => true end
  | PDict d => match map_to_list d with [] => false | _ => true end
  | PDate _ => true
  end.

(** [v[k]] for a string key [k] *)
Definition getitem (v : pyval) (k : string) : outcome pyval :=
  match v with
  | PDict d => match d !! k with
               | Some x => Return x
               | None => Raise (KeyError (PStr k))
               end
  | _ => Raise TypeError
  end.

(** [d[k]] for a dict [d] *)
Definition dict_getitem (d : pydict) (k : string) : outcome pyval :=
  getitem (PDict d) k.

(** [v[0]] *)
Definition getitem0 (v : pyval) : outcome pyval :=
  match v with
  | PList l | PTuple l => match l with
                          | x :: _ => Return x
                          | [] => Raise IndexError
                          end
  | PStr s => match s with
              | String c _ => Return (PStr (String c EmptyString))
              | EmptyString => Raise IndexError
              end
  | PDict _ => Raise (KeyError (PInt 0))
  | _ => Raise TypeError
  end.

(** [d.get(k)] for a dict [d]; any other receiver has no [get]. *)
Definition get (v : pyval) (k : string) : outcome pyval :=
  match v with
  | PDict d => Return (default PNone (d !! k))
  | _ => Raise AttributeError
  end.

Definition is_str (k : string) (v : pyval) : bool :=
  match v with PStr s => String.eqb s k | _ => false end.

(** [k in v] for a string [k] *)
Definition contains (k : string) (v : pyval) : outcome bool :=
  match v with
  | PDict d => Return (bool_decide (is_Some (d !! k)))
  | PList l | PTuple l => Return (existsb (is_str k) l)
  | PStr s => Return (bool_decide (is_Some (String.index 0 k s)))
  | _ => Raise TypeError
  end.

(** [len(v)] *)
Definition len (v : pyval) : outcome Z :=
  match v with
  | PStr s => Return (Z.of_nat (String.length s))
  | PList l | PTuple l => Return (Z.of_nat (List.length l))
  | PDict d => Return (Z.of_nat (size d))
  | _ => Raise TypeError
  end.

Fixpoint chars (s : string) : list pyval :=
  match s with
  | EmptyString => []
  | String c r => PStr (String c EmptyString) :: chars r
  end.

(** The elements [for x in v] visits.  A dict is visited by its keys; the
    model lists them in the order of [map_to_list], not in insertion
    order. *)
Definition iter (v : pyval) : outcome (list pyval) :=
  match v with
  | PList l | PTuple l => Return l
  | PStr s => Return (chars s)
  | PDict d => Return (map (fun kv => PStr (fst kv)) (map_to_list d))
  | _ => Raise TypeError
  end.

(** [str(v)], as [str.format] and [%s] render an argument; containers and
    dates are outside the modelled fragment. *)
Definition str (v : pyval) : outcome string :=
  match v with
  | PNone => Return "None"
  | PBool true => Return "True"
  | PBool false => Return "False"
  | PInt n => Return (pretty n)
  | PStr s => Return s
  | _ => OutOfScope
  end.

(** [a + v] for a string [a] *)
Definition str_add (a : string) (v : pyval) : outcome string :=
  match v with
  | PStr s => Return (a ++ s)
  | _ => Raise TypeError
  end.

Fixpoint has_slash (s : string) : bool :=
  match s with
  | EmptyString => false
  | String c r => Ascii.eqb c "/"%char || has_slash r
  end.

(** [s.rpartition("/")[2]]: the text after the last slash, the whole
    string when it has none. *)
Fixpoint after_last_slash (s : string) : string :=
  match s with
  | EmptyString => EmptyString
  | String c r =>
      if has_slash r then after_last_slash r
      else if Ascii.eqb c "/"%char then r
      else s
  end.

Definition rpartition_last (v : pyval) : outcome pyval :=
  match v with
  | PStr s => Return (PStr (after_last_slash s))
  | _ => Raise AttributeError
  end.

(** [v[:19]] *)
Definition slice19 (v : pyval) : outcome pyval :=
  match v with
  | PStr s => Return (PStr (String.substring 0 19 s))
  | PList l => Return (PList (take 19 l))
  | PTuple l => Return (PTuple (take 19 l))
  | PDict _ => OutOfScope
  | _ => Raise TypeError
  end.

(** [d.update(v)] for a dict [d] *)
Definition dict_update (d : pydict) (v : pyval) : outcome pydict :=
  match v with
  | PDict r => Return (r ∪ d)
  | PList [] | PTuple [] | PStr EmptyString => Return d
  | PList _ | PTuple _ | PStr _ => OutOfScope
  | _ => Raise TypeError
  end.

End Py.

(** ** The world of a run *)

(** What [Extractor.request] is called with. *)
Record Request : Type := mkRequest {
  req_url : string;
  req_method : string;
  req_headers : option pydict;
  req_params : option pydict;
  req_json : option pydict
}.

(** What it answers: the fields of the response the module reads.  [json]
    is the value of [response.json()]; a body that does not decode is
    outside the model. *)
Record Response : Type := mkResponse {
  status_code : Z;
  reason : string;
  text : string;
  json : pyval
}.

(** The messages an extractor yields. *)
Inductive Message : Type :=
| Directory (post : pydict)
| Url (url : string) (post : pydict)
| Queue (url : string) (user : pyval).

(** The entries of the durable cache: a value and the time it expires at.
    A key is the name of the cached function and its key argument. *)
Abbreviation cache_key := (string * option string)%type.

Record World : Type := mkWorld {
  script : list Response;            (* responses still to come *)
  requests : list Request;           (* requests issued, oldest first *)
  sleeps : list Z;                   (* the waits, in seconds, oldest first *)
  clock : Z;                         (* wall-clock time, in seconds *)
  db : gmap cache_key (pyval * Z);   (* the durable cache *)
  memo : gmap string pyval;          (* the in-process cache of resolve_handle *)
  headers : pydict;                  (* BlueskyAPI.headers *)
  yielded : list pyval;              (* items a pagination handed over *)
  emitted : list Message             (* messages an extractor handed over *)
}.

Definition set_script (l : list Response) (w : World) : World :=
  mkWorld l (requests w) (sleeps w) (clock w) (db w) (memo w) (headers w)
          (yielded w) (emitted w).
Definition set_requests (l : list Request) (w : World) : World :=
  mkWorld (script w) l (sleeps w) (clock w) (db w) (memo w) (headers w)
          (yielded w) (emitted w).
Definition set_sleeps (l : list Z) (w : World) : World :=
  mkWorld (script w) (requests w) l (clock w) (db w) (memo w) (headers w)
          (yielded w) (emitted w).
Definition set_clock (t : Z) (w : World) : World :=
  mkWorld (script w) (requests w) (sleeps w) t (db w) (memo w) (headers w)
          (yielded w) (emitted w).
Definition set_db (m : gmap cache_key (pyval * Z)) (w : World) : World :=
  mkWorld (script w) (requests w) (sleeps w) (clock w) m (memo w) (headers w)
          (yielded w) (emitted w).
Definition set_memo (m : gmap string pyval) (w : World) : World :=
  mkWorld (script w) (requests w) (sleeps w) (clock w) (db w) m (headers w)
          (yielded w) (emitted w).
Definition set_headers (h : pydict) (w : World) : World :=
  mkWorld (script w) (requests w) (sleeps w) (clock w) (db w) (memo w) h
          (yielded w) (emitted w).
Definition set_yielded (l : list pyval) (w : World) : World :=
  mkWorld (script w) (requests w) (sleeps w) (clock w) (db w) (memo w)
          (headers w) l (emitted w).
Definition set_emitted (l : list Message) (w : World) : World :=
  mkWorld (script w) (requests w) (sleeps w) (clock w) (db w) (memo w)
          (headers w) (yielded w) l.

(** ** The monad of runs *)

Definition Run (A : Type) : Type := World -> outcome A * World.

Definition ret {A : Type} (a : A) : Run A := fun w => (Return a, w).

Definition bind {A B : Type} (m : Run A) (k : A -> Run B) : Run B :=
  fun w =>
    match m w with
    | (Return a, w') => k a w'
    | (Raise e, w') => (Raise e, w')
    | (Awaiting, w') => (Awaiting, w')
    | (OutOfScope, w') => (OutOfScope, w')
    | (OutOfFuel, w') => (OutOfFuel, w')
    end.

Definition lift {A : Type} (o : outcome A) : Run A := fun w => (o, w).

Definition raise {A : Type} (e : exn) : Run A := lift (Raise e).

Declare Scope run_scope.
Delimit Scope run_scope with run.
Notation "x <- m ;; k" := (bind m (fun x => k))
  (at level 100, m at next level, right associativity) : run_scope.
Notation "m ;;; k" := (bind m (fun _ => k))
  (at level 100, right associativity) : run_scope.
Open Scope run_scope.

(** [for x in l: body(x)] *)
Fixpoint for_each {A : Type} (l : list A) (body : A -> Run unit) : Run unit :=
  match l with
  | [] => ret tt
  | x :: r => body x ;;; for_each r body
  end.

(** A generator, seen from the loop that drains it: the loop body is run at
    every [yield], on the value yielded. *)
Definition Generator (A : Type) : Type := (A -> Run unit) -> Run unit.

(** The consumers that only record what they are handed. *)
Definition collect (v : pyval) : Run unit :=
  fun w => (Return tt, set_yielded (yielded w ++ [v]) w).

Definition emit (m : Message) : Run unit :=
  fun w => (Return tt, set_emitted (emitted w ++ [m]) w).

(** ** The capabilities the module consumes *)

(** Modelled from the spec: [Extractor.request] of
    gallery_dl/extractor/common.py, the HTTP requester the module consumes:
    request(url, method, headers, params, json) answers with the status
    code, the reason, the decoded JSON body and the text, and returns
    rather than throwing whatever the status is.  The response is the next
    one of the script; the request is logged. *)
Definition request (r : Request) : Run Response :=
  fun w =>
    match script w with
    | [] => (Awaiting, set_requests (requests w ++ [r]) w)
    | resp :: rest =>
        (Return resp, set_script rest (set_requests (requests w ++ [r]) w))
    end.

(** Modelled from the spec: [Extractor.wait] of
    gallery_dl/extractor/common.py sleeps for the given number of seconds;
    the clock moves on by as much. *)
Definition wait (seconds : Z) : Run unit :=
  fun w => (Return tt,
            set_clock (clock w + seconds) (set_sleeps (sleeps w ++ [seconds]) w)).

(** Modelled from the spec: the lookup of the durable cache behind the
    [cache] decorator of gallery_dl/cache.py.  The cache maps a key to a
    value with a maximum age; an entry that has expired is
    indistinguishable from an absent one. *)
Definition cache_lookup (k : cache_key) (w : World) : option pyval :=
  match db w !! k with
  | Some (v, expires) => if clock w <? expires then Some v else None
  | None => None
  end.

(** Modelled from the spec: set(key, value, max_age_seconds) of the durable
    cache; the entry expires [maxage] seconds from now. *)
Definition cache_store (k : cache_key) (maxage : Z) (v : pyval) : Run unit :=
  fun w => (Return tt, set_db (<[k := (v, clock w + maxage)]> (db w)) w).

(** Modelled from the spec: the [cache] decorator of gallery_dl/cache.py.
    A live entry is reused without running the function; an absent or
    expired one triggers re-derivation, and the derived value is stored
    under the key with the decorator's maximum age. *)
Definition cached (name : string) (maxage : Z) (key : option string)
    (func : Run pyval) : Run pyval :=
  fun w =>
    match cache_lookup (name, key) w with
    | Some v => (Return v, w)
    | None => (v <- func ;; cache_store (name, key) maxage v ;;; ret v) w
    end.

(** Modelled from the spec: the [memcache] decorator of gallery_dl/cache.py.
    The mapping is memoized for the remaining process lifetime: later calls
    with the same key never run the function again. *)
Definition memcached (key : string) (func : Run pyval) : Run pyval :=
  fun w =>
    match memo w !! key with
    | Some v => (Return v, w)
    | None =>
        (v <- func ;;
         (fun w' => (Return v, set_memo (<[key := v]> (memo w')) w'))) w
    end.

(** ** BlueskyAPI *)

(** The attributes [BlueskyAPI.__init__] sets, [headers] apart, which is
    mutable and lives in the world.  [authenticate_noop] records the
    instance attribute [self.authenticate = util.noop]. *)
Record BlueskyAPI : Type := mkAPI {
  username : option string;
  password : option string;
  root : string;
  authenticate_noop : bool
}.

Definition opt_truthy (o : option string) : bool :=
  match o with
  | Some s => negb (String.eqb s "")
  | None => false
  end.

Definition opt_val (o : option string) : pyval :=
  match o with
  | Some s => PStr s
  | None => PNone
  end.

(** [BlueskyAPI.__init__], on the pair [extractor._get_auth_info()] returns *)
Definition BlueskyAPI_init (auth_info : option string * option string) : BlueskyAPI :=
  let '(username, password) := auth_info in
  if opt_truthy username
  then mkAPI username password "https://bsky.social" false
  else mkAPI username password "https://api.bsky.app" true.

Definition dquote : string := String (ascii_of_nat 34) EmptyString.

Definition refresh_maxage : Z := 84 * 86400.
Definition access_maxage : Z := 3600.

(** [_refresh_token_cache]: a cached function whose body returns [None];
    the refresh token gets into the cache through [update]. *)
Definition _refresh_token_cache (username : option string) : Run pyval :=
  cached "_refresh_token_cache" refresh_maxage username (ret PNone).

(** Modelled from the spec: the [update] method of a cached function
    overwrites the entry of the key, with the decorator's maximum age. *)
Definition _refresh_token_cache_update (username : option string) (v : pyval)
    : Run unit :=
  cache_store ("_refresh_token_cache", username) refresh_maxage v.

(** The body of [BlueskyAPI._authenticate_impl] *)
Definition _authenticate_impl_body (self : BlueskyAPI) (username0 : option string)
    : Run pyval :=
  refresh_token <- _refresh_token_cache username0 ;;
  call <-
    (if Py.truthy refresh_token
     then
       bearer <- lift (Py.str_add "Bearer " refresh_token) ;;
       ret ("com.atproto.server.refreshSession",
            Some ({["Authorization" := PStr bearer]} : pydict),
            @None pydict)
     else
       ret ("com.atproto.server.createSession",
            @None pydict,
            Some (<["identifier" := opt_val username0]>
                    ({["password" := opt_val (password self)]}) : pydict))) ;;
  let '(endpoint, hdrs, data) := call in
  let url := root self ++ "/xrpc/" ++ endpoint in
  response <- request (mkRequest url "POST" hdrs None data) ;;
  let data := json response in
  if negb (status_code response =? 200)
  then
    err <- lift (obind (Py.get data "error") Py.str) ;;
    msg <- lift (obind (Py.get data "message") Py.str) ;;
    raise (AuthenticationError (dquote ++ err ++ ": " ++ msg ++ dquote))
  else
    refresh <- lift (Py.getitem data "refreshJwt") ;;
    _refresh_token_cache_update (username self) refresh ;;;
    access <- lift (Py.getitem data "accessJwt") ;;
    bearer <- lift (Py.str_add "Bearer " access) ;;
    ret (PStr bearer).

(** [BlueskyAPI._authenticate_impl], under [@cache(maxage=3600, keyarg=1)] *)
Definition _authenticate_impl (self : BlueskyAPI) (username0 : option string)
    : Run pyval :=
  cached "_authenticate_impl" access_maxage username0
         (_authenticate_impl_body self username0).

(** [BlueskyAPI.authenticate], or [util.noop] where [__init__] put it *)
Definition authenticate (self : BlueskyAPI) : Run unit :=
  if authenticate_noop self then ret tt
  else
    bearer <- _authenticate_impl self (username self) ;;
    (fun w => (Return tt, set_headers (<["Authorization" := bearer]> (headers w)) w)).

Definition stop_message : string := "API request failed (%s %s)".

(** The loop of [BlueskyAPI._call]; every turn of it issues a request, so
    the length of the script bounds the number of turns. *)
Fixpoint _call_loop (fuel : nat) (self : BlueskyAPI) (url : string)
    (params : pydict) : Run pyval :=
  match fuel with
  | O => lift OutOfFuel
  | S fuel' =>
      authenticate self ;;;
      response <- (fun w =>
        request (mkRequest url "GET" (Some (headers w)) (Some params) None) w) ;;
      if status_code response <? 400 then ret (json response)
      else if status_code response =? 429 then
        wait 60 ;;; _call_loop fuel' self url params
      else
        raise (StopExtraction stop_message
                 [PInt (status_code response); PStr (reason response)])
  end.

Definition _call (self : BlueskyAPI) (endpoint : string) (params : pydict)
    : Run pyval :=
  fun w =>
    _call_loop (S (List.length (script w))) self
               (root self ++ "/xrpc/" ++ endpoint) params w.

(** The loop of [BlueskyAPI._pagination]; [consume] is run at each yield. *)
Fixpoint _pagination_loop (fuel : nat) (self : BlueskyAPI) (endpoint : string)
    (params : pydict) (key : string) (consume : pyval -> Run unit) : Run unit :=
  match fuel with
  | O => lift OutOfFuel
  | S fuel' =>
      data <- _call self endpoint params ;;
      items <- lift (obind (Py.getitem data key) Py.iter) ;;
      for_each items consume ;;;
      cursor <- lift (Py.get data "cursor") ;;
      if negb (Py.truthy cursor) then ret tt
      else _pagination_loop fuel' self endpoint
                            (<["cursor" := cursor]> params) key consume
  end.

Definition _pagination (self : BlueskyAPI) (endpoint : string)
    (params : pydict) (key : string) : Generator pyval :=
  fun consume w =>
    _pagination_loop (S (List.length (script w))) self endpoint params key
                     consume w.

(** [BlueskyAPI.resolve_handle], under [@memcache(keyarg=1)] *)
Definition resolve_handle (self : BlueskyAPI) (handle : string) : Run pyval :=
  memcached handle
    (data <- _call self "com.atproto.identity.resolveHandle"
                   ({["handle" := PStr handle]}) ;;
     lift (Py.getitem data "did")).

(** [BlueskyAPI._did_from_actor] *)
Definition _did_from_actor (self : BlueskyAPI) (actor : string) : Run pyval :=
  if String.prefix "did:" actor then ret (PStr actor)
  else resolve_handle self actor.

Definition feed_params (did : pyval) : pydict :=
  <["actor" := did]> ({["limit" := PStr "100"]}).

(** [BlueskyAPI.get_actor_likes] *)
Definition get_actor_likes (self : BlueskyAPI) (actor : string)
    : Run (Generator pyval) :=
  did <- _did_from_actor self actor ;;
  ret (_pagination self "app.bsky.feed.getActorLikes" (feed_params did) "feed").

(** [BlueskyAPI.get_author_feed] *)
Definition get_author_feed (self : BlueskyAPI) (actor : string) (filter : string)
    : Run (Generator pyval) :=
  did <- _did_from_actor self actor ;;
  ret (_pagination self "app.bsky.feed.getAuthorFeed"
                   (<["filter" := PStr filter]> (feed_params did)) "feed").

(** ["at://{}/<collection>/{}".format(did, name)] *)
Definition at_uri (did : pyval) (collection name : string) : outcome pyval :=
  obind (Py.str did) (fun s =>
    Return (PStr ("at://" ++ s ++ "/" ++ collection ++ "/" ++ name))).

(** [BlueskyAPI.get_feed] *)
Definition get_feed (self : BlueskyAPI) (actor feed : string)
    : Run (Generator pyval) :=
  did <- _did_from_actor self actor ;;
  uri <- lift (at_uri did "app.bsky.feed.generator" feed) ;;
  ret (_pagination self "app.bsky.feed.getFeed"
                   (<["feed" := uri]> ({["limit" := PStr "100"]})) "feed").

(** [BlueskyAPI.get_follows] *)
Definition get_follows (self : BlueskyAPI) (actor : string)
    : Run (Generator pyval) :=
  did <- _did_from_actor self actor ;;
  ret (_pagination self "app.bsky.graph.getFollows" (feed_params did) "follows").

(** [BlueskyAPI.get_list_feed] *)
Definition get_list_feed (self : BlueskyAPI) (actor list : string)
    : Run (Generator pyval) :=
  did <- _did_from_actor self actor ;;
  uri <- lift (at_uri did "app.bsky.graph.list" list) ;;
  ret (_pagination self "app.bsky.feed.getListFeed"
                   (<["list" := uri]> ({["limit" := PStr "100"]})) "feed").

(** [BlueskyAPI.get_post_thread]: a tuple of one element *)
Definition get_post_thread (self : BlueskyAPI) (actor post_id : string)
    : Run (Generator pyval) :=
  did <- _did_from_actor self actor ;;
  uri <- lift (at_uri did "app.bsky.feed.post" post_id) ;;
  data <- _call self "app.bsky.feed.getPostThread" ({["uri" := uri]}) ;;
  thread <- lift (Py.getitem data "thread") ;;
  ret (fun consume => consume thread).

(** [BlueskyAPI.get_profile] *)
Definition get_profile (self : BlueskyAPI) (actor : string) : Run pyval :=
  did <- _did_from_actor self actor ;;
  _call self "app.bsky.actor.getProfile" ({["actor" := did]}).

(** ** Dates *)

Module Text.

Definition digit (c : ascii) : option Z :=
  let n := Z.of_nat (nat_of_ascii c) in
  if (48 <=? n) && (n <=? 57) then Some (n - 48) else None.

(** Reads exactly [n] decimal digits. *)
Fixpoint number (n : nat) (acc : Z) (s : string) : option (Z * string) :=
  match n with
  | O => Some (acc, s)
  | S n' =>
      match s with
      | String c r => d ← digit c; number n' (10 * acc + d) r
      | EmptyString => None
      end
  end.

Definition expect (c : ascii) (s : string) : option string :=
  match s with
  | String c' r => if Ascii.eqb c c' then Some r else None
  | EmptyString => None
  end.

Definition in_range (lo hi x : Z) : bool := (lo <=? x) && (x <=? hi).

Definition leap_year (y : Z) : bool :=
  ((y mod 4 =? 0) && negb (y mod 100 =? 0)) || (y mod 400 =? 0).

Definition days_in_month (y m : Z) : Z :=
  if m =? 2 then (if leap_year y then 29 else 28)
  else if (m =? 4) || (m =? 6) || (m =? 9) || (m =? 11) then 30
  else 31.

(** Modelled from the spec: the format YYYY-MM-DDTHH:MM:SS, read field by
    field; the fields have to name a date of the calendar and a time of
    the day. *)
Definition strptime (s : string) : option datetime :=
  '(y, s) ← number 4 0 s; s ← expect "-" s;
  '(m, s) ← number 2 0 s; s ← expect "-" s;
  '(d, s) ← number 2 0 s; s ← expect "T" s;
  '(h, s) ← number 2 0 s; s ← expect ":" s;
  '(mi, s) ← number 2 0 s; s ← expect ":" s;
  '(sec, s) ← number 2 0 s;
  if String.eqb s "" && (1 <=? y) && in_range 1 12 m
     && in_range 1 (days_in_month y m) d && in_range 0 23 h && in_range 0 59 mi && in_range 0 59 sec
  then Some (mkDatetime y m d h mi sec)
  else None.

(** Modelled from the spec: [text.parse_datetime] of gallery_dl/text.py,
    called with the format [%Y-%m-%dT%H:%M:%S].  It parses a string of the
    shape YYYY-MM-DDTHH:MM:SS into a date value; on malformed input it
    does not fail and yields the absent date. *)
Definition parse_datetime (v : pyval) : pyval :=
  match v with
  | PStr s => match strptime s with
              | Some t => PDate t
              | None => PNone
              end
  | _ => PNone
  end.

End Text.

(** ** BlueskyExtractor *)

(** Lines 40-46 of [items]: the images of the post's embed. *)
Definition locate_images (post : pydict) : outcome pyval :=
  match post !! "embed" with
  | None => Return (PTuple [])
  | Some media =>
      obind (Py.contains "media" media) (fun has_media =>
      obind (if has_media then Py.getitem media "media" else Return media)
        (fun media =>
      obind (Py.contains "images" media) (fun has_images =>
      if has_images then Py.getitem media "images" else Return (PTuple []))))
  end.

(** The three lists the facet loop appends to. *)
Record facet_lists : Type := mkFacets {
  tags : list pyval;
  dids : list pyval;
  uris : list pyval
}.

(** One turn of the loop over [post["facets"]] (lines 53-59) *)
Definition facet_step (acc : facet_lists) (facet : pyval) : outcome facet_lists :=
  obind (obind (Py.getitem facet "features") Py.getitem0) (fun features =>
  obind (Py.contains "tag" features) (fun has_tag =>
  if has_tag then
    obind (Py.getitem features "tag") (fun v =>
    Return (mkFacets (tags acc ++ [v]) (dids acc) (uris acc)))
  else
    obind (Py.contains "did" features) (fun has_did =>
    if has_did then
      obind (Py.getitem features "did") (fun v =>
      Return (mkFacets (tags acc) (dids acc ++ [v]) (uris acc)))
    else
      obind (Py.contains "uri" features) (fun has_uri =>
      if has_uri then
        obind (Py.getitem features "uri") (fun v =>
        Return (mkFacets (tags acc) (dids acc) (uris acc ++ [v])))
      else Return acc)))).

Fixpoint facet_loop (acc : facet_lists) (facets : list pyval) : outcome facet_lists :=
  match facets with
  | [] => Return acc
  | facet :: rest => obind (facet_step acc facet) (fun acc' => facet_loop acc' rest)
  end.

Definition set_facet_lists (h m u : pyval) (post : pydict) : pydict :=
  <["uris" := u]> (<["mentions" := m]> (<["hashtags" := h]> post)).

(** Lines 48-61 of [items] *)
Definition collect_facets (post : pydict) : outcome pydict :=
  match post !! "facets" with
  | Some facets =>
      obind (Py.iter facets) (fun l =>
      obind (facet_loop (mkFacets [] [] []) l) (fun acc =>
      Return (set_facet_lists (PList (tags acc)) (PList (dids acc))
                              (PList (uris acc)) post)))
  | None => Return (set_facet_lists (PTuple []) (PTuple []) (PTuple []) post)
  end.

(** Lines 81-86: the try block and its [except KeyError] *)
Definition set_dimensions (file : pyval) (post : pydict) : outcome pydict :=
  let attempt :=
    obind (Py.getitem file "aspectRatio") (fun aspect =>
    obind (Py.getitem aspect "width") (fun w =>
    obind (Py.getitem aspect "height") (fun h =>
    Return (<["height" := h]> (<["width" := w]> post))))) in
  match attempt with
  | Raise (KeyError _) => Return (<["height" := PInt 0]> (<["width" := PInt 0]> post))
  | o => o
  end.

(** [post["num"] += 1] *)
Definition increment_num (post : pydict) : outcome pydict :=
  obind (Py.dict_getitem post "num") (fun n =>
  match n with
  | PInt n => Return (<["num" := PInt (n + 1)]> post)
  | PBool b => Return (<["num" := PInt ((if b then 1 else 0) + 1)]> post)
  | _ => Raise TypeError
  end).

Definition blob_endpoint : string :=
  "https://bsky.social/xrpc/com.atproto.sync.getBlob".

(** One turn of the loop over the images (lines 78-92), up to its yield:
    the URL and the post as they are when the message is handed over. *)
Definition media_step (base : string) (post : pydict) (file : pyval)
    : outcome (string * pydict) :=
  obind (increment_num post) (fun post =>
  obind (Py.getitem file "alt") (fun alt =>
  let post := <["description" := alt]> post in
  obind (set_dimensions file post) (fun post =>
  obind (Py.getitem file "image") (fun image =>
  obind (obind (Py.getitem image "ref") (fun ref => Py.getitem ref "$link"))
    (fun link =>
  let post := <["filename" := link]> post in
  obind (obind (Py.getitem image "mimeType") Py.rpartition_last) (fun ext =>
  let post := <["extension" := ext]> post in
  obind (Py.str_add base link) (fun url =>
  Return (url, post)))))))).

Fixpoint media_loop (base : string) (post : pydict) (files : list pyval)
    (yield : Message -> Run unit) : Run unit :=
  match files with
  | [] => ret tt
  | file :: rest =>
      step <- lift (media_step base post file) ;;
      let '(url, post) := step in
      yield (Url url post) ;;;
      media_loop base post rest yield
  end.

(** Lines 36-38 of [items]: the record's fields are merged into the post.
    Only a dict has the method [update]. *)
Definition flatten (item : pyval) : outcome pydict :=
  obind (Py.getitem item "post") (fun post =>
  obind (match post with PDict d => Return d | _ => Raise AttributeError end)
    (fun post =>
  obind (Py.dict_getitem post "record") (fun record =>
  obind (Py.dict_update post record) (fun post =>
  Return (delete "record" post))))).

(** Lines 36-66 of [items]: the post as the directory message carries it,
    and the images located. *)
Definition normalize (item : pyval) : outcome (pydict * pyval) :=
  obind (flatten item) (fun post =>
  obind (locate_images post) (fun images =>
  obind (collect_facets post) (fun post =>
  obind (obind (Py.dict_getitem post "uri") Py.rpartition_last) (fun post_id =>
  let post := <["post_id" := post_id]> post in
  obind (Py.len images) (fun count =>
  let post := <["count" := PInt count]> post in
  obind (obind (Py.dict_getitem post "createdAt") Py.slice19) (fun created =>
  let post := <["date" := Text.parse_datetime created]> post in
  Return (post, images))))))).

(** The body of the loop of [BlueskyExtractor.items], for one item *)
Definition items_body (item : pyval) (yield : Message -> Run unit) : Run unit :=
  norm <- lift (normalize item) ;;
  let '(post, images) := norm in
  yield (Directory post) ;;;
  if negb (Py.truthy images) then ret tt
  else
    did <- lift (obind (Py.dict_getitem post "author")
                       (fun author => Py.getitem author "did")) ;;
    did <- lift (Py.str did) ;;
    let base := blob_endpoint ++ "?did=" ++ did ++ "&cid=" in
    let post := <["num" := PInt 0]> post in
    files <- lift (Py.iter images) ;;
    media_loop base post files yield.

(** [BlueskyExtractor.items], over the generator [posts()] returns *)
Definition items (posts : Run (Generator pyval)) : Generator Message :=
  fun yield =>
    gen <- posts ;;
    gen (fun item => items_body item yield).

(** ** The extractors: what [posts] returns, and [items] where overridden *)

Record BlueskyExtractor : Type := mkExtractor {
  user : string;
  api : BlueskyAPI
}.

(** [BlueskyExtractor.posts]: the empty tuple *)
Definition BlueskyExtractor_posts : Run (Generator pyval) :=
  ret (fun _ => ret tt).

(** [BlueskyPostsExtractor.posts] *)
Definition BlueskyPostsExtractor_posts (self : BlueskyExtractor) : Run (Generator pyval) :=
  get_author_feed (api self) (user self) "posts_and_author_threads".

(** [BlueskyRepliesExtractor.posts] *)
Definition BlueskyRepliesExtractor_posts (self : BlueskyExtractor) : Run (Generator pyval) :=
  get_author_feed (api self) (user self) "posts_with_replies".

(** [BlueskyMediaExtractor.posts] *)
Definition BlueskyMediaExtractor_posts (self : BlueskyExtractor) : Run (Generator pyval) :=
  get_author_feed (api self) (user self) "posts_with_media".

(** [BlueskyLikesExtractor.posts] *)
Definition BlueskyLikesExtractor_posts (self : BlueskyExtractor) : Run (Generator pyval) :=
  get_actor_likes (api self) (user self).

(** [BlueskyFeedExtractor.posts] *)
Definition BlueskyFeedExtractor_posts (self : BlueskyExtractor) (feed : string)
    : Run (Generator pyval) :=
  get_feed (api self) (user self) feed.

(** [BlueskyListExtractor.posts] *)
Definition BlueskyListExtractor_posts (self : BlueskyExtractor) (list : string)
    : Run (Generator pyval) :=
  get_list_feed (api self) (user self) list.

(** [BlueskyPostExtractor.posts] *)
Definition BlueskyPostExtractor_posts (self : BlueskyExtractor) (post_id : string)
    : Run (Generator pyval) :=
  get_post_thread (api self) (user self) post_id.

(** [BlueskyFollowingExtractor.items] *)
Definition BlueskyFollowingExtractor_items (self : BlueskyExtractor) : Generator Message :=
  fun yield =>
    gen <- get_follows (api self) (user self) ;;
    gen (fun followed =>
      did <- lift (Py.getitem followed "did") ;;
      url <- lift (Py.str_add "https://bsky.app/profile/" did) ;;
      yield (Queue url followed)).

(** ** Vocabulary of the statements *)

(** The first entry of the features of a facet, when it is a dict. *)
Definition first_feature (facet : pyval) : option pydict :=
  match facet with
  | PDict fm =>
      match fm !! "features" with
      | Some (PList (PDict f :: _)) => Some f
      | _ => None
      end
  | _ => None
  end.

(** What a features entry contributes to each list, by the keys it has. *)
Definition hashtag_of (f : pydict) : option pyval := f !! "tag".

Definition mention_of (f : pydict) : option pyval :=
  match f !! "tag" with
  | Some _ => None
  | None => f !! "did"
  end.

Definition link_of (f : pydict) : option pyval :=
  match f !! "tag", f !! "did" with
  | None, None => f !! "uri"
  | _, _ => None
  end.

Definition contribution (f : pydict) : nat :=
  (List.length (omap hashtag_of [f]) + List.length (omap mention_of [f])
   + List.length (omap link_of [f]))%nat.

(** The fields the media loop reads from an image entry. *)
Record image_fields : Type := mkImage {
  img_alt : pyval;
  img_width : pyval;
  img_height : pyval;
  img_link : string;
  img_mime : string
}.

(** The width and height of an image entry: those of its aspect ratio, and
    zero for both when it has none or when one of them is missing. *)
Definition read_dimensions (fm : pydict) : option (pyval * pyval) :=
  match fm !! "aspectRatio" with
  | None => Some (PInt 0, PInt 0)
  | Some (PDict a) =>
      match a !! "width", a !! "height" with
      | Some w, Some h => Some (w, h)
      | _, _ => Some (PInt 0, PInt 0)
      end
  | Some _ => None
  end.

(** An image entry of the expected shape, and its fields. *)
Definition read_image (file : pyval) : option image_fields :=
  match file with
  | PDict fm =>
      match fm !! "alt", fm !! "image", read_dimensions fm with
      | Some alt, Some (PDict im), Some (w, h) =>
          match im !! "ref", im !! "mimeType" with
          | Some (PDict rf), Some (PStr mime) =>
              match rf !! "$link" with
              | Some (PStr link) => Some (mkImage alt w h link mime)
              | _ => None
              end
          | _, _ => None
          end
      | _, _, _ => None
      end
  | _ => None
  end.

(** The post as the media message of an image carries it. *)
Definition media_post (num : Z) (fld : image_fields) (post : pydict) : pydict :=
  <["extension" := PStr (Py.after_last_slash (img_mime fld))]>
    (<["filename" := PStr (img_link fld)]>
       (<["height" := img_height fld]>
          (<["width" := img_width fld]>
             (<["description" := img_alt fld]>
                (<["num" := PInt num]> post))))).

(** The media messages of a list of images, numbered from [num + 1]. *)
Fixpoint media_messages (base : string) (num : Z) (post : pydict)
    (fields : list image_fields) : list Message :=
  match fields with
  | [] => []
  | fld :: rest =>
      let post' := media_post (num + 1) fld post in
      Url (base ++ img_link fld) post' :: media_messages base (num + 1) post' rest
  end.

(** The durable id of the author of a post, when it is a string. *)
Definition author_did (post : pydict) : option string :=
  match post !! "author" with
  | Some (PDict a) =>
      match a !! "did" with
      | Some (PStr did) => Some did
      | _ => None
      end
  | _ => None
  end.

(** The keys of the durable cache *)
Definition access_key (self : BlueskyAPI) : cache_key :=
  ("_authenticate_impl", username self).
Definition refresh_key (self : BlueskyAPI) : cache_key :=
  ("_refresh_token_cache", username self).

(** [authenticate] has nothing to derive up to the time [deadline]: it is
    the no-op, or the durable cache holds a credential that lives longer. *)
Definition signed_in_until (self : BlueskyAPI) (deadline : Z) (w : World) : bool :=
  authenticate_noop self ||
  match db w !! access_key self with
  | Some (_, expires) => deadline <? expires
  | None => false
  end.

Definition signed_in (self : BlueskyAPI) (w : World) : bool :=
  signed_in_until self (clock w) w.

(** The headers of the API once [authenticate] has attached the cached
    credential, if there is one to attach. *)
Definition bearer_headers (self : BlueskyAPI) (w : World) : pydict :=
  if authenticate_noop self then headers w
  else match db w !! access_key self with
       | Some (bearer, _) => <["Authorization" := bearer]> (headers w)
       | None => headers w
       end.

(** The request [_call] issues *)
Definition api_request (self : BlueskyAPI) (endpoint : string) (hdrs params : pydict)
    : Request :=
  mkRequest (root self ++ "/xrpc/" ++ endpoint) "GET" (Some hdrs) (Some params) None.

(** A page: a response of status below 400 whose body holds a list at the
    items key. *)
Definition is_page (key : string) (r : Response) : bool :=
  (status_code r <? 400) &&
  match json r with
  | PDict d => match d !! key with Some (PList _) => true | _ => false end
  | _ => false
  end.

Definition page_items (key : string) (r : Response) : list pyval :=
  match json r with
  | PDict d => match d !! key with Some (PList l) => l | _ => [] end
  | _ => []
  end.

(** The cursor of a response, [None] when it has none. *)
Definition page_cursor (r : Response) : pyval :=
  match json r with
  | PDict d => default PNone (d !! "cursor")
  | _ => PNone
  end.

(** The cursor is present and not empty. *)
Definition has_next (r : Response) : bool := Py.truthy (page_cursor r).

(** The requests of a cursor walk over [pages], from [params] on. *)
Fixpoint page_requests (self : BlueskyAPI) (endpoint : string) (hdrs params : pydict)
    (pages : list Response) : list Request :=
  match pages with
  | [] => []
  | r :: rest =>
      api_request self endpoint hdrs params
      :: page_requests self endpoint hdrs (<["cursor" := page_cursor r]> params) rest
  end.

(** The world after a cursor walk that requested the pages [requested],
    handed over the items of [consumed] and left [rest] in the script. *)
Definition after_pages (self : BlueskyAPI) (endpoint : string) (params : pydict)
    (key : string) (requested consumed rest : list Response) (w : World) : World :=
  set_yielded (yielded w ++ concat (map (page_items key) consumed))
    (set_script rest
       (set_requests
          (requests w ++ page_requests self endpoint (bearer_headers self w)
                                       params requested)
          (set_headers (bearer_headers self w) w))).

(** The world after [n] rate-limited attempts and one more request. *)
Definition after_retries (self : BlueskyAPI) (endpoint : string) (params : pydict)
    (n : nat) (rest : list Response) (w : World) : World :=
  set_clock (clock w + 60 * Z.of_nat n)
    (set_sleeps (sleeps w ++ replicate n 60)
       (set_script rest
          (set_requests
             (requests w ++ replicate (S n)
                (api_request self endpoint (bearer_headers self w) params))
             (set_headers (bearer_headers self w) w)))).

Definition rate_limited (r : Response) : bool := status_code r =? 429.

(** A status of 400 or more, other than 429. *)
Definition failed (r : Response) : bool :=
  (400 <=? status_code r) && negb (status_code r =? 429).

Definition stop_error (r : Response) : exn :=
  StopExtraction "API request failed (%s %s)"
                 [PInt (status_code r); PStr (reason r)].

(** [k] resolutions of the same actor in a row *)
Fixpoint resolve_times (self : BlueskyAPI) (actor : string) (k : nat)
    : Run (list pyval) :=
  match k with
  | O => ret []
  | S k' =>
      did <- _did_from_actor self actor ;;
      dids <- resolve_times self actor k' ;;
      ret (did :: dids)
  end.

(** The refresh token the durable cache holds for the user, [None] when it
    holds none that is live. *)
Definition refresh_token (self : BlueskyAPI) (w : World) : pyval :=
  default PNone (cache_lookup (refresh_key self) w).

Definition refresh_request (self : BlueskyAPI) (token : string) : Request :=
  mkRequest (root self ++ "/xrpc/com.atproto.server.refreshSession") "POST"
            (Some {["Authorization" := PStr ("Bearer " ++ token)]}) None None.

Definition login_request (self : BlueskyAPI) : Request :=
  mkRequest (root self ++ "/xrpc/com.atproto.server.createSession") "POST"
            None None
            (Some (<["identifier" := opt_val (username self)]>
                     ({["password" := opt_val (password self)]}))).

(** The cached token is a string, or there is none to use. *)
Definition token_ok (token : pyval) : bool :=
  match token with
  | PStr _ => true
  | _ => negb (Py.truthy token)
  end.

Definition session_request (self : BlueskyAPI) (token : pyval) : Request :=
  match token with
  | PStr s => if Py.truthy token then refresh_request self s else login_request self
  | _ => login_request self
  end.

(** The world once [_refresh_token_cache] has been called: a lookup that
    finds nothing live stores the [None] the function returns. *)
Definition probed (self : BlueskyAPI) (w : World) : World :=
  match cache_lookup (refresh_key self) w with
  | Some _ => w
  | None => set_db (<[refresh_key self := (PNone, clock w + refresh_maxage)]> (db w)) w
  end.

(** The world in which the response to the session request is read. *)
Definition session_asked (self : BlueskyAPI) (rest : list Response) (w : World)
    : World :=
  set_script rest
    (set_requests (requests w ++ [session_request self (refresh_token self w)])
                  (probed self w)).

(** The world after a session was derived with the request [req]. *)
Definition after_session (req : Request) (rest : list Response)
    (self : BlueskyAPI) (refresh : pyval) (bearer : string) (w : World) : World :=
  set_headers (<["Authorization" := PStr bearer]> (headers w))
    (set_db (<[access_key self := (PStr bearer, clock w + 3600)]>
               (<[refresh_key self := (refresh, clock w + 84 * 86400)]> (db w)))
       (set_script rest (set_requests (requests w ++ [req]) w))).

(** A computation is bounded when it does not end on a loop bound and does
    not add to the script. *)
Definition bounded {A : Type} (m : Run A) : Prop :=
  forall w : World,
    fst (m w) <> OutOfFuel
    /\ (List.length (script (snd (m w))) <= List.length (script w))%nat.


(** ** Sample inputs *)

Module Sample.

Definition facet (k v : string) : pyval :=
  PDict {["features" := PList [PDict {[k := PStr v]}]]}.

Definition facets : list pyval :=
  [facet "tag" "x"; facet "did" "y"; facet "uri" "z"].

Definition image (alt link mime : string) (more : pydict) : pyval :=
  PDict (<["alt" := PStr alt]>
         (<["image" := PDict (<["ref" := PDict {["$link" := PStr link]}]>
                              ({["mimeType" := PStr mime]}))]> more)).

Definition ratio (w h : Z) : pydict :=
  {["aspectRatio" := PDict (<["width" := PInt w]> ({["height" := PInt h]}))]}.

Definition images : list pyval :=
  [image "a cat" "bafkrei1" "image/jpeg" (ratio 4 3);
   image "a dog" "bafkrei2" "image/png" ∅].

(** A feed item: a post of [did:plc:abc] with the given record. *)
Definition item_of (record : pydict) : pyval :=
  PDict {["post" := PDict (
    <["uri" := PStr "at://did:plc:abc/app.bsky.feed.post/3kabc"]>
    (<["author" := PDict {["did" := PStr "did:plc:abc"]}]>
    (<["embed" := PDict {["images" := PList images]}]>
    ({["record" := PDict record]}))))]}.

Definition item : pyval :=
  item_of (<["createdAt" := PStr "2024-01-02T03:04:05.678Z"]>
           ({["facets" := PList facets]})).

Definition flat : pydict :=
  match flatten item with Return d => d | _ => ∅ end.

Definition post : pydict :=
  match normalize item with Return (p, _) => p | _ => ∅ end.

(** The same post with a date that does not parse, and with none. *)
Definition misdated_item : pyval :=
  item_of (<["createdAt" := PStr "yesterday"]> ({["facets" := PList facets]})).

Definition undated_item : pyval :=
  item_of ({["facets" := PList facets]}).

(** A post whose second facet has no features entry. *)
Definition bare_facet : pydict := {["features" := PList []]}.

Definition bare_item : pyval :=
  item_of (<["createdAt" := PStr "2024-01-02T03:04:05.678Z"]>
           ({["facets" := PList [facet "tag" "x"; PDict bare_facet]]})).

Definition bare_flat : pydict :=
  match flatten bare_item with Return d => d | _ => ∅ end.

(** A post without embed. *)
Definition plain_item : pyval :=
  PDict {["post" := PDict (
    <["uri" := PStr "at://did:plc:abc/app.bsky.feed.post/3kxyz"]>
    (<["author" := PDict {["did" := PStr "did:plc:abc"]}]>
    ({["record" := PDict {["createdAt" := PStr "2024-05-06T07:08:09.000Z"]}]})))]}.

Definition world : World := mkWorld [] [] [] 0 ∅ ∅ ∅ [] [].

End Sample.

Module SampleNet.

Definition page (items : list pyval) (cursor : option string) : Response :=
  mkResponse 200 "OK" ""
    (PDict (<["feed" := PList items]>
              (match cursor with
               | Some c => {["cursor" := PStr c]}
               | None => ∅
               end))).

Definition busy : Response :=
  mkResponse 429 "Too Many Requests" "" (PDict ∅).

Definition broken : Response :=
  mkResponse 500 "Internal Server Error" "" (PDict ∅).

Definition p1 : Response := page [PInt 1; PInt 2] (Some "c1").
Definition p2 : Response := page [PInt 3] (Some "c2").
Definition p3 : Response := page [PInt 4; PInt 5] None.

Definition public : BlueskyAPI := BlueskyAPI_init (None, None).

Definition member : BlueskyAPI :=
  BlueskyAPI_init (Some "alice", Some "secret").

(** A fresh process at time 0, in front of a scripted requester. *)
Definition serving (script : list Response) : World :=
  mkWorld script [] [] 0 ∅ ∅ ∅ [] [].

Definition params : pydict :=
  <["actor" := PStr "did:plc:abc"]> ({["limit" := PStr "100"]}).

Definition resolved : Response :=
  mkResponse 200 "OK" "" (PDict {["did" := PStr "did:plc:abc"]}).

Definition session : Response :=
  mkResponse 200 "OK" ""
    (PDict (<["accessJwt" := PStr "acc"]> ({["refreshJwt" := PStr "ref"]}))).

Definition refused : Response :=
  mkResponse 401 "Unauthorized" ""
    (PDict (<["error" := PStr "AuthenticationRequired"]>
              ({["message" := PStr "Invalid identifier or password"]}))).

(** A process whose durable cache holds a refresh token and no
    credential. *)
Definition returning (script : list Response) : World :=
  mkWorld script [] [] 0
          {[("_refresh_token_cache", Some "alice") := (PStr "old", 1000)]}
          ∅ ∅ [] [].

(** A process whose durable cache holds a credential that lives until
    time 1000. *)
Definition signed (script : list Response) : World :=
  mkWorld script [] [] 0
          {[("_authenticate_impl", Some "alice") := (PStr "Bearer tok", 1000)]}
          ∅ ∅ [] [].

Definition extractor : BlueskyExtractor := mkExtractor "did:plc:abc" public.

End SampleNet.

(** ** Vocabulary of the further properties *)

(** The keys the media loop writes for each image. *)
Definition media_keys : list string :=
  ["num"; "description"; "width"; "height"; "filename"; "extension"].

(** The constant part of the blob URLs of a post. *)
Definition blob_base (did : string) : string :=
  blob_endpoint ++ "?did=" ++ did ++ "&cid=".

Definition is_dict (v : pyval) : bool :=
  match v with PDict _ => true | _ => false end.

Definition is_url (m : Message) : bool :=
  match m with Url _ _ => true | _ => false end.

(** The messages of a feed item whose post, images and author have the
    expected shape: the directory message and one message per image. *)
Definition messages_of (item : pyval) : option (list Message) :=
  match normalize item with
  | Return (post, PList files) =>
      match mapM read_image files with
      | Some fields =>
          match files, author_did post with
          | [], _ => Some [Directory post]
          | _ :: _, Some did =>
              Some (Directory post
                    :: media_messages (blob_base did) 0 (<["num" := PInt 0]> post) fields)
          | _ :: _, None => None
          end
      | None => None
      end
  | Return (post, PTuple []) => Some [Directory post]
  | _ => None
  end.

(** The message of a followed account whose did is a string. *)
Definition queue_of (followed : pyval) : option (list Message) :=
  match followed with
  | PDict d =>
      match d !! "did" with
      | Some (PStr did) => Some [Queue ("https://bsky.app/profile/" ++ did) followed]
      | _ => None
      end
  | _ => None
  end.

(** The messages of a list of items, in order, when every item has some. *)
Fixpoint handed_over (f : pyval -> option (list Message)) (items : list pyval)
    : option (list Message) :=
  match items with
  | [] => Some []
  | item :: rest =>
      match f item, handed_over f rest with
      | Some msgs, Some more => Some (msgs ++ more)%list
      | _, _ => None
      end
  end.

(** A loop body that hands over the messages [f] gives for an item, and
    does nothing else. *)
Definition emits (body : pyval -> Run unit) (f : pyval -> option (list Message))
    : Prop :=
  forall (item : pyval) (msgs : list Message) (w : World),
    f item = Some msgs ->
    body item w = (Return tt, set_emitted (emitted w ++ msgs) w).

(** The world after the pages [pages] were requested and the messages
    [msgs] handed over. *)
Definition after_feed (self : BlueskyAPI) (endpoint : string) (params : pydict)
    (key : string) (pages rest : list Response) (msgs : list Message) (w : World)
    : World :=
  set_emitted (emitted w ++ msgs)
              (after_pages self endpoint params key pages [] rest w).

(** The world after a handle was resolved to [did] by the response [r]. *)
Definition after_resolution (self : BlueskyAPI) (handle : string) (did : pyval)
    (rest : list Response) (w : World) : World :=
  set_memo (<[handle := did]> (memo w))
    (set_script rest
       (set_requests
          (requests w ++
             [api_request self "com.atproto.identity.resolveHandle"
                          (bearer_headers self w) {["handle" := PStr handle]}])
          (set_headers (bearer_headers self w) w))).

(** A page together with the rate-limited responses that come before it,
    and what a requester serves for a list of them. *)
Definition served (segments : list (list Response * Response)) : list Response :=
  concat (map (fun s => (fst s ++ [snd s])%list) segments).

Definition waits (segments : list (list Response * Response)) : nat :=
  List.length (concat (map fst segments)).

(** The requests of a cursor walk in which the request of a page is
    repeated after each rate-limited response. *)
Fixpoint retried_requests (self : BlueskyAPI) (endpoint : string)
    (hdrs params : pydict) (segments : list (list Response * Response))
    : list Request :=
  match segments with
  | [] => []
  | s :: more =>
      (replicate (S (List.length (fst s))) (api_request self endpoint hdrs params)
       ++ retried_requests self endpoint hdrs
                           (<["cursor" := page_cursor (snd s)]> params) more)%list
  end.

(** ** Further sample inputs *)

Module Edge.

(** A post and a record that share the key [cid]; the record has a key
    named [record] of its own. *)
Definition shadow_record : pydict :=
  <["cid" := PStr "inner"]> ({["record" := PStr "nested"]}).

Definition shadow_post : pydict :=
  <["cid" := PStr "outer"]>
  (<["uri" := PStr "at://did:plc:abc/app.bsky.feed.post/3kabc"]>
  ({["record" := PDict shadow_record]})).

Definition shadow_item : pyval := PDict {["post" := PDict shadow_post]}.

(** An embed with images of its own and a media without any. *)
Definition shadowed_embed : pydict :=
  <["images" := PList Sample.images]> ({["media" := PDict ∅]}).

(** A feed item of the given images, with or without author. *)
Definition item_of (author : option string) (images : list pyval) : pyval :=
  PDict {["post" := PDict (
    <["uri" := PStr "at://did:plc:abc/app.bsky.feed.post/3kabc"]>
    (<["embed" := PDict {["images" := PList images]}]>
    (match author with
     | Some did => <["author" := PDict {["did" := PStr did]}]>
     | None => fun d => d
     end
     ({["record" := PDict {["createdAt" := PStr "2024-01-02T03:04:05.678Z"]}]}))))]}.

Definition post_of (item : pyval) : pydict :=
  match normalize item with Return (p, _) => p | _ => ∅ end.

Definition flat_of (item : pyval) : pydict :=
  match flatten item with Return d => d | _ => ∅ end.

Definition orphan_item : pyval := item_of None Sample.images.

(** An image without [alt], between two that have one. *)
Definition mute_image : pydict :=
  {["image" := PDict (<["ref" := PDict {["$link" := PStr "bafkrei3"]}]>
                      ({["mimeType" := PStr "image/gif"]}))]}.

Definition mute_item : pyval :=
  item_of (Some "did:plc:abc")
          [Sample.image "a cat" "bafkrei1" "image/jpeg" ∅;
           PDict mute_image;
           Sample.image "a dog" "bafkrei2" "image/png" ∅].

(** An image whose aspect ratio has a width and no height. *)
Definition narrow_image : pydict :=
  {["aspectRatio" := PDict {["width" := PInt 4]}]}.

(** Two pages of posts, a page of follows and a thread. *)
Definition feed1 : Response :=
  SampleNet.page [Sample.plain_item; Sample.item] (Some "c1").

Definition feed2 : Response := SampleNet.page [Sample.plain_item] None.

Definition bad_feed : Response :=
  SampleNet.page [Sample.plain_item; Sample.undated_item; Sample.item] (Some "c1").

Definition follow (did : string) : pyval :=
  PDict (<["did" := PStr did]> ({["handle" := PStr "someone"]})).

Definition follows : Response :=
  mkResponse 200 "OK" ""
    (PDict {["follows" := PList [follow "did:plc:one"; follow "did:plc:two"]]}).

Definition thread : Response :=
  mkResponse 200 "OK" "" (PDict {["thread" := Sample.plain_item]}).

Definition no_thread : Response := mkResponse 200 "OK" "" (PDict ∅).

(** A session response without access token. *)
Definition half_session : Response :=
  mkResponse 200 "OK" "" (PDict {["refreshJwt" := PStr "ref"]}).

Definition handle_extractor : BlueskyExtractor :=
  mkExtractor "alice.bsky.social" SampleNet.public.

(** The messages of a list of posts. *)
Definition messages (items : list pyval) : list Message :=
  default [] (handed_over messages_of items).

(** A process whose credential expires at time 30, and whose refresh token
    lives until time 1000. *)
Definition expiring (script : list Response) : World :=
  mkWorld script [] [] 0
          (<[("_authenticate_impl", Some "alice") := (PStr "Bearer tok", 30)]>
             {[("_refresh_token_cache", Some "alice") := (PStr "old", 1000)]})
          ∅ ∅ [] [].

End Edge.

(** ** The facets *)

Lemma facet_step_first (acc : facet_lists) (facet : pyval) (f : pydict) :
  first_feature facet = Some f ->
  facet_step acc facet =
    Return (mkFacets (tags acc ++ omap hashtag_of [f])
                     (dids acc ++ omap mention_of [f])
                     (uris acc ++ omap link_of [f])).
Proof.
  intros Hf. destruct facet as [| | | | | |fm|]; try discriminate.
  simpl in Hf. destruct (fm !! "features") as [v|] eqn:Hfeat; [|discriminate].
  destruct v as [| | | |[|x l]| | |]; try discriminate.
  destruct x as [| | | | | |f'|]; try discriminate.
  injection Hf as ->.
  unfold facet_step. simpl. rewrite Hfeat. simpl.
  unfold hashtag_of, mention_of, link_of.
  destruct (f !! "tag") as [t|] eqn:Ht; simpl.
  { rewrite !app_nil_r. destruct acc; reflexivity. }
  destruct (f !! "did") as [d|] eqn:Hd; simpl.
  { rewrite !app_nil_r. destruct acc; reflexivity. }
  destruct (f !! "uri") as [u|] eqn:Hu; simpl.
  { rewrite !app_nil_r. destruct acc; reflexivity. }
  rewrite !app_nil_r. destruct acc; reflexivity.
Qed.

Lemma facet_loop_firsts (facets : list pyval) :
  forall (firsts : list pydict) (acc : facet_lists),
    mapM first_feature facets = Some firsts ->
    facet_loop acc facets =
      Return (mkFacets (tags acc ++ omap hashtag_of firsts)
                       (dids acc ++ omap mention_of firsts)
                       (uris acc ++ omap link_of firsts)).
Proof.
  induction facets as [|facet rest IH]; intros firsts acc Hm.
  - injection Hm as <-. simpl. rewrite !app_nil_r. destruct acc; reflexivity.
  - apply mapM_Some in Hm. inversion Hm as [|? f ? firsts' Hf Hrest]; subst.
    apply mapM_Some in Hrest.
    simpl facet_loop. rewrite (facet_step_first acc facet f Hf). simpl obind.
    rewrite (IH firsts' _ Hrest). cbn [tags dids uris].
    change (f :: firsts') with ([f] ++ firsts')%list.
    rewrite !omap_app, !app_assoc. reflexivity.
Qed.

Lemma contribution_le_1 (f : pydict) : (contribution f <= 1)%nat.
Proof.
  unfold contribution, hashtag_of, mention_of, link_of. simpl.
  destruct (f !! "tag"), (f !! "did"), (f !! "uri"); simpl; lia.
Qed.

Lemma normalize_keeps (k : string) (item : pyval) (flat post post1 : pydict)
    (images : pyval) :
  k <> "post_id" -> k <> "count" -> k <> "date" ->
  flatten item = Return flat ->
  collect_facets flat = Return post1 ->
  normalize item = Return (post, images) ->
  post !! k = post1 !! k.
Proof.
  intros H1 H2 H3 Hflat Hfac Hn. unfold normalize in Hn.
  rewrite Hflat in Hn. simpl in Hn.
  destruct (locate_images flat) as [im| | | |]; try discriminate. simpl in Hn.
  rewrite Hfac in Hn. simpl in Hn.
  destruct (obind (Py.dict_getitem post1 "uri") Py.rpartition_last);
    try discriminate. simpl in Hn.
  destruct (Py.len im); try discriminate. simpl in Hn.
  match type of Hn with obind ?o _ = _ => destruct o end; try discriminate.
  simpl in Hn. injection Hn as <- <-.
  rewrite !lookup_insert_ne by congruence. reflexivity.
Qed.

Lemma set_facet_lists_lookup (h m u : pyval) (post : pydict) :
  set_facet_lists h m u post !! "hashtags" = Some h
  /\ set_facet_lists h m u post !! "mentions" = Some m
  /\ set_facet_lists h m u post !! "uris" = Some u.
Proof.
  unfold set_facet_lists. split; [|split].
  - rewrite !lookup_insert_ne by done. apply lookup_insert_eq.
  - rewrite lookup_insert_ne by done. apply lookup_insert_eq.
  - apply lookup_insert_eq.
Qed.

(** C7. Normalization looks at the first features entry of each facet only:
    its value goes to hashtags if it has a tag key, else to mentions if it
    has a did key, else to uris if it has a uri key, and is dropped
    otherwise, so that a facet contributes to at most one list.  Without a
    facets key the three lists are present and empty. *)
Theorem facets_sorted (item : pyval) (flat : pydict) :
  flatten item = Return flat ->
  (forall (facets : list pyval) (firsts : list pydict),
      flat !! "facets" = Some (PList facets) ->
      mapM first_feature facets = Some firsts ->
      collect_facets flat =
        Return (set_facet_lists (PList (omap hashtag_of firsts))
                                (PList (omap mention_of firsts))
                                (PList (omap link_of firsts)) flat)
      /\ forall (post : pydict) (images : pyval),
           normalize item = Return (post, images) ->
           post !! "hashtags" = Some (PList (omap hashtag_of firsts))
           /\ post !! "mentions" = Some (PList (omap mention_of firsts))
           /\ post !! "uris" = Some (PList (omap link_of firsts)))
  /\ (flat !! "facets" = None ->
      collect_facets flat =
        Return (set_facet_lists (PTuple []) (PTuple []) (PTuple []) flat)
      /\ forall (post : pydict) (images : pyval),
           normalize item = Return (post, images) ->
           post !! "hashtags" = Some (PTuple [])
           /\ post !! "mentions" = Some (PTuple [])
           /\ post !! "uris" = Some (PTuple []))
  /\ (forall f : pydict, (contribution f <= 1)%nat).
Proof.
  intros Hflat. split; [|split].
  - intros facets firsts Hfacets Hfirsts.
    assert (Hc : collect_facets flat =
                   Return (set_facet_lists (PList (omap hashtag_of firsts))
                                           (PList (omap mention_of firsts))
                                           (PList (omap link_of firsts)) flat)).
    { unfold collect_facets. rewrite Hfacets. simpl.
      by rewrite (facet_loop_firsts facets firsts _ Hfirsts). }
    split; [exact Hc|]. intros post images Hn.
    rewrite !(normalize_keeps _ item flat post _ images) by (done || eassumption).
    apply set_facet_lists_lookup.
  - intros Hnone.
    assert (Hc : collect_facets flat =
                   Return (set_facet_lists (PTuple []) (PTuple []) (PTuple []) flat)).
    { unfold collect_facets. by rewrite Hnone. }
    split; [exact Hc|]. intros post images Hn.
    rewrite !(normalize_keeps _ item flat post _ images) by (done || eassumption).
    apply set_facet_lists_lookup.
  - apply contribution_le_1.
Qed.

Lemma facets_sorted_witness :
  flatten Sample.item = Return Sample.flat
  /\ Sample.post !! "hashtags" = Some (PList [PStr "x"])
  /\ Sample.post !! "mentions" = Some (PList [PStr "y"])
  /\ Sample.post !! "uris" = Some (PList [PStr "z"]).
Proof.
  assert (Hflat : flatten Sample.item = Return Sample.flat)
    by (reflexivity).
  split; [exact Hflat|].
  destruct (facets_sorted Sample.item Sample.flat Hflat) as [H _].
  destruct (H Sample.facets
              [{["tag" := PStr "x"]}; {["did" := PStr "y"]}; {["uri" := PStr "z"]}]
              ltac:(reflexivity) ltac:(reflexivity))
    as [_ Hpost].
  apply (Hpost Sample.post (PList Sample.images)).
  reflexivity.
Defined.

(** ** The media records *)

Lemma append_assoc (a b c : string) : (a ++ b) ++ c = a ++ (b ++ c).
Proof.
  induction a as [|x a IH]; [reflexivity|].
  change (String x ((a ++ b) ++ c) = String x (a ++ (b ++ c))).
  by f_equal.
Qed.

Lemma set_dimensions_read (fm : pydict) (post : pydict) (w h : pyval) :
  read_dimensions fm = Some (w, h) ->
  set_dimensions (PDict fm) post = Return (<["height" := h]> (<["width" := w]> post)).
Proof.
  unfold read_dimensions, set_dimensions. simpl.
  destruct (fm !! "aspectRatio") as [a|]; simpl.
  - destruct a; try discriminate. simpl.
    destruct (d !! "width") as [w'|]; simpl.
    + destruct (d !! "height") as [h'|]; simpl; intros [= <- <-]; reflexivity.
    + intros [= <- <-]; reflexivity.
  - intros [= <- <-]; reflexivity.
Qed.

Lemma media_step_read (base : string) (post : pydict) (file : pyval)
    (fld : image_fields) (num : Z) :
  read_image file = Some fld ->
  post !! "num" = Some (PInt num) ->
  media_step base post file =
    Return (base ++ img_link fld, media_post (num + 1) fld post).
Proof.
  intros Hr Hnum. destruct file as [| | | | | |fm|]; try discriminate.
  simpl in Hr.
  destruct (fm !! "alt") as [alt|] eqn:Halt; [|discriminate].
  destruct (fm !! "image") as [[| | | | | |im|]|] eqn:Him; try discriminate.
  destruct (read_dimensions fm) as [[w h]|] eqn:Hdim; [|discriminate].
  destruct (im !! "ref") as [[| | | | | |rf|]|] eqn:Hrf; try discriminate.
  destruct (im !! "mimeType") as [[| | |mime| | | |]|] eqn:Hmime; try discriminate.
  destruct (rf !! "$link") as [[| | |link| | | |]|] eqn:Hlink; try discriminate.
  injection Hr as <-.
  unfold media_step, increment_num, Py.dict_getitem. simpl. rewrite Hnum. simpl.
  rewrite Halt. simpl.
  rewrite (set_dimensions_read fm _ w h Hdim). simpl.
  rewrite Him. simpl. rewrite Hrf. simpl. rewrite Hlink. simpl.
  rewrite Hmime. simpl. reflexivity.
Qed.

Lemma emit_twice (w : World) (m : Message) (l : list Message) :
  set_emitted (emitted (set_emitted (emitted w ++ [m]) w) ++ l)
              (set_emitted (emitted w ++ [m]) w)
  = set_emitted (emitted w ++ m :: l) w.
Proof.
  destruct w; unfold set_emitted; simpl.
  by rewrite <- (List.app_assoc _ [m] l).
Qed.

Lemma media_post_num (num : Z) (fld : image_fields) (post : pydict) :
  media_post num fld post !! "num" = Some (PInt num).
Proof.
  unfold media_post. rewrite !lookup_insert_ne by done. apply lookup_insert_eq.
Qed.

Lemma media_loop_read (base : string) (files : list pyval) :
  forall (fields : list image_fields) (post : pydict) (num : Z) (w : World),
    mapM read_image files = Some fields ->
    post !! "num" = Some (PInt num) ->
    media_loop base post files emit w =
      (Return tt, set_emitted (emitted w ++ media_messages base num post fields) w).
Proof.
  induction files as [|file rest IH]; intros fields post num w Hm Hnum.
  - injection Hm as <-. simpl. unfold ret. destruct w; unfold set_emitted; simpl.
    by rewrite app_nil_r.
  - apply mapM_Some in Hm. inversion Hm as [|? fld ? fields' Hf Hrest]; subst.
    apply mapM_Some in Hrest.
    simpl media_loop. unfold bind at 1. unfold lift.
    rewrite (media_step_read base post file fld num Hf Hnum).
    unfold bind at 1. unfold emit at 1.
    rewrite (IH fields' _ (num + 1) _ Hrest (media_post_num _ _ _)).
    simpl media_messages. by rewrite emit_twice.
Qed.

Lemma media_messages_length (base : string) (fields : list image_fields) :
  forall (num : Z) (post : pydict),
    List.length (media_messages base num post fields) = List.length fields.
Proof. induction fields as [|fld rest IH]; intros; simpl; [done | by rewrite IH]. Qed.

Lemma media_messages_lookup (base : string) (fields : list image_fields) :
  forall (num : Z) (post : pydict) (i : nat) (fld : image_fields),
    fields !! i = Some fld ->
    exists p,
      media_messages base num post fields !! i = Some (Url (base ++ img_link fld) p)
      /\ p !! "num" = Some (PInt (num + Z.of_nat i + 1))
      /\ p !! "description" = Some (img_alt fld)
      /\ p !! "width" = Some (img_width fld)
      /\ p !! "height" = Some (img_height fld)
      /\ p !! "filename" = Some (PStr (img_link fld))
      /\ p !! "extension" = Some (PStr (Py.after_last_slash (img_mime fld))).
Proof.
  induction fields as [|f rest IH]; intros num post i fld Hi; [done|].
  destruct i as [|i]; simpl in Hi.
  - injection Hi as ->. eexists. split; [reflexivity|].
    unfold media_post. repeat split;
      rewrite ?lookup_insert_ne by done; rewrite ?lookup_insert_eq; try done.
    f_equal. f_equal. lia.
  - destruct (IH (num + 1) (media_post (num + 1) f post) i fld Hi) as (p & Hp & Hn & Hrest).
    exists p. split; [exact Hp|]. split; [|exact Hrest].
    rewrite Hn. f_equal. f_equal. lia.
Qed.

Lemma after_last_slash_none (s : string) :
  Py.has_slash s = false -> Py.after_last_slash s = s.
Proof.
  destruct s as [|c r]; [reflexivity|]. cbn [Py.has_slash Py.after_last_slash].
  destruct (Ascii.eqb c "/"); [discriminate|]. simpl orb. by intros ->.
Qed.

Lemma has_slash_app (p e : string) : Py.has_slash (p ++ "/" ++ e) = true.
Proof.
  induction p as [|c p IH]; [reflexivity|].
  change (Ascii.eqb c "/" || Py.has_slash (p ++ "/" ++ e) = true).
  rewrite IH. apply orb_true_r.
Qed.

Lemma after_last_slash_app (p e : string) :
  Py.has_slash e = false -> Py.after_last_slash (p ++ "/" ++ e) = e.
Proof.
  intros He. induction p as [|c p IH].
  - change (Py.after_last_slash (String "/" e) = e).
    cbn [Py.after_last_slash]. by rewrite He.
  - change (Py.after_last_slash (String c (p ++ "/" ++ e)) = e).
    cbn [Py.after_last_slash]. by rewrite has_slash_app.
Qed.

Lemma read_image_fields (fm : pydict) (fld : image_fields) :
  read_image (PDict fm) = Some fld ->
  fm !! "alt" = Some (img_alt fld)
  /\ (fm !! "aspectRatio" = None ->
      img_width fld = PInt 0 /\ img_height fld = PInt 0)
  /\ (forall (a : pydict) (w h : pyval),
        fm !! "aspectRatio" = Some (PDict a) ->
        a !! "width" = Some w -> a !! "height" = Some h ->
        img_width fld = w /\ img_height fld = h)
  /\ exists im rf : pydict,
       fm !! "image" = Some (PDict im)
       /\ im !! "ref" = Some (PDict rf)
       /\ rf !! "$link" = Some (PStr (img_link fld))
       /\ im !! "mimeType" = Some (PStr (img_mime fld)).
Proof.
  intros Hr. simpl in Hr.
  destruct (fm !! "alt") as [alt|] eqn:Halt; [|discriminate].
  destruct (fm !! "image") as [[| | | | | |im|]|] eqn:Him; try discriminate.
  destruct (read_dimensions fm) as [[w h]|] eqn:Hdim; [|discriminate].
  destruct (im !! "ref") as [[| | | | | |rf|]|] eqn:Hrf; try discriminate.
  destruct (im !! "mimeType") as [[| | |mime| | | |]|] eqn:Hmime; try discriminate.
  destruct (rf !! "$link") as [[| | |link| | | |]|] eqn:Hlink; try discriminate.
  injection Hr as <-. simpl. unfold read_dimensions in Hdim.
  split; [reflexivity|]. split; [|split].
  - intros Ha. rewrite Ha in Hdim. by injection Hdim as <- <-.
  - intros a w' h' Ha Hw Hh. rewrite Ha, Hw, Hh in Hdim. by injection Hdim as <- <-.
  - by exists im, rf.
Qed.

(** C8. A post with n located images gives one directory message and then
    exactly n media messages, in the order of the images.  The i-th one
    (counted from 1) carries num = i, the alt text of the image as
    description, the width and height of its aspect ratio (0 and 0 when it
    has none), the blob link as filename, the text after the last slash of
    the mime type as extension, and the URL
    https://bsky.social/xrpc/com.atproto.sync.getBlob?did=<author did>&cid=<link>,
    whose host does not depend on the API root. *)
Theorem media_records (item : pyval) (post : pydict) (files : list pyval)
    (fields : list image_fields) (did : string) (w : World) :
  normalize item = Return (post, PList files) ->
  mapM read_image files = Some fields ->
  (files <> [] -> author_did post = Some did) ->
  exists msgs : list Message,
    items_body item emit w
      = (Return tt, set_emitted (emitted w ++ Directory post :: msgs) w)
    /\ List.length msgs = List.length files
    /\ (forall (i : nat) (fld : image_fields),
          fields !! i = Some fld ->
          exists p : pydict,
            msgs !! i =
              Some (Url ("https://bsky.social/xrpc/com.atproto.sync.getBlob?did="
                         ++ did ++ "&cid=" ++ img_link fld) p)
            /\ p !! "num" = Some (PInt (Z.of_nat i + 1))
            /\ p !! "description" = Some (img_alt fld)
            /\ p !! "width" = Some (img_width fld)
            /\ p !! "height" = Some (img_height fld)
            /\ p !! "filename" = Some (PStr (img_link fld))
            /\ p !! "extension" = Some (PStr (Py.after_last_slash (img_mime fld))))
    /\ (forall (i : nat) (fm : pydict) (fld : image_fields),
          files !! i = Some (PDict fm) -> fields !! i = Some fld ->
          fm !! "alt" = Some (img_alt fld)
          /\ (fm !! "aspectRatio" = None ->
              img_width fld = PInt 0 /\ img_height fld = PInt 0)
          /\ (forall (a : pydict) (wd ht : pyval),
                fm !! "aspectRatio" = Some (PDict a) ->
                a !! "width" = Some wd -> a !! "height" = Some ht ->
                img_width fld = wd /\ img_height fld = ht)
          /\ exists im rf : pydict,
               fm !! "image" = Some (PDict im)
               /\ im !! "ref" = Some (PDict rf)
               /\ rf !! "$link" = Some (PStr (img_link fld))
               /\ im !! "mimeType" = Some (PStr (img_mime fld)))
    /\ (forall p e : string,
          Py.has_slash e = false -> Py.after_last_slash (p ++ "/" ++ e) = e).
Proof.
  intros Hnorm Hread Hdid.
  assert (Hlen : List.length fields = List.length files).
  { apply mapM_Some in Hread. symmetry. eapply Forall2_length, Hread. }
  assert (Hfields : forall (i : nat) (fm : pydict) (fld : image_fields),
             files !! i = Some (PDict fm) -> fields !! i = Some fld ->
             read_image (PDict fm) = Some fld).
  { intros i fm fld Hi Hf. apply mapM_Some in Hread.
    destruct (Forall2_lookup_l _ _ _ _ _ Hread Hi) as (fld' & Hf' & Hr).
    congruence. }
  destruct files as [|file rest].
  - injection Hread as <-. exists []. split; [|split; [|split; [|split]]].
    + unfold items_body, bind, lift. rewrite Hnorm. reflexivity.
    + reflexivity.
    + intros i fld Hi. done.
    + intros i fm fld Hi. done.
    + apply after_last_slash_app.
  - specialize (Hdid ltac:(done)). unfold author_did in Hdid.
    destruct (post !! "author") as [[| | | | | |a|]|] eqn:Hauthor; try discriminate.
    destruct (a !! "did") as [[| | |did'| | | |]|] eqn:Ha; try discriminate.
    injection Hdid as ->.
    set (base := blob_endpoint ++ "?did=" ++ did ++ "&cid=").
    exists (media_messages base 0 (<["num" := PInt 0]> post) fields).
    split; [|split; [|split; [|split]]].
    + unfold items_body, bind at 1, lift at 1. rewrite Hnorm.
      unfold bind at 1. unfold emit at 1. simpl Py.truthy. simpl negb.
      unfold bind at 1, lift at 1, Py.dict_getitem. simpl. rewrite Hauthor. simpl.
      rewrite Ha. unfold bind at 1, lift at 1. simpl Py.str.
      unfold bind at 1, lift at 1. fold base.
      rewrite (media_loop_read base (file :: rest) fields _ 0 _ Hread
                 (lookup_insert_eq _ _ _)).
      by rewrite emit_twice.
    + rewrite media_messages_length. exact Hlen.
    + intros i fld Hi.
      destruct (media_messages_lookup base fields 0 (<["num" := PInt 0]> post) i fld Hi)
        as (p & Hp & Hn & Hrest).
      exists p. split; [|split; [|exact Hrest]].
      * rewrite Hp. unfold base, blob_endpoint. simpl.
        rewrite !append_assoc. reflexivity.
      * rewrite Hn. f_equal. 
    + intros i fm fld Hi Hf. apply read_image_fields. eapply Hfields; eauto.
    + apply after_last_slash_app.
Qed.

(** ** The date *)

Lemma collect_facets_keeps (k : string) (flat post1 : pydict) :
  k <> "hashtags" -> k <> "mentions" -> k <> "uris" ->
  collect_facets flat = Return post1 -> post1 !! k = flat !! k.
Proof.
  intros H1 H2 H3. unfold collect_facets.
  destruct (flat !! "facets") as [facets|]; simpl.
  - destruct (Py.iter facets) as [l| | | |]; try discriminate. simpl.
    destruct (facet_loop _ l); try discriminate. simpl. intros [= <-].
    unfold set_facet_lists. by rewrite !lookup_insert_ne.
  - intros [= <-]. unfold set_facet_lists. by rewrite !lookup_insert_ne.
Qed.

(** C9, amended. When createdAt is a string, normalization parses its first
    19 characters in the format YYYY-MM-DDTHH:MM:SS into the date of the
    record; when they do not parse, the date is the absent one, and
    normalization goes on: provided the rest of the post is read without
    failure, a record is returned whatever the string is. *)
Theorem date_parsed (item : pyval) (flat post1 : pydict) (images : pyval)
    (post_id : pyval) (count : Z) (s : string) :
  flatten item = Return flat ->
  locate_images flat = Return images ->
  collect_facets flat = Return post1 ->
  obind (Py.dict_getitem post1 "uri") Py.rpartition_last = Return post_id ->
  Py.len images = Return count ->
  flat !! "createdAt" = Some (PStr s) ->
  exists post : pydict,
    normalize item = Return (post, images)
    /\ post !! "date" =
         Some (match Text.strptime (String.substring 0 19 s) with
               | Some t => PDate t
               | None => PNone
               end).
Proof.
  intros Hflat Himg Hfac Huri Hlen Hdate.
  eexists. split.
  - unfold normalize. rewrite Hflat. simpl. rewrite Himg. simpl.
    rewrite Hfac. simpl. rewrite Huri. simpl. rewrite Hlen. simpl.
    unfold Py.dict_getitem. simpl. rewrite !lookup_insert_ne by done.
    rewrite (collect_facets_keeps "createdAt" flat post1) by done.
    rewrite Hdate. simpl. reflexivity.
  - rewrite lookup_insert_eq. reflexivity.
Qed.

Lemma date_parsed_witness :
  (exists post : pydict,
      normalize Sample.item = Return (post, PList Sample.images)
      /\ post !! "date" = Some (PDate (mkDatetime 2024 1 2 3 4 5)))
  /\ (exists post : pydict,
      normalize Sample.misdated_item = Return (post, PList Sample.images)
      /\ post !! "date" = Some PNone).
Proof.
  split.
  - apply (date_parsed Sample.item Sample.flat
             (match collect_facets Sample.flat with Return p => p | _ => ∅ end)
             (PList Sample.images) (PStr "3kabc") 2 "2024-01-02T03:04:05.678Z");
      reflexivity.
  - apply (date_parsed Sample.misdated_item
             (match flatten Sample.misdated_item with Return d => d | _ => ∅ end)
             (match obind (flatten Sample.misdated_item) collect_facets with
              | Return p => p | _ => ∅ end)
             (PList Sample.images) (PStr "3kabc") 2 "yesterday");
      reflexivity.
Defined.

(** C9 as stated fails where createdAt is missing: line 66 subscripts the
    post before the date is parsed, and the KeyError leaves [items]. *)
Lemma missing_date_raises :
  (exists flat : pydict,
      flatten Sample.undated_item = Return flat /\ flat !! "createdAt" = None)
  /\ normalize Sample.undated_item = Raise (KeyError (PStr "createdAt"))
  /\ fst (items_body Sample.undated_item emit Sample.world)
     = Raise (KeyError (PStr "createdAt")).
Proof.
  split; [|split].
  - eexists. split; reflexivity.
  - reflexivity.
  - reflexivity.
Qed.

(** ** Facets without features *)

Lemma facet_loop_app (pre suf : list pyval) :
  forall acc : facet_lists,
    facet_loop acc (pre ++ suf) =
      obind (facet_loop acc pre) (fun acc' => facet_loop acc' suf).
Proof.
  induction pre as [|facet pre IH]; intros acc; [reflexivity|].
  simpl. destruct (facet_step acc facet); simpl; try reflexivity. apply IH.
Qed.

Lemma facet_step_bare (acc : facet_lists) (fm : pydict) :
  fm !! "features" = None \/ fm !! "features" = Some (PList []) ->
  facet_step acc (PDict fm) =
    Raise (match fm !! "features" with
           | None => KeyError (PStr "features")
           | Some _ => IndexError
           end).
Proof. intros [H|H]; unfold facet_step; simpl; rewrite H; reflexivity. Qed.

Lemma normalize_facets_raise (item : pyval) (flat : pydict) :
  flatten item = Return flat ->
  is_return (collect_facets flat) = false ->
  is_return (normalize item) = false.
Proof.
  intros Hflat Hc. unfold normalize. rewrite Hflat. simpl.
  destruct (locate_images flat); try reflexivity. simpl.
  destruct (collect_facets flat); try reflexivity. discriminate.
Qed.

(** C10. A facet whose features list is empty or absent is not skipped:
    normalization of a post that has one does not return a record.  When
    the facets before it are read without failure, what leaves
    normalization is the IndexError of the empty list, or the KeyError of
    the absent key. *)
Theorem featureless_facet_raises (item : pyval) (flat : pydict)
    (pre suf : list pyval) (fm : pydict) :
  flatten item = Return flat ->
  flat !! "facets" = Some (PList (pre ++ PDict fm :: suf)) ->
  fm !! "features" = None \/ fm !! "features" = Some (PList []) ->
  is_return (normalize item) = false
  /\ forall (images : pyval) (acc : facet_lists),
       locate_images flat = Return images ->
       facet_loop (mkFacets [] [] []) pre = Return acc ->
       normalize item =
         Raise (match fm !! "features" with
                | None => KeyError (PStr "features")
                | Some _ => IndexError
                end).
Proof.
  intros Hflat Hfacets Hbare. split.
  - apply (normalize_facets_raise item flat Hflat).
    unfold collect_facets. rewrite Hfacets. simpl. rewrite facet_loop_app.
    destruct (facet_loop _ pre) as [acc| | | |]; try reflexivity. simpl.
    by rewrite (facet_step_bare acc fm Hbare).
  - intros images acc Himg Hpre. unfold normalize. rewrite Hflat. simpl.
    rewrite Himg. simpl. unfold collect_facets. rewrite Hfacets. simpl.
    rewrite facet_loop_app, Hpre. simpl.
    by rewrite (facet_step_bare acc fm Hbare).
Qed.

Lemma featureless_facet_raises_witness :
  flatten Sample.bare_item = Return Sample.bare_flat
  /\ normalize Sample.bare_item = Raise IndexError.
Proof.
  assert (Hflat : flatten Sample.bare_item = Return Sample.bare_flat)
    by (reflexivity).
  split; [exact Hflat|].
  destruct (featureless_facet_raises Sample.bare_item Sample.bare_flat
              [Sample.facet "tag" "x"] [] Sample.bare_facet Hflat
              ltac:(reflexivity)
              ltac:(right; reflexivity)) as [_ H].
  apply (H (PList Sample.images) (mkFacets [PStr "x"] [] []));
    reflexivity.
Defined.

Lemma media_records_witness :
  exists msgs : list Message,
    items_body Sample.item emit Sample.world
      = (Return tt,
         set_emitted (emitted Sample.world ++ Directory Sample.post :: msgs)
                     Sample.world)
    /\ List.length msgs = 2%nat.
Proof.
  destruct (media_records Sample.item Sample.post Sample.images
              [mkImage (PStr "a cat") (PInt 4) (PInt 3) "bafkrei1" "image/jpeg";
               mkImage (PStr "a dog") (PInt 0) (PInt 0) "bafkrei2" "image/png"]
              "did:plc:abc" Sample.world
              ltac:(reflexivity) ltac:(reflexivity)
              ltac:(intros _; reflexivity))
    as (msgs & Hrun & Hlen & _).
  exists msgs. split; [exact Hrun | exact Hlen].
Defined.

(** ** The call layer *)

Lemma signed_in_until_le (self : BlueskyAPI) (d d' : Z) (w : World) :
  d' <= d -> signed_in_until self d w = true -> signed_in_until self d' w = true.
Proof.
  unfold signed_in_until. intros Hle.
  destruct (authenticate_noop self); [done|]. simpl.
  destruct (db w !! access_key self) as [[v e]|]; [|done].
  intros H. apply Z.ltb_lt in H. apply Z.ltb_lt. lia.
Qed.

Lemma authenticate_signed_in (self : BlueskyAPI) (w : World) :
  signed_in self w = true ->
  authenticate self w = (Return tt, set_headers (bearer_headers self w) w).
Proof.
  unfold signed_in, signed_in_until, authenticate, bearer_headers.
  destruct (authenticate_noop self); simpl.
  - intros _. by destruct w.
  - unfold bind, _authenticate_impl, cached, cache_lookup. fold (access_key self).
    destruct (db w !! access_key self) as [[v e]|]; [|done].
    by intros ->.
Qed.

(** One turn of the loop of [_call], on the next response of the script. *)
Lemma call_loop_turn (fuel : nat) (self : BlueskyAPI) (url : string)
    (params : pydict) (w : World) (r : Response) (rest : list Response) :
  signed_in self w = true ->
  script w = r :: rest ->
  let w1 := set_script rest
              (set_requests
                 (requests w ++ [mkRequest url "GET" (Some (bearer_headers self w))
                                           (Some params) None])
                 (set_headers (bearer_headers self w) w)) in
  _call_loop (S fuel) self url params w =
    if status_code r <? 400 then (Return (json r), w1)
    else if status_code r =? 429 then
      _call_loop fuel self url params
        (set_clock (clock w + 60) (set_sleeps (sleeps w ++ [60]) w1))
    else (Raise (stop_error r), w1).
Proof.
  intros Hs Hscript w1. cbn [_call_loop]. unfold bind at 1.
  rewrite (authenticate_signed_in self w Hs). unfold bind at 1.
  unfold request. cbn [script set_headers]. rewrite Hscript.
  cbn [headers requests]. fold w1.
  destruct (status_code r <? 400); [reflexivity|].
  destruct (status_code r =? 429); [|reflexivity].
  unfold bind, wait. reflexivity.
Qed.

Lemma bearer_headers_sent (self : BlueskyAPI) (w w' : World) :
  db w' = db w -> headers w' = bearer_headers self w ->
  bearer_headers self w' = bearer_headers self w.
Proof.
  unfold bearer_headers. intros -> ->.
  destruct (authenticate_noop self); [reflexivity|].
  destruct (db w !! access_key self) as [[v e]|]; [|reflexivity].
  apply insert_insert_eq.
Qed.

Lemma signed_in_until_db (self : BlueskyAPI) (d : Z) (w w' : World) :
  db w' = db w -> signed_in_until self d w' = signed_in_until self d w.
Proof. unfold signed_in_until. by intros ->. Qed.

Lemma world_ext (w1 w2 : World) :
  script w1 = script w2 -> requests w1 = requests w2 ->
  sleeps w1 = sleeps w2 -> clock w1 = clock w2 -> db w1 = db w2 ->
  memo w1 = memo w2 -> headers w1 = headers w2 ->
  yielded w1 = yielded w2 -> emitted w1 = emitted w2 -> w1 = w2.
Proof. destruct w1, w2; simpl; intros; by subst. Qed.

(** Worlds built with the setters are compared field by field; the fields
    are read lazily, so that the nesting of the setters does not matter. *)
Ltac world_fields :=
  cbn
    [script requests sleeps clock db memo headers yielded emitted
     set_script set_requests set_sleeps set_clock set_db set_memo set_headers
     set_yielded set_emitted after_pages after_retries].

Ltac world_eq := apply world_ext; world_fields; try reflexivity.

Lemma call_loop_retries (self : BlueskyAPI) (endpoint : string) (params : pydict)
    (ok : Response) (rest : list Response) (limited : list Response) :
  forall (fuel : nat) (w : World),
    (List.length limited < fuel)%nat ->
    signed_in_until self (clock w + 60 * Z.of_nat (List.length limited)) w = true ->
    script w = (limited ++ ok :: rest)%list ->
    forallb rate_limited limited = true ->
    (status_code ok <? 400) = true ->
    _call_loop fuel self (root self ++ "/xrpc/" ++ endpoint) params w =
      (Return (json ok),
       after_retries self endpoint params (List.length limited) rest w).
Proof.
  induction limited as [|r limited IH]; intros fuel w Hfuel Hs Hscript Hlim Hok.
  - destruct fuel as [|fuel]; [simpl in Hfuel; lia|].
    assert (Hs' : signed_in self w = true).
    { eapply signed_in_until_le, Hs. simpl. lia. }
    rewrite (call_loop_turn fuel self _ params w ok rest Hs' Hscript).
    rewrite Hok. f_equal. world_eq; simpl; [by rewrite app_nil_r | lia].
  - destruct fuel as [|fuel]; [simpl in Hfuel; lia|].
    assert (Hs' : signed_in self w = true).
    { eapply signed_in_until_le, Hs. lia. }
    simpl in Hlim. apply andb_true_iff in Hlim as [Hr Hlim].
    unfold rate_limited in Hr. apply Z.eqb_eq in Hr.
    rewrite (call_loop_turn fuel self _ params w r _ Hs' Hscript).
    rewrite Hr. cbn [Z.ltb Z.eqb Z.compare Pos.compare Pos.compare_cont Pos.eqb].
    match goal with |- _call_loop _ _ _ _ ?w2 = _ => set (w2' := w2) end.
    rewrite (IH fuel w2').
    + f_equal. unfold after_retries.
      rewrite (bearer_headers_sent self w w2') by reflexivity.
      subst w2'. world_eq.
      * by rewrite <- (List.app_assoc _ [_] _).
      * by rewrite <- (List.app_assoc _ [60] _).
      * cbn [List.length]. rewrite Nat2Z.inj_succ. lia.
    + simpl in Hfuel. lia.
    + rewrite (signed_in_until_db self _ w w2') by reflexivity.
      subst w2'. cbn [clock set_clock].
      replace (clock w + 60 + 60 * Z.of_nat (List.length limited))
        with (clock w + 60 * Z.of_nat (List.length (r :: limited))); [exact Hs|].
      simpl List.length. rewrite Nat2Z.inj_succ. lia.
    + reflexivity.
    + exact Hlim.
    + exact Hok.
Qed.

(** ** The pagination engine *)

Lemma for_each_collect (items : list pyval) :
  forall w : World,
    for_each items collect w = (Return tt, set_yielded (yielded w ++ items) w).
Proof.
  induction items as [|x items IH]; intros w.
  - simpl. unfold ret. f_equal. world_eq. by rewrite app_nil_r.
  - cbn [for_each]. unfold bind at 1, collect at 1. rewrite IH. f_equal.
    world_eq. by rewrite <- (List.app_assoc _ [x] items).
Qed.

Lemma call_turn (self : BlueskyAPI) (endpoint : string) (params : pydict)
    (w : World) (r : Response) (rest : list Response) :
  signed_in self w = true ->
  script w = r :: rest ->
  failed r = true \/ (status_code r <? 400) = true ->
  _call self endpoint params w =
    (if status_code r <? 400 then Return (json r) else Raise (stop_error r),
     after_pages self endpoint params "feed" [r] [] rest w).
Proof.
  intros Hs Hscript Hr. unfold _call.
  rewrite (call_loop_turn _ self _ params w r rest Hs Hscript).
  assert (Hw : forall o : outcome pyval,
             (o, set_script rest
                   (set_requests
                      (requests w ++
                         [mkRequest (root self ++ "/xrpc/" ++ endpoint) "GET"
                                    (Some (bearer_headers self w)) (Some params) None])
                      (set_headers (bearer_headers self w) w)))
             = (o, after_pages self endpoint params "feed" [r] [] rest w)).
  { intros o. f_equal. world_eq. simpl. by rewrite app_nil_r. }
  destruct Hr as [Hr|Hr].
  - unfold failed in Hr. apply andb_true_iff in Hr as [Hge Hne].
    apply Z.leb_le in Hge. apply negb_true_iff in Hne.
    destruct (Z.ltb_spec (status_code r) 400) as [Hlt|_]; [lia|].
    rewrite Hne. apply Hw.
  - rewrite Hr. apply Hw.
Qed.

Lemma after_pages_signed_in (self : BlueskyAPI) (endpoint : string)
    (params : pydict) (key : string) (req con rest : list Response) (w : World) :
  signed_in self (after_pages self endpoint params key req con rest w)
  = signed_in self w.
Proof. unfold signed_in. rewrite (signed_in_until_db self _ w) by reflexivity. done. Qed.

Lemma after_pages_cons (self : BlueskyAPI) (endpoint : string) (params : pydict)
    (key : string) (r : Response) (req con mid rest : list Response) (w : World) :
  after_pages self endpoint (<["cursor" := page_cursor r]> params) key req con rest
    (after_pages self endpoint params key [r] [r] mid w)
  = after_pages self endpoint params key (r :: req) (r :: con) rest w.
Proof.
  unfold after_pages at 1.
  rewrite (bearer_headers_sent self w) by reflexivity.
  world_eq.
  - by rewrite <- List.app_assoc.
  - simpl. by rewrite !app_nil_r, <- List.app_assoc.
Qed.

Lemma page_body (key : string) (r : Response) :
  is_page key r = true ->
  (status_code r <? 400) = true
  /\ obind (Py.getitem (json r) key) Py.iter = Return (page_items key r)
  /\ Py.get (json r) "cursor" = Return (page_cursor r).
Proof.
  unfold is_page, page_items, page_cursor. intros H.
  apply andb_true_iff in H as [Hs Hj]. split; [exact Hs|].
  destruct (json r) as [| | | | | |d|]; try discriminate. simpl.
  destruct (d !! key) as [[| | | |l| | |]|]; try discriminate. done.
Qed.

(** One turn of the loop of [_pagination], on a page. *)
Lemma pagination_turn (fuel : nat) (self : BlueskyAPI) (endpoint : string)
    (params : pydict) (key : string) (w : World) (r : Response)
    (rest : list Response) :
  signed_in self w = true ->
  script w = r :: rest ->
  is_page key r = true ->
  _pagination_loop (S fuel) self endpoint params key collect w =
    if has_next r then
      _pagination_loop fuel self endpoint (<["cursor" := page_cursor r]> params)
                       key collect
                       (after_pages self endpoint params key [r] [r] rest w)
    else (Return tt, after_pages self endpoint params key [r] [r] rest w).
Proof.
  intros Hs Hscript Hp. destruct (page_body key r Hp) as (Hok & Hitems & Hcur).
  cbn [_pagination_loop]. unfold bind at 1.
  rewrite (call_turn self endpoint params w r rest Hs Hscript (or_intror Hok)).
  rewrite Hok. unfold bind at 1, lift at 1. rewrite Hitems.
  unfold bind at 1. rewrite for_each_collect.
  unfold bind at 1, lift at 1. rewrite Hcur. fold (has_next r).
  assert (Hw : set_yielded
                 (yielded (after_pages self endpoint params "feed" [r] [] rest w)
                  ++ page_items key r)
                 (after_pages self endpoint params "feed" [r] [] rest w)
               = after_pages self endpoint params key [r] [r] rest w).
  { world_eq. simpl. by rewrite !app_nil_r. }
  rewrite Hw. destruct (has_next r); reflexivity.
Qed.

(** A walk over pages that all announce a next one, ended by a turn that
    requests [last] and hands over the items of [fin]. *)
Lemma pagination_walk (self : BlueskyAPI) (endpoint : string) (key : string)
    (last : Response) (fin rest : list Response) (o : outcome unit)
    (init : list Response) :
  (forall (fuel : nat) (params : pydict) (w : World),
      signed_in self w = true -> script w = last :: rest ->
      _pagination_loop (S fuel) self endpoint params key collect w =
        (o, after_pages self endpoint params key [last] fin rest w)) ->
  forall (fuel : nat) (params : pydict) (w : World),
    (List.length init < fuel)%nat ->
    signed_in self w = true ->
    script w = (init ++ last :: rest)%list ->
    forallb (fun r => is_page key r && has_next r) init = true ->
    _pagination_loop fuel self endpoint params key collect w =
      (o, after_pages self endpoint params key (init ++ [last]) (init ++ fin) rest w).
Proof.
  intros Hlast. induction init as [|r init IH]; intros fuel params w Hfuel Hs Hscript Hall.
  - destruct fuel as [|fuel]; [simpl in Hfuel; lia|]. by apply Hlast.
  - destruct fuel as [|fuel]; [simpl in Hfuel; lia|].
    simpl in Hall. apply andb_true_iff in Hall as [Hr Hall].
    apply andb_true_iff in Hr as [Hp Hn].
    rewrite (pagination_turn fuel self endpoint params key w r _ Hs Hscript Hp).
    rewrite Hn. rewrite IH.
    + by rewrite after_pages_cons.
    + simpl in Hfuel. lia.
    + by rewrite after_pages_signed_in.
    + reflexivity.
    + exact Hall.
Qed.

Lemma page_requests_length (self : BlueskyAPI) (endpoint : string) (hdrs : pydict)
    (pages : list Response) :
  forall params : pydict,
    List.length (page_requests self endpoint hdrs params pages) = List.length pages.
Proof. induction pages as [|r pages IH]; intros; simpl; [done | by rewrite IH]. Qed.

Lemma page_requests_next (self : BlueskyAPI) (endpoint : string) (hdrs : pydict)
    (pages : list Response) :
  forall (params : pydict) (i : nat) (r : Response),
    pages !! i = Some r ->
    (S i < List.length pages)%nat ->
    page_requests self endpoint hdrs params pages !! S i =
      Some (api_request self endpoint hdrs (<["cursor" := page_cursor r]> params)).
Proof.
  induction pages as [|r0 pages IH]; intros params i r Hi Hlen; [done|].
  destruct i as [|i]; simpl in Hi.
  - injection Hi as ->. destruct pages as [|r1 pages]; [simpl in Hlen; lia|].
    reflexivity.
  - cbn [page_requests]. rewrite lookup_cons.
    rewrite (IH _ i r Hi) by (simpl in Hlen; lia).
    by rewrite insert_insert_eq.
Qed.

(** C1. Over a script that starts with n pages of which only the last has
    no cursor (absent or empty), the pagination hands over the items of
    each page, page after page and in the order of the array at the items
    key, issues exactly n requests, the one after a page carrying that
    page's cursor in params, and stops after the last page, leaving the
    rest of the script unread. *)
Theorem pagination_walks_pages (self : BlueskyAPI) (endpoint : string)
    (params : pydict) (key : string) (w : World)
    (init : list Response) (last : Response) (rest : list Response) :
  signed_in self w = true ->
  script w = (init ++ last :: rest)%list ->
  forallb (is_page key) (init ++ [last]) = true ->
  forallb has_next init = true ->
  has_next last = false ->
  let pages := (init ++ [last])%list in
  let w' := after_pages self endpoint params key pages pages rest w in
  _pagination self endpoint params key collect w = (Return tt, w')
  /\ yielded w' = (yielded w ++ concat (map (page_items key) pages))%list
  /\ (exists reqs : list Request,
        requests w' = (requests w ++ reqs)%list
        /\ List.length reqs = List.length pages
        /\ reqs !! 0%nat =
             Some (api_request self endpoint (bearer_headers self w) params)
        /\ forall (i : nat) (r : Response),
             init !! i = Some r ->
             reqs !! S i =
               Some (api_request self endpoint (bearer_headers self w)
                                 (<["cursor" := page_cursor r]> params)))
  /\ script w' = rest
  /\ sleeps w' = sleeps w.
Proof.
  intros Hs Hscript Hpages Hnext Hlast pages w'.
  rewrite forallb_app in Hpages. apply andb_true_iff in Hpages as [Hinit Hp].
  simpl in Hp. rewrite andb_true_r in Hp.
  split; [|split; [|split; [|split]]]; try reflexivity.
  - unfold _pagination.
    apply (pagination_walk self endpoint key last [last] rest (Return tt) init).
    + intros fuel params0 w0 Hs0 Hscript0.
      rewrite (pagination_turn fuel self endpoint params0 key w0 last rest
                 Hs0 Hscript0 Hp).
      by rewrite Hlast.
    + rewrite Hscript, length_app. simpl. lia.
    + exact Hs.
    + exact Hscript.
    + clear -Hinit Hnext. induction init as [|r init IH]; [done|].
      simpl in *. apply andb_true_iff in Hinit as [-> Hi].
      apply andb_true_iff in Hnext as [-> Hn]. simpl. by apply IH.
  - exists (page_requests self endpoint (bearer_headers self w) params pages).
    split; [reflexivity|]. split; [apply page_requests_length|]. split.
    + subst pages. by destruct init.
    + intros i r Hi. apply page_requests_next.
      * subst pages. by apply lookup_app_l_Some.
      * subst pages. rewrite length_app. simpl.
        apply lookup_lt_Some in Hi. lia.
Qed.

Lemma pagination_walks_pages_witness :
  let w := SampleNet.serving [SampleNet.p1; SampleNet.p2; SampleNet.p3] in
  exists w' : World,
    _pagination SampleNet.public "app.bsky.feed.getAuthorFeed" SampleNet.params
                "feed" collect w = (Return tt, w')
    /\ yielded w' = [PInt 1; PInt 2; PInt 3; PInt 4; PInt 5]
    /\ List.length (requests w') = 3%nat
    /\ script w' = [].
Proof.
  intros w.
  destruct (pagination_walks_pages SampleNet.public "app.bsky.feed.getAuthorFeed"
              SampleNet.params "feed" w [SampleNet.p1; SampleNet.p2] SampleNet.p3 []
              ltac:(reflexivity) ltac:(reflexivity) ltac:(reflexivity)
              ltac:(reflexivity) ltac:(reflexivity))
    as (Hrun & Hy & _ & Hscript & _).
  eexists. split; [exact Hrun|]. split; [exact Hy|]. split; [reflexivity|].
  exact Hscript.
Defined.

(** C2. However many responses of status 429 come first, [_call] sleeps 60
    seconds after each of them and issues the same request again; the
    first response of status below 400 ends the call, with its body as
    result.  Nothing is handed over for the rate-limited attempts, and a
    pagination over that page hands over the items of the one successful
    response, once. *)
Theorem rate_limit_retried (self : BlueskyAPI) (endpoint : string)
    (params : pydict) (key : string) (w : World)
    (limited : list Response) (ok : Response) (rest : list Response) :
  signed_in_until self (clock w + 60 * Z.of_nat (List.length limited)) w = true ->
  script w = (limited ++ ok :: rest)%list ->
  Forall (fun r => status_code r = 429) limited ->
  status_code ok < 400 ->
  let n := List.length limited in
  let w' := after_retries self endpoint params n rest w in
  _call self endpoint params w = (Return (json ok), w')
  /\ sleeps w' = (sleeps w ++ replicate n 60)%list
  /\ requests w' =
       (requests w ++ replicate (S n)
          (api_request self endpoint (bearer_headers self w) params))%list
  /\ script w' = rest
  /\ yielded w' = yielded w
  /\ (is_page key ok = true -> has_next ok = false ->
      _pagination self endpoint params key collect w =
        (Return tt, set_yielded (yielded w ++ page_items key ok) w')).
Proof.
  intros Hs Hscript Hlim Hok n w'.
  assert (Hcall : _call self endpoint params w = (Return (json ok), w')).
  { unfold _call. apply call_loop_retries; try done.
    - rewrite Hscript, length_app. simpl. lia.
    - apply forallb_forall. intros r Hr. rewrite Forall_forall in Hlim.
      unfold rate_limited. apply Z.eqb_eq, Hlim. by apply list_elem_of_In.
    - by apply Z.ltb_lt. }
  split; [exact Hcall|]. do 4 (split; [reflexivity|]).
  intros Hp Hlast. destruct (page_body key ok Hp) as (_ & Hitems & Hcur).
  unfold _pagination. cbn [_pagination_loop]. unfold bind at 1. rewrite Hcall.
  unfold bind at 1, lift at 1. rewrite Hitems.
  unfold bind at 1. rewrite for_each_collect.
  unfold bind at 1, lift at 1. rewrite Hcur. fold (has_next ok). rewrite Hlast.
  reflexivity.
Qed.

Lemma rate_limit_retried_witness :
  let w := SampleNet.serving
             [SampleNet.busy; SampleNet.busy; SampleNet.busy; SampleNet.p3] in
  exists w' : World,
    _pagination SampleNet.public "app.bsky.feed.getAuthorFeed" SampleNet.params
                "feed" collect w = (Return tt, w')
    /\ yielded w' = [PInt 4; PInt 5]
    /\ sleeps w' = [60; 60; 60]
    /\ List.length (requests w') = 4%nat.
Proof.
  intros w.
  destruct (rate_limit_retried SampleNet.public "app.bsky.feed.getAuthorFeed"
              SampleNet.params "feed" w
              [SampleNet.busy; SampleNet.busy; SampleNet.busy] SampleNet.p3 []
              ltac:(reflexivity) ltac:(reflexivity)
              ltac:(repeat constructor) ltac:(simpl; lia))
    as (_ & _ & _ & _ & _ & Hrun).
  eexists. split; [apply Hrun; reflexivity|].
  repeat split; reflexivity.
Defined.

Lemma failed_status (r : Response) :
  400 <= status_code r -> status_code r <> 429 -> failed r = true.
Proof.
  intros Hge Hne. unfold failed. apply andb_true_iff. split.
  - by apply Z.leb_le.
  - apply negb_true_iff. by apply Z.eqb_neq.
Qed.

Lemma failed_not_ok (r : Response) :
  failed r = true -> (status_code r <? 400) = false.
Proof.
  unfold failed. intros H. apply andb_true_iff in H as [H _].
  apply Z.leb_le in H. apply Z.ltb_ge. lia.
Qed.

Lemma pagination_failed_turn (fuel : nat) (self : BlueskyAPI) (endpoint : string)
    (params : pydict) (key : string) (consume : pyval -> Run unit) (w : World)
    (bad : Response) (rest : list Response) :
  signed_in self w = true ->
  script w = bad :: rest ->
  failed bad = true ->
  _pagination_loop (S fuel) self endpoint params key consume w =
    (Raise (stop_error bad), after_pages self endpoint params key [bad] [] rest w).
Proof.
  intros Hs Hscript Hbad. cbn [_pagination_loop]. unfold bind at 1.
  rewrite (call_turn self endpoint params w bad rest Hs Hscript (or_introl Hbad)).
  by rewrite (failed_not_ok bad Hbad).
Qed.

(** C3. A response whose status is 400 or more and is not 429 makes
    [_call] raise StopExtraction with the status code and the reason, at
    once: no sleep, no second request.  The error leaves the pagination
    too, after the items of the pages before it, and the rest of the
    script is never requested. *)
Theorem failed_status_stops (self : BlueskyAPI) (endpoint : string)
    (params : pydict) (key : string) (w : World)
    (init : list Response) (bad : Response) (rest : list Response) :
  signed_in self w = true ->
  script w = (init ++ bad :: rest)%list ->
  forallb (fun r => is_page key r && has_next r) init = true ->
  400 <= status_code bad ->
  status_code bad <> 429 ->
  let err := StopExtraction "API request failed (%s %s)"
                            [PInt (status_code bad); PStr (reason bad)] in
  let w' := after_pages self endpoint params key (init ++ [bad]) init rest w in
  _pagination self endpoint params key collect w = (Raise err, w')
  /\ (init = [] ->
      _call self endpoint params w = (Raise err, w')
      /\ forall consume : pyval -> Run unit,
           _pagination self endpoint params key consume w = (Raise err, w'))
  /\ yielded w' = (yielded w ++ concat (map (page_items key) init))%list
  /\ List.length (requests w') = (List.length (requests w) + S (List.length init))%nat
  /\ script w' = rest
  /\ sleeps w' = sleeps w.
Proof.
  intros Hs Hscript Hinit Hge Hne err w'.
  pose proof (failed_status bad Hge Hne) as Hbad.
  split; [|split; [|split; [|split; [|split]]]]; try reflexivity.
  - unfold _pagination.
    rewrite (pagination_walk self endpoint key bad [] rest (Raise err) init)
      with (fuel := S (List.length (script w))) (params := params) (w := w).
    + subst w'. by rewrite app_nil_r.
    + intros fuel params0 w0 Hs0 Hscript0.
      by apply pagination_failed_turn.
    + rewrite Hscript, length_app. simpl. lia.
    + exact Hs.
    + exact Hscript.
    + exact Hinit.
  - intros ->. simpl in Hscript. split.
    + rewrite (call_turn self endpoint params w bad rest Hs Hscript (or_introl Hbad)).
      by rewrite (failed_not_ok bad Hbad).
    + intros consume. unfold _pagination. by apply pagination_failed_turn.
  - subst w'. unfold after_pages. cbn [requests set_yielded set_script set_requests].
    rewrite length_app, page_requests_length, length_app. simpl. lia.
Qed.

Lemma failed_status_stops_witness :
  let w := SampleNet.serving [SampleNet.p1; SampleNet.broken; SampleNet.p3] in
  exists w' : World,
    _pagination SampleNet.public "app.bsky.feed.getAuthorFeed" SampleNet.params
                "feed" collect w
      = (Raise (StopExtraction "API request failed (%s %s)"
                               [PInt 500; PStr "Internal Server Error"]), w')
    /\ yielded w' = [PInt 1; PInt 2]
    /\ List.length (requests w') = 2%nat
    /\ script w' = [SampleNet.p3]
    /\ sleeps w' = [].
Proof.
  intros w.
  destruct (failed_status_stops SampleNet.public "app.bsky.feed.getAuthorFeed"
              SampleNet.params "feed" w [SampleNet.p1] SampleNet.broken
              [SampleNet.p3]
              ltac:(reflexivity) ltac:(reflexivity) ltac:(reflexivity)
              ltac:(simpl; lia) ltac:(simpl; lia))
    as (Hrun & _ & Hy & Hn & Hscript & Hsl).
  eexists. split; [exact Hrun|]. split; [exact Hy|]. split; [exact Hn|].
  split; [exact Hscript | exact Hsl].
Defined.

(** ** The identity resolver *)

Lemma did_from_actor_durable (self : BlueskyAPI) (actor : string) (w : World) :
  String.prefix "did:" actor = true ->
  _did_from_actor self actor w = (Return (PStr actor), w).
Proof. unfold _did_from_actor. by intros ->. Qed.

Lemma did_from_actor_memo (self : BlueskyAPI) (handle : string) (w : World)
    (v : pyval) :
  String.prefix "did:" handle = false ->
  memo w !! handle = Some v ->
  _did_from_actor self handle w = (Return v, w).
Proof.
  unfold _did_from_actor, resolve_handle, memcached. by intros -> ->.
Qed.

Lemma did_from_actor_memoizes (self : BlueskyAPI) (handle : string)
    (w w1 : World) (v : pyval) :
  String.prefix "did:" handle = false ->
  _did_from_actor self handle w = (Return v, w1) ->
  memo w1 !! handle = Some v.
Proof.
  unfold _did_from_actor, resolve_handle, memcached. intros ->.
  destruct (memo w !! handle) as [v0|] eqn:Hm.
  - by intros [= <- <-].
  - unfold bind at 1.
    match goal with |- context [let (_, _) := ?m in _] => destruct m as [o w2] end.
    destruct o; try discriminate. intros [= <- <-]. cbn [memo set_memo].
    apply lookup_insert_eq.
Qed.

Lemma resolve_times_memo (self : BlueskyAPI) (handle : string) (v : pyval)
    (w : World) (k : nat) :
  String.prefix "did:" handle = false ->
  memo w !! handle = Some v ->
  resolve_times self handle k w = (Return (replicate k v), w).
Proof.
  intros Hp Hm. induction k as [|k IH]; [reflexivity|].
  cbn [resolve_times]. unfold bind at 1.
  rewrite (did_from_actor_memo self handle w v Hp Hm).
  unfold bind at 1. by rewrite IH.
Qed.

(** C4. An actor that starts with did: is returned as it is, and the world
    is untouched: no request is issued.  Any other handle is resolved
    through resolveHandle and memoized: once a resolution has returned,
    every later resolution of the handle returns the same value and leaves
    the world as it is; so k+1 resolutions in a row, the first of which is
    answered with a status below 400, issue one request in all. *)
Theorem resolution_memoized (self : BlueskyAPI) (actor : string) :
  (String.prefix "did:" actor = true ->
   forall (w : World) (k : nat),
     resolve_times self actor k w = (Return (replicate k (PStr actor)), w))
  /\ (String.prefix "did:" actor = false ->
      (forall (w w1 : World) (v : pyval) (k : nat),
          _did_from_actor self actor w = (Return v, w1) ->
          resolve_times self actor k w1 = (Return (replicate k v), w1))
      /\ (forall (w : World) (r : Response) (rest : list Response) (d : pydict)
                 (v : pyval) (k : nat),
             memo w !! actor = None ->
             signed_in self w = true ->
             script w = r :: rest ->
             status_code r < 400 ->
             json r = PDict d ->
             d !! "did" = Some v ->
             let query : pydict := {["handle" := PStr actor]} in
             let w' :=
               set_memo (<[actor := v]> (memo w))
                 (after_pages self "com.atproto.identity.resolveHandle" query
                              "did" [r] [] rest w) in
             resolve_times self actor (S k) w = (Return (replicate (S k) v), w')
             /\ requests w' =
                  (requests w ++
                     [api_request self "com.atproto.identity.resolveHandle"
                                  (bearer_headers self w) query])%list
             /\ script w' = rest)).
Proof.
  split.
  - intros Hp w k. induction k as [|k IH]; [reflexivity|].
    cbn [resolve_times]. unfold bind at 1.
    rewrite (did_from_actor_durable self actor w Hp).
    unfold bind at 1. by rewrite IH.
  - intros Hp. split.
    + intros w w1 v k Hres. apply resolve_times_memo; [exact Hp|].
      by apply (did_from_actor_memoizes self actor w w1 v Hp).
    + intros w r rest d v k Hm Hs Hscript Hok Hjson Hdid query w'.
      assert (Hfirst : _did_from_actor self actor w = (Return v, w')).
      { unfold _did_from_actor, resolve_handle, memcached. rewrite Hp, Hm.
        unfold bind at 1. unfold bind at 1.
        apply Z.ltb_lt in Hok.
        rewrite (call_turn self _ query w r rest Hs Hscript (or_intror Hok)).
        rewrite Hok. unfold lift. rewrite Hjson. simpl Py.getitem. rewrite Hdid.
        reflexivity. }
      split; [|split; reflexivity].
      cbn [resolve_times]. unfold bind at 1. rewrite Hfirst. unfold bind at 1.
      rewrite (resolve_times_memo self actor v w' k Hp).
      * reflexivity.
      * subst w'. cbn [memo set_memo]. apply lookup_insert_eq.
Qed.

Lemma resolution_memoized_witness :
  (forall w : World,
      resolve_times SampleNet.public "did:plc:abc" 3 w
        = (Return (replicate 3 (PStr "did:plc:abc")), w))
  /\ (exists w' : World,
         resolve_times SampleNet.public "alice.bsky.social" 3
                       (SampleNet.serving [SampleNet.resolved; SampleNet.p3])
           = (Return (replicate 3 (PStr "did:plc:abc")), w')
         /\ List.length (requests w') = 1%nat
         /\ script w' = [SampleNet.p3]).
Proof.
  split.
  - intros w.
    apply (proj1 (resolution_memoized SampleNet.public "did:plc:abc")).
    reflexivity.
  - destruct (proj2 (resolution_memoized SampleNet.public "alice.bsky.social")
                ltac:(reflexivity)) as [_ H].
    destruct (H (SampleNet.serving [SampleNet.resolved; SampleNet.p3])
                SampleNet.resolved [SampleNet.p3]
                {["did" := PStr "did:plc:abc"]} (PStr "did:plc:abc") 2%nat
                ltac:(reflexivity) ltac:(reflexivity) ltac:(reflexivity)
                ltac:(simpl; lia) ltac:(reflexivity) ltac:(reflexivity))
      as (Hrun & Hreq & Hscript).
    eexists. split; [exact Hrun|]. split; [by rewrite Hreq | exact Hscript].
Defined.

(** ** The session authenticator *)

Lemma refresh_token_cache_run (self : BlueskyAPI) (w : World) :
  _refresh_token_cache (username self) w
  = (Return (refresh_token self w), probed self w).
Proof.
  unfold _refresh_token_cache, cached, refresh_token, probed.
  fold (refresh_key self).
  destruct (cache_lookup (refresh_key self) w); reflexivity.
Qed.

Lemma probed_fields (self : BlueskyAPI) (w : World) :
  script (probed self w) = script w
  /\ requests (probed self w) = requests w
  /\ sleeps (probed self w) = sleeps w
  /\ clock (probed self w) = clock w
  /\ memo (probed self w) = memo w
  /\ headers (probed self w) = headers w
  /\ yielded (probed self w) = yielded w
  /\ emitted (probed self w) = emitted w
  /\ forall v : pyval,
       <[refresh_key self := (v, clock w + refresh_maxage)]> (db (probed self w))
       = <[refresh_key self := (v, clock w + refresh_maxage)]> (db w).
Proof.
  unfold probed. destruct (cache_lookup (refresh_key self) w); repeat split.
  intros v. cbn [db set_db]. apply insert_insert_eq.
Qed.

Lemma authenticate_impl_body_asks (self : BlueskyAPI) (w : World) (r : Response)
    (rest : list Response) :
  token_ok (refresh_token self w) = true ->
  script w = r :: rest ->
  _authenticate_impl_body self (username self) w =
    (if negb (status_code r =? 200)
     then
       err <- lift (obind (Py.get (json r) "error") Py.str) ;;
       msg <- lift (obind (Py.get (json r) "message") Py.str) ;;
       raise (AuthenticationError (dquote ++ err ++ ": " ++ msg ++ dquote))
     else
       refresh <- lift (Py.getitem (json r) "refreshJwt") ;;
       _refresh_token_cache_update (username self) refresh ;;;
       access <- lift (Py.getitem (json r) "accessJwt") ;;
       bearer <- lift (Py.str_add "Bearer " access) ;;
       ret (PStr bearer)) (session_asked self rest w).
Proof.
  intros Htok Hscript. unfold _authenticate_impl_body.
  unfold bind at 1. rewrite refresh_token_cache_run.
  destruct (probed_fields self w) as (Hsc & Hrq & _).
  assert (Hreq : forall q : Request,
             request q (probed self w)
             = (Return r, set_script rest
                            (set_requests (requests w ++ [q]) (probed self w)))).
  { intros q. unfold request. by rewrite Hsc, Hscript, Hrq. }
  unfold session_asked, session_request.
  destruct (refresh_token self w) as [|b|n|s|l|l|m|t] eqn:Htoken.
  4: {
    destruct (Py.truthy (PStr s)).
    - unfold bind at 1. unfold bind at 1, lift at 1. cbn [Py.str_add].
      unfold ret at 1. unfold bind at 1. rewrite Hreq. reflexivity.
    - unfold bind at 1, ret at 1. unfold bind at 1. rewrite Hreq. reflexivity. }
  all: match goal with
       | |- context [Py.truthy ?v] =>
           assert (Hf : Py.truthy v = false) by (apply negb_true_iff; exact Htok);
           rewrite Hf
       end.
  all: unfold bind at 1, ret at 1; unfold bind at 1; rewrite Hreq; reflexivity.
Qed.

Lemma authenticate_derives (self : BlueskyAPI) (w : World) :
  authenticate_noop self = false ->
  cache_lookup (access_key self) w = None ->
  authenticate self w =
    (bearer <- (v <- _authenticate_impl_body self (username self) ;;
                cache_store (access_key self) access_maxage v ;;; ret v) ;;
     (fun w' => (Return tt,
                 set_headers (<["Authorization" := bearer]> (headers w')) w'))) w.
Proof.
  intros Hn Hmiss. unfold authenticate. rewrite Hn.
  unfold bind at 1. unfold _authenticate_impl, cached. fold (access_key self).
  rewrite Hmiss. reflexivity.
Qed.

Lemma keys_differ (self : BlueskyAPI) : refresh_key self <> access_key self.
Proof. unfold refresh_key, access_key. congruence. Qed.

(** C5. When the credential has to be derived, the session request is the
    refresh request, with the cached refresh token as bearer credential in
    its header and no body, if the durable cache holds a live, non-empty
    refresh token; it is the login request, with the identifier and the
    password as JSON body and no header, otherwise.  On a response of
    status 200 the refresh token of the response replaces the cached one
    under the user name, for 84 days; the bearer value made of the access
    token is cached under the user name for 3600 seconds and attached to
    the headers of the API. *)
Theorem session_derived (self : BlueskyAPI) (w : World) (r : Response)
    (rest : list Response) (d : pydict) (refresh : pyval) (access : string) :
  authenticate_noop self = false ->
  cache_lookup (access_key self) w = None ->
  token_ok (refresh_token self w) = true ->
  script w = r :: rest ->
  status_code r = 200 ->
  json r = PDict d ->
  d !! "refreshJwt" = Some refresh ->
  d !! "accessJwt" = Some (PStr access) ->
  let bearer := "Bearer " ++ access in
  let req := session_request self (refresh_token self w) in
  let w' := after_session req rest self refresh bearer w in
  authenticate self w = (Return tt, w')
  /\ (forall s : string,
        refresh_token self w = PStr s -> s <> "" -> req = refresh_request self s)
  /\ (Py.truthy (refresh_token self w) = false -> req = login_request self)
  /\ (forall s : string, refresh_request self s <> login_request self)
  /\ requests w' = (requests w ++ [req])%list
  /\ script w' = rest
  /\ db w' !! refresh_key self = Some (refresh, clock w + 84 * 86400)
  /\ db w' !! access_key self = Some (PStr bearer, clock w + 3600)
  /\ cache_lookup (access_key self) w' = Some (PStr bearer)
  /\ headers w' !! "Authorization" = Some (PStr bearer).
Proof.
  intros Hn Hmiss Htok Hscript Hstatus Hjson Hrefresh Haccess bearer req w'.
  split; [|split; [|split; [|split; [|split; [|split; [|split; [|split; [|split]]]]]]]].
  - rewrite (authenticate_derives self w Hn Hmiss).
    unfold bind at 1. unfold bind at 1.
    rewrite (authenticate_impl_body_asks self w r rest Htok Hscript).
    rewrite Hstatus. cbn [Z.eqb Pos.eqb negb]. rewrite Hjson.
    unfold bind at 1, lift at 1. cbn [Py.getitem]. rewrite Hrefresh.
    unfold bind at 1, _refresh_token_cache_update at 1, cache_store at 1.
    unfold bind at 1, lift at 1. rewrite Haccess.
    unfold bind at 1, lift at 1. cbn [Py.str_add]. unfold ret at 1.
    unfold bind at 1, cache_store at 1. unfold ret at 1.
    f_equal. subst w' req. unfold after_session, session_asked.
    destruct (probed_fields self w)
      as (Hsc & Hrq & Hsl & Hcl & Hm & Hh & Hy & He & Hdb).
    apply world_ext;
      cbn [script requests sleeps clock db memo headers yielded emitted
           set_script set_requests set_sleeps set_clock set_db set_memo
           set_headers set_yielded set_emitted];
      rewrite ?Hsc, ?Hrq, ?Hsl, ?Hcl, ?Hm, ?Hh, ?Hy, ?He; try reflexivity.
    fold (refresh_key self). by rewrite Hdb.
  - intros s Hs Hne. subst req. rewrite Hs. simpl.
    destruct (String.eqb_spec s ""); [done|reflexivity].
  - intros Hf. subst req. unfold session_request.
    destruct (refresh_token self w); try reflexivity. by rewrite Hf.
  - intros s. unfold refresh_request, login_request. congruence.
  - reflexivity.
  - reflexivity.
  - subst w'. unfold after_session. cbn [db set_headers set_db].
    rewrite lookup_insert_ne by (apply not_eq_sym, keys_differ).
    apply lookup_insert_eq.
  - subst w'. unfold after_session. cbn [db set_headers set_db].
    apply lookup_insert_eq.
  - subst w'. unfold cache_lookup, after_session.
    cbn [db clock set_headers set_db set_script set_requests].
    rewrite lookup_insert_eq.
    destruct (Z.ltb_spec (clock w) (clock w + 3600)); [reflexivity | lia].
  - subst w'. unfold after_session. cbn [headers set_headers].
    apply lookup_insert_eq.
Qed.

Lemma session_derived_witness :
  let w := SampleNet.returning [SampleNet.session; SampleNet.p3] in
  exists w' : World,
    authenticate SampleNet.member w = (Return tt, w')
    /\ requests w' = [refresh_request SampleNet.member "old"]
    /\ script w' = [SampleNet.p3]
    /\ headers w' !! "Authorization" = Some (PStr "Bearer acc").
Proof.
  intros w.
  destruct (session_derived SampleNet.member w SampleNet.session [SampleNet.p3]
              (<["accessJwt" := PStr "acc"]> ({["refreshJwt" := PStr "ref"]}))
              (PStr "ref") "acc"
              ltac:(reflexivity) ltac:(reflexivity)
              ltac:(reflexivity) ltac:(reflexivity)
              ltac:(reflexivity) ltac:(reflexivity)
              ltac:(reflexivity) ltac:(reflexivity))
    as (Hrun & Hreq & _ & _ & Hrequests & Hscript & _ & _ & _ & Hhdr).
  eexists. split; [exact Hrun|]. split; [|split; [exact Hscript | exact Hhdr]].
  rewrite Hrequests.
  rewrite (Hreq "old" ltac:(reflexivity) ltac:(discriminate)).
  reflexivity.
Defined.

Lemma authenticate_raises (self : BlueskyAPI) (endpoint : string)
    (params : pydict) (w w' : World) (e : exn) :
  authenticate self w = (Raise e, w') ->
  _call self endpoint params w = (Raise e, w')
  /\ forall (key : string) (consume : pyval -> Run unit),
       _pagination self endpoint params key consume w = (Raise e, w').
Proof.
  intros Ha.
  assert (Hc : _call self endpoint params w = (Raise e, w')).
  { unfold _call. cbn [_call_loop]. unfold bind at 1. by rewrite Ha. }
  split; [exact Hc|]. intros key consume.
  unfold _pagination. cbn [_pagination_loop]. unfold bind at 1. by rewrite Hc.
Qed.

(** C6. When the credential has to be derived, [authenticate] raises
    AuthenticationError, with the error code and the message of the
    response in its text, exactly when the status of the response to the
    session request is not 200.  The error is not retried: it leaves
    [_call] and the pagination after that one request, with the rest of
    the script unread and without any sleep.  On status 200 with both
    tokens in the response nothing is raised. *)
Theorem session_refused (self : BlueskyAPI) (w : World) (r : Response)
    (rest : list Response) (d : pydict) :
  authenticate_noop self = false ->
  cache_lookup (access_key self) w = None ->
  token_ok (refresh_token self w) = true ->
  script w = r :: rest ->
  json r = PDict d ->
  (status_code r <> 200 ->
   forall err msg : string,
     Py.str (default PNone (d !! "error")) = Return err ->
     Py.str (default PNone (d !! "message")) = Return msg ->
     let e := AuthenticationError (dquote ++ err ++ ": " ++ msg ++ dquote) in
     let w' := session_asked self rest w in
     authenticate self w = (Raise e, w')
     /\ (forall (endpoint : string) (params : pydict),
           _call self endpoint params w = (Raise e, w')
           /\ forall (key : string) (consume : pyval -> Run unit),
                _pagination self endpoint params key consume w = (Raise e, w'))
     /\ requests w' =
          (requests w ++ [session_request self (refresh_token self w)])%list
     /\ script w' = rest
     /\ sleeps w' = sleeps w
     /\ headers w' = headers w)
  /\ (status_code r = 200 ->
      (forall m : string, fst (authenticate self w) <> Raise (AuthenticationError m))
      /\ forall (refresh : pyval) (access : string),
           d !! "refreshJwt" = Some refresh ->
           d !! "accessJwt" = Some (PStr access) ->
           fst (authenticate self w) = Return tt).
Proof.
  intros Hn Hmiss Htok Hscript Hjson. split.
  - intros Hstatus err msg Herr Hmsg e w'.
    assert (Ha : authenticate self w = (Raise e, w')).
    { rewrite (authenticate_derives self w Hn Hmiss).
      unfold bind at 1. unfold bind at 1.
      rewrite (authenticate_impl_body_asks self w r rest Htok Hscript).
      apply Z.eqb_neq in Hstatus. rewrite Hstatus. cbn [negb]. rewrite Hjson.
      unfold bind at 1, lift at 1. cbn [Py.get obind]. rewrite Herr.
      unfold bind at 1, lift at 1. rewrite Hmsg. reflexivity. }
    destruct (probed_fields self w)
      as (Hsc & Hrq & Hsl & Hcl & Hm & Hh & Hy & He & Hdb).
    split; [exact Ha|]. split; [|split; [|split; [|split]]].
    + intros endpoint params. by apply authenticate_raises.
    + subst w'. unfold session_asked. cbn [requests set_script set_requests].
      reflexivity.
    + reflexivity.
    + subst w'. unfold session_asked. cbn [sleeps set_script set_requests]. exact Hsl.
    + subst w'. unfold session_asked. cbn [headers set_script set_requests]. exact Hh.
  - intros Hstatus.
    assert (Ha : authenticate self w =
                 (bearer <-
                    (v <- (refresh <- lift (Py.getitem (PDict d) "refreshJwt") ;;
                           _refresh_token_cache_update (username self) refresh ;;;
                           access <- lift (Py.getitem (PDict d) "accessJwt") ;;
                           bearer <- lift (Py.str_add "Bearer " access) ;;
                           ret (PStr bearer)) ;;
                     cache_store (access_key self) access_maxage v ;;; ret v) ;;
                  (fun w' => (Return tt,
                              set_headers (<["Authorization" := bearer]> (headers w')) w')))
                   (session_asked self rest w)).
    { rewrite (authenticate_derives self w Hn Hmiss).
      unfold bind at 1. unfold bind at 1.
      rewrite (authenticate_impl_body_asks self w r rest Htok Hscript).
      rewrite Hstatus. cbn [Z.eqb Pos.eqb negb]. rewrite Hjson. reflexivity. }
    rewrite Ha. clear Ha. split.
    + intros m. unfold bind at 1. unfold bind at 1. unfold bind at 1, lift at 1.
      cbn [Py.getitem]. destruct (d !! "refreshJwt") as [refresh|]; [|discriminate].
      unfold bind at 1, _refresh_token_cache_update at 1, cache_store at 1.
      unfold bind at 1, lift at 1.
      destruct (d !! "accessJwt") as [access|]; [|discriminate].
      unfold bind at 1, lift at 1.
      destruct access; cbn [Py.str_add]; discriminate.
    + intros refresh access Hr Hacc.
      unfold bind at 1. unfold bind at 1. unfold bind at 1, lift at 1.
      cbn [Py.getitem]. rewrite Hr.
      unfold bind at 1, _refresh_token_cache_update at 1, cache_store at 1.
      unfold bind at 1, lift at 1. rewrite Hacc. reflexivity.
Qed.

Lemma session_refused_witness :
  let w := SampleNet.serving [SampleNet.refused; SampleNet.p3] in
  exists w' : World,
    _call SampleNet.member "app.bsky.feed.getAuthorFeed" SampleNet.params w
      = (Raise (AuthenticationError
                  (dquote ++ "AuthenticationRequired: Invalid identifier or password"
                   ++ dquote)), w')
    /\ requests w' = [login_request SampleNet.member]
    /\ script w' = [SampleNet.p3]
    /\ sleeps w' = [].
Proof.
  intros w.
  destruct (session_refused SampleNet.member w SampleNet.refused [SampleNet.p3]
              (<["error" := PStr "AuthenticationRequired"]>
                 ({["message" := PStr "Invalid identifier or password"]}))
              ltac:(reflexivity) ltac:(reflexivity)
              ltac:(reflexivity) ltac:(reflexivity)
              ltac:(reflexivity)) as [H _].
  destruct (H ltac:(simpl; lia) "AuthenticationRequired"
              "Invalid identifier or password"
              ltac:(reflexivity) ltac:(reflexivity))
    as (_ & Hcall & Hreq & Hscript & Hsl & _).
  eexists. split; [apply Hcall|]. split; [|split; [exact Hscript | exact Hsl]].
  rewrite Hreq. reflexivity.
Defined.

(** ** The loop bounds of the model are never reached *)

Lemma bounded_ret {A : Type} (a : A) : bounded (ret a).
Proof. intros w. split; [discriminate | reflexivity]. Qed.

Lemma bounded_lift {A : Type} (o : outcome A) : o <> OutOfFuel -> bounded (lift o).
Proof. intros Ho w. split; [exact Ho | reflexivity]. Qed.

Lemma bounded_bind {A B : Type} (m : Run A) (k : A -> Run B) :
  bounded m -> (forall a : A, bounded (k a)) -> bounded (bind m k).
Proof.
  intros Hm Hk w. unfold bind. destruct (Hm w) as [Ho Hl].
  destruct (m w) as [[a|e| | |] w1]; cbn [fst snd] in *;
    try (split; [discriminate | exact Hl]).
  - destruct (Hk a w1) as [Ho' Hl']. split; [exact Ho' | lia].
  - done.
Qed.

Lemma bounded_state {A : Type} (a : A) (f : World -> World) :
  (forall w : World, script (f w) = script w) ->
  bounded (fun w => (Return a, f w)).
Proof. intros Hf w. cbn [fst snd]. rewrite Hf. split; [discriminate | reflexivity]. Qed.

Lemma bounded_request (r : Request) : bounded (request r).
Proof.
  intros w. unfold request. destruct (script w) as [|resp rest] eqn:Hs;
    cbn [fst snd script set_script set_requests].
  - rewrite Hs. split; [discriminate | reflexivity].
  - split; [discriminate | simpl; lia].
Qed.

Lemma bounded_cached (name : string) (maxage : Z) (key : option string)
    (func : Run pyval) :
  bounded func -> bounded (cached name maxage key func).
Proof.
  intros Hf w. unfold cached. destruct (cache_lookup (name, key) w).
  - split; [discriminate | reflexivity].
  - apply bounded_bind; [exact Hf|]. intros v.
    apply bounded_bind; [|intros; apply bounded_ret].
    unfold cache_store. by apply bounded_state.
Qed.

Lemma getitem_bounded (v : pyval) (k : string) : Py.getitem v k <> OutOfFuel.
Proof. destruct v; simpl; try discriminate. destruct (d !! k); discriminate. Qed.

Lemma get_str_bounded (v : pyval) (k : string) :
  obind (Py.get v k) Py.str <> OutOfFuel.
Proof.
  destruct v; simpl; try discriminate.
  destruct (default PNone (d !! k)) as [|[|]| | | | | |]; discriminate.
Qed.

Lemma str_add_bounded (a : string) (v : pyval) : Py.str_add a v <> OutOfFuel.
Proof. destruct v; discriminate. Qed.

Lemma bounded_authenticate (self : BlueskyAPI) : bounded (authenticate self).
Proof.
  unfold authenticate. destruct (authenticate_noop self); [apply bounded_ret|].
  apply bounded_bind; [|intros v; by apply bounded_state].
  apply bounded_cached. unfold _authenticate_impl_body.
  apply bounded_bind.
  { apply bounded_cached, bounded_ret. }
  intros token. apply bounded_bind.
  { destruct (Py.truthy token); [|apply bounded_ret].
    apply bounded_bind; [apply bounded_lift, str_add_bounded|].
    intros; apply bounded_ret. }
  intros [[endpoint hdrs] data]. apply bounded_bind; [apply bounded_request|].
  intros response. destruct (negb (status_code response =? 200)).
  - apply bounded_bind; [apply bounded_lift, get_str_bounded|]. intros err.
    apply bounded_bind; [apply bounded_lift, get_str_bounded|]. intros msg.
    apply bounded_lift. discriminate.
  - apply bounded_bind; [apply bounded_lift, getitem_bounded|]. intros refresh.
    apply bounded_bind; [unfold _refresh_token_cache_update, cache_store;
                         by apply bounded_state|].
    intros _. apply bounded_bind; [apply bounded_lift, getitem_bounded|].
    intros access. apply bounded_bind; [apply bounded_lift, str_add_bounded|].
    intros; apply bounded_ret.
Qed.

(** With more fuel than the script has responses, the loop of [_call] ends
    on its own; when it returns, it has read at least one response. *)
Lemma call_loop_bounded (self : BlueskyAPI) (url : string) (params : pydict)
    (fuel : nat) :
  forall (w w' : World) (o : outcome pyval),
    (List.length (script w) < fuel)%nat ->
    _call_loop fuel self url params w = (o, w') ->
    o <> OutOfFuel
    /\ (List.length (script w') <= List.length (script w))%nat
    /\ (is_return o = true ->
        (List.length (script w') < List.length (script w))%nat).
Proof.
  induction fuel as [|fuel IH]; intros w w' o Hfuel Hrun; [lia|].
  cbn [_call_loop] in Hrun. unfold bind at 1 in Hrun.
  destruct (bounded_authenticate self w) as [Ho Hl].
  destruct (authenticate self w) as [[[]|e| | |] w1]; cbn [fst snd] in *;
    try done;
    try (injection Hrun as <- <-;
         split; [discriminate | split; [exact Hl | discriminate]]).
  unfold bind at 1, request in Hrun.
  destruct (script w1) as [|resp rest] eqn:Hs;
    cbn [script set_script set_requests headers] in Hrun.
  { injection Hrun as <- <-. cbn [script set_requests]. rewrite Hs.
    split; [discriminate | split; [exact Hl | discriminate]]. }
  simpl in Hl.
  destruct (status_code resp <? 400).
  { injection Hrun as <- <-. cbn [script set_script set_requests is_return].
    split; [discriminate|]. split; [lia | intros _; lia]. }
  destruct (status_code resp =? 429).
  - unfold bind at 1, wait in Hrun.
    apply IH in Hrun as (H1 & H2 & H3);
      [|cbn [script set_clock set_sleeps set_script set_requests]; lia].
    cbn [script set_clock set_sleeps set_script set_requests] in H2, H3.
    split; [exact H1|]. split; [lia|]. intros Hr. specialize (H3 Hr). lia.
  - injection Hrun as <- <-. cbn [script set_script set_requests is_return].
    split; [discriminate | split; [lia | discriminate]].
Qed.

Lemma call_bounded (self : BlueskyAPI) (endpoint : string) (params : pydict)
    (w w' : World) (o : outcome pyval) :
  _call self endpoint params w = (o, w') ->
  o <> OutOfFuel
  /\ (is_return o = true ->
      (List.length (script w') < List.length (script w))%nat).
Proof.
  unfold _call. intros Hrun.
  apply call_loop_bounded in Hrun as (H1 & _ & H3); [by split | lia].
Qed.

Lemma iter_bounded (data : pyval) (key : string) :
  obind (Py.getitem data key) Py.iter <> OutOfFuel.
Proof.
  destruct data; simpl; try discriminate.
  destruct (d !! key) as [[]|]; discriminate.
Qed.

Lemma get_bounded (data : pyval) (key : string) : Py.get data key <> OutOfFuel.
Proof. destruct data; discriminate. Qed.

(** The same for the loop of [_pagination], drained by [collect]. *)
Lemma pagination_loop_bounded (self : BlueskyAPI) (endpoint : string)
    (key : string) (fuel : nat) :
  forall (params : pydict) (w : World),
    (List.length (script w) < fuel)%nat ->
    fst (_pagination_loop fuel self endpoint params key collect w) <> OutOfFuel.
Proof.
  induction fuel as [|fuel IH]; intros params w Hfuel; [lia|].
  cbn [_pagination_loop]. unfold bind at 1.
  destruct (_call self endpoint params w) as [o w1] eqn:Hcall.
  destruct (call_bounded self endpoint params w w1 o Hcall) as [Ho Hlt].
  destruct o as [data|e| | |]; cbn [fst is_return] in *; try discriminate;
    [|done].
  specialize (Hlt eq_refl).
  unfold bind at 1, lift at 1.
  pose proof (iter_bounded data key) as Hi.
  destruct (obind (Py.getitem data key) Py.iter) as [items|e| | |];
    cbn [fst]; try discriminate; [|done].
  unfold bind at 1. rewrite for_each_collect.
  unfold bind at 1, lift at 1.
  pose proof (get_bounded data "cursor") as Hg.
  destruct (Py.get data "cursor") as [cursor|e| | |];
    cbn [fst]; try discriminate; [|done].
  destruct (negb (Py.truthy cursor)); [discriminate|].
  apply IH. cbn [script set_yielded]. lia.
Qed.

(** The bound [_call] and [_pagination] give their loops is enough: on
    every script they end by returning, by raising, or by waiting for a
    response the script does not hold. *)
Theorem loops_end (self : BlueskyAPI) (endpoint : string) (params : pydict)
    (key : string) (w : World) :
  fst (_call self endpoint params w) <> OutOfFuel
  /\ fst (_pagination self endpoint params key collect w) <> OutOfFuel.
Proof.
  split.
  - destruct (_call self endpoint params w) as [o w'] eqn:Hcall.
    apply (call_bounded self endpoint params w w' o Hcall).
  - unfold _pagination. apply pagination_loop_bounded. lia.
Qed.

(** ** Runs of the whole extractor *)

(** The posts extractor over a feed of one page that holds one post with
    two images: one request, and three messages. *)
Example posts_extractor_run :
  let w := SampleNet.serving [SampleNet.page [Sample.item] None] in
  let run := items (BlueskyPostsExtractor_posts SampleNet.extractor) emit w in
  fst run = Return tt
  /\ List.length (emitted (snd run)) = 3%nat
  /\ List.length (requests (snd run)) = 1%nat
  /\ script (snd run) = [].
Proof. vm_compute. repeat split. Qed.

(** A failing page stops the extractor: the post of the page after it is
    never normalized. *)
Example posts_extractor_stops :
  let w := SampleNet.serving [SampleNet.broken; SampleNet.page [Sample.item] None] in
  let run := items (BlueskyPostsExtractor_posts SampleNet.extractor) emit w in
  fst run = Raise (StopExtraction "API request failed (%s %s)"
                                  [PInt 500; PStr "Internal Server Error"])
  /\ emitted (snd run) = []
  /\ List.length (script (snd run)) = 1%nat.
Proof. vm_compute. repeat split. Qed.

(** A post without embed gives the directory message alone, with count 0. *)
Example plain_post_run :
  exists post : pydict,
    items_body Sample.plain_item emit Sample.world
      = (Return tt, set_emitted [Directory post] Sample.world)
    /\ post !! "count" = Some (PInt 0)
    /\ post !! "post_id" = Some (PStr "3kxyz").
Proof. eexists. split; [reflexivity|]. split; reflexivity. Qed.

(** The post id of an at:// URI is its record key. *)
Lemma post_id_of_at_uri (did collection rkey : string) :
  Py.has_slash rkey = false ->
  Py.rpartition_last (PStr (("at://" ++ did ++ "/" ++ collection) ++ "/" ++ rkey))
  = Return (PStr rkey).
Proof.
  intros H. unfold Py.rpartition_last.
  by rewrite (after_last_slash_app _ rkey H).
Qed.

(** With a cached credential, the retried requests all carry it. *)
Example signed_retry_run :
  let w := SampleNet.signed [SampleNet.busy; SampleNet.busy; SampleNet.p3] in
  let run := _call SampleNet.member "app.bsky.feed.getAuthorFeed"
                   SampleNet.params w in
  fst run = Return (json SampleNet.p3)
  /\ requests (snd run) =
       replicate 3 (api_request SampleNet.member "app.bsky.feed.getAuthorFeed"
                      {["Authorization" := PStr "Bearer tok"]} SampleNet.params)
  /\ sleeps (snd run) = [60; 60]
  /\ clock (snd run) = 120.
Proof. repeat split; reflexivity. Qed.

(** ** Further properties of the normalizer *)

(** X1. The record is merged into the post: a key of the record overwrites the
    same key of the post, every other key of the post is kept, and the
    record itself is removed, also when it has a key named record. *)
Theorem flatten_merges (item : pyval) (p r : pydict) :
  Py.getitem item "post" = Return (PDict p) ->
  p !! "record" = Some (PDict r) ->
  exists flat : pydict,
    flatten item = Return flat
    /\ flat !! "record" = None
    /\ forall k : string,
         k <> "record" ->
         flat !! k = match r !! k with
                     | Some v => Some v
                     | None => p !! k
                     end.
Proof.
  intros Hpost Hrecord. exists (delete "record" (r ∪ p)).
  split; [|split].
  - unfold flatten. rewrite Hpost.
    cbn [obind Py.dict_getitem Py.getitem]. by rewrite Hrecord.
  - apply lookup_delete_eq.
  - intros k Hk. rewrite lookup_delete_ne by done. rewrite lookup_union.
    destruct (r !! k), (p !! k); reflexivity.
Qed.

Lemma flatten_merges_witness :
  exists flat : pydict,
    flatten Edge.shadow_item = Return flat
    /\ flat !! "record" = None
    /\ flat !! "cid" = Some (PStr "inner")
    /\ flat !! "uri" = Some (PStr "at://did:plc:abc/app.bsky.feed.post/3kabc").
Proof.
  destruct (flatten_merges Edge.shadow_item Edge.shadow_post Edge.shadow_record
              ltac:(reflexivity) ltac:(reflexivity))
    as (flat & Hflat & Hrecord & Hkeys).
  exists flat. split; [exact Hflat|]. split; [exact Hrecord|]. split.
  - rewrite (Hkeys "cid") by discriminate. reflexivity.
  - rewrite (Hkeys "uri") by discriminate. reflexivity.
Defined.

Lemma normalize_raises (item : pyval) (e : exn) (w : World) :
  flatten item = Raise e ->
  normalize item = Raise e /\ items_body item emit w = (Raise e, w).
Proof.
  intros Hf.
  assert (Hn : normalize item = Raise e) by (unfold normalize; by rewrite Hf).
  split; [exact Hn|]. unfold items_body, bind, lift. by rewrite Hn.
Qed.

(** X2. A feed item that lacks the post, a post that lacks the record, and a
    post or a record of the wrong type are not skipped: the KeyError, the
    AttributeError or the TypeError leaves [items], and nothing is emitted
    for the item. *)
Theorem flatten_failures (d : pydict) (w : World) :
  (d !! "post" = None ->
   items_body (PDict d) emit w = (Raise (KeyError (PStr "post")), w))
  /\ (forall v : pyval,
        d !! "post" = Some v -> is_dict v = false ->
        items_body (PDict d) emit w = (Raise AttributeError, w))
  /\ (forall p : pydict,
        d !! "post" = Some (PDict p) -> p !! "record" = None ->
        items_body (PDict d) emit w = (Raise (KeyError (PStr "record")), w))
  /\ (forall p : pydict,
        d !! "post" = Some (PDict p) -> p !! "record" = Some PNone ->
        items_body (PDict d) emit w = (Raise TypeError, w)).
Proof.
  split; [|split; [|split]].
  - intros H. apply normalize_raises. unfold flatten.
    cbn [obind Py.getitem]. by rewrite H.
  - intros v H Hv. apply normalize_raises. unfold flatten.
    cbn [obind Py.getitem]. rewrite H. by destruct v.
  - intros p H Hr. apply normalize_raises. unfold flatten.
    cbn [obind Py.getitem Py.dict_getitem]. rewrite H.
    cbn [obind Py.getitem Py.dict_getitem]. by rewrite Hr.
  - intros p H Hr. apply normalize_raises. unfold flatten.
    cbn [obind Py.getitem Py.dict_getitem]. rewrite H.
    cbn [obind Py.getitem Py.dict_getitem]. by rewrite Hr.
Qed.

Lemma flatten_failures_witness :
  items_body (PDict ∅) emit Sample.world
  = (Raise (KeyError (PStr "post")), Sample.world)
  /\ items_body (PDict {["post" := PDict ∅]}) emit Sample.world
     = (Raise (KeyError (PStr "record")), Sample.world).
Proof.
  split.
  - destruct (flatten_failures ∅ Sample.world) as (Hpost & _).
    apply Hpost. reflexivity.
  - destruct (flatten_failures {["post" := PDict ∅]} Sample.world)
      as (_ & _ & Hrecord & _).
    apply (Hrecord ∅); reflexivity.
Defined.

(** X3. Where the images of a post are looked for: in the embed, or in the
    media of the embed when it has one.  The media shadows the embed: when
    the media has no images, none are located, whatever the embed itself
    holds.  Without embed, and for an embed or media without images, the
    images are the empty tuple. *)
Theorem images_located (post : pydict) :
  (post !! "embed" = None -> locate_images post = Return (PTuple []))
  /\ (forall e : pydict,
        post !! "embed" = Some (PDict e) -> e !! "media" = None ->
        locate_images post = Return (default (PTuple []) (e !! "images")))
  /\ (forall e m : pydict,
        post !! "embed" = Some (PDict e) -> e !! "media" = Some (PDict m) ->
        locate_images post = Return (default (PTuple []) (m !! "images")))
  /\ (post !! "embed" = Some PNone -> locate_images post = Raise TypeError).
Proof.
  unfold locate_images. split; [|split; [|split]].
  - by intros ->.
  - intros e -> Hm. cbn [obind Py.contains Py.getitem]. rewrite Hm.
    rewrite (bool_decide_eq_false_2 (is_Some None)) by (by intros [? ?]).
    cbn [obind Py.contains Py.getitem]. destruct (e !! "images") as [imgs|] eqn:Hi.
    + by rewrite (bool_decide_eq_true_2 (is_Some (Some imgs))) by eauto.
    + by rewrite (bool_decide_eq_false_2 (is_Some None)) by (by intros [? ?]).
  - intros e m -> Hm. cbn [obind Py.contains Py.getitem]. rewrite Hm.
    rewrite (bool_decide_eq_true_2 (is_Some (Some (PDict m)))) by eauto.
    cbn [obind Py.contains Py.getitem]. destruct (m !! "images") as [imgs|] eqn:Hi.
    + by rewrite (bool_decide_eq_true_2 (is_Some (Some imgs))) by eauto.
    + by rewrite (bool_decide_eq_false_2 (is_Some None)) by (by intros [? ?]).
  - by intros ->.
Qed.

Lemma images_located_witness :
  locate_images {["embed" := PDict Edge.shadowed_embed]} = Return (PTuple [])
  /\ locate_images {["embed" := PDict {["images" := PList Sample.images]}]}
     = Return (PList Sample.images).
Proof.
  split.
  - destruct (images_located {["embed" := PDict Edge.shadowed_embed]})
      as (_ & _ & Hmedia & _).
    exact (Hmedia Edge.shadowed_embed ∅ ltac:(reflexivity) ltac:(reflexivity)).
  - destruct (images_located {["embed" := PDict {["images" := PList Sample.images]}]})
      as (_ & Hembed & _).
    exact (Hembed {["images" := PList Sample.images]}
             ltac:(reflexivity) ltac:(reflexivity)).
Defined.

Lemma has_slash_cons (c : ascii) (s : string) :
  Py.has_slash (String c s) = (Ascii.eqb c "/" || Py.has_slash s).
Proof. reflexivity. Qed.

(** [s.rpartition("/")[2]]: the result holds no slash; it is the whole
    string when the string holds none, and otherwise the string is some
    prefix, a slash and the result. *)
Lemma after_last_slash_spec (s : string) :
  Py.has_slash (Py.after_last_slash s) = false
  /\ if Py.has_slash s
     then exists p : string, s = p ++ "/" ++ Py.after_last_slash s
     else Py.after_last_slash s = s.
Proof.
  induction s as [|c s [IH1 IH2]]; [by split|].
  rewrite has_slash_cons. cbn [Py.after_last_slash].
  destruct (Py.has_slash s) eqn:Hs.
  - rewrite orb_true_r. split; [exact IH1|].
    destruct IH2 as [p Hp]. exists (String c p).
    change (String c s = String c (p ++ "/" ++ Py.after_last_slash s)).
    by f_equal.
  - rewrite orb_false_r. destruct (Ascii.eqb c "/") eqn:Hc.
    + split; [exact Hs|]. exists "". apply Ascii.eqb_eq in Hc. by subst.
    + split; [|reflexivity]. rewrite has_slash_cons, Hc, Hs. reflexivity.
Qed.

(** What a normalization that returns went through. *)
Lemma normalize_inverts (item : pyval) (post : pydict) (images : pyval) :
  normalize item = Return (post, images) ->
  exists (flat post1 : pydict) (uri : string) (n : Z) (created : pyval),
    flatten item = Return flat
    /\ locate_images flat = Return images
    /\ collect_facets flat = Return post1
    /\ flat !! "uri" = Some (PStr uri)
    /\ Py.len images = Return n
    /\ post = <["date" := Text.parse_datetime created]>
               (<["count" := PInt n]>
                  (<["post_id" := PStr (Py.after_last_slash uri)]> post1)).
Proof.
  intros H. unfold normalize in H.
  destruct (flatten item) as [flat| | | |] eqn:Hflat; try discriminate.
  cbn [obind] in H.
  destruct (locate_images flat) as [imgs| | | |] eqn:Himgs; try discriminate.
  cbn [obind] in H.
  destruct (collect_facets flat) as [post1| | | |] eqn:Hfacets; try discriminate.
  cbn [obind] in H. unfold Py.dict_getitem, Py.getitem in H.
  destruct (post1 !! "uri") as [u|] eqn:Huri; [|discriminate].
  cbn [obind] in H.
  destruct u as [| | |uri| | | |]; try discriminate.
  cbn [obind Py.rpartition_last] in H.
  destruct (Py.len imgs) as [n| | | |] eqn:Hlen; try discriminate.
  cbn [obind] in H. rewrite lookup_insert_ne in H by done.
  rewrite lookup_insert_ne in H by done.
  destruct (post1 !! "createdAt") as [c|] eqn:Hc; [|discriminate].
  cbn [obind] in H.
  destruct (Py.slice19 c) as [created| | | |]; try discriminate.
  cbn [obind] in H. injection H as <- <-.
  exists flat, post1, uri, n, created. repeat split; try done.
  by rewrite <- (collect_facets_keeps "uri" flat post1).
Qed.

Lemma flatten_drops_record (item : pyval) (flat : pydict) :
  flatten item = Return flat -> flat !! "record" = None.
Proof.
  unfold flatten. intros Hflat.
  destruct (Py.getitem item "post") as [[| | | | | |p|]| | | |]; try discriminate.
  cbn [obind] in Hflat.
  destruct (Py.dict_getitem p "record") as [r| | | |]; try discriminate.
  cbn [obind] in Hflat.
  destruct (Py.dict_update p r) as [p'| | | |]; try discriminate.
  cbn [obind] in Hflat. injection Hflat as <-. apply lookup_delete_eq.
Qed.

(** X4. The fields every directory message carries, whatever the post: the
    record is gone, [post_id] is the text after the last slash of the uri
    (a string) and holds no slash itself, and [count] is the length of the
    images located. *)
Theorem directory_post_fields (item : pyval) (post : pydict) (images : pyval) :
  normalize item = Return (post, images) ->
  post !! "record" = None
  /\ (exists (flat : pydict) (uri : string),
        flatten item = Return flat
        /\ flat !! "uri" = Some (PStr uri)
        /\ post !! "post_id" = Some (PStr (Py.after_last_slash uri))
        /\ Py.has_slash (Py.after_last_slash uri) = false
        /\ if Py.has_slash uri
           then exists p : string, uri = p ++ "/" ++ Py.after_last_slash uri
           else Py.after_last_slash uri = uri)
  /\ (exists n : Z, Py.len images = Return n /\ post !! "count" = Some (PInt n)).
Proof.
  intros Hnorm.
  destruct (normalize_inverts item post images Hnorm)
    as (flat & post1 & uri & n & created & Hflat & _ & Hfacets & Huri & Hlen & ->).
  split; [|split].
  - rewrite !lookup_insert_ne by done.
    rewrite (collect_facets_keeps "record" flat post1) by done.
    by apply (flatten_drops_record item).
  - exists flat, uri. split; [exact Hflat|]. split; [exact Huri|]. split.
    + rewrite !lookup_insert_ne by done. apply lookup_insert_eq.
    + apply after_last_slash_spec.
  - exists n. split; [exact Hlen|].
    rewrite lookup_insert_ne by done. apply lookup_insert_eq.
Qed.

Lemma directory_post_fields_witness :
  Sample.post !! "record" = None
  /\ Sample.post !! "count" = Some (PInt 2)
  /\ exists uri : string,
       Sample.post !! "post_id" = Some (PStr (Py.after_last_slash uri))
       /\ Py.has_slash (Py.after_last_slash uri) = false.
Proof.
  destruct (directory_post_fields Sample.item Sample.post (PList Sample.images)
              ltac:(reflexivity))
    as (Hrecord & (flat & uri & _ & _ & Hid & Hslash & _) & n & Hn & Hcount).
  split; [exact Hrecord|]. split.
  - simpl in Hn. injection Hn as <-. exact Hcount.
  - exists uri. split; [exact Hid | exact Hslash].
Defined.

(** ** Further properties of the media loop *)

Lemma author_did_str (post : pydict) (did : string) :
  author_did post = Some did ->
  obind (obind (Py.dict_getitem post "author")
               (fun author => Py.getitem author "did")) Py.str = Return did.
Proof.
  unfold author_did, Py.dict_getitem, Py.getitem.
  destruct (post !! "author") as [[| | | | | |a|]|]; try discriminate.
  cbn [obind].
  destruct (a !! "did") as [[| | |did'| | | |]|]; try discriminate.
  by intros [= ->].
Qed.

(** The start of the body of [items] for a post with images: the directory
    message, then the media loop on the post numbered 0. *)
Lemma items_body_media (item : pyval) (post : pydict) (images : pyval)
    (files : list pyval) (did : string) (w : World) :
  normalize item = Return (post, images) ->
  Py.truthy images = true ->
  Py.iter images = Return files ->
  author_did post = Some did ->
  items_body item emit w =
    media_loop (blob_base did) (<["num" := PInt 0]> post) files emit
               (set_emitted (emitted w ++ [Directory post]) w).
Proof.
  intros Hnorm Htruthy Hiter Hdid. apply author_did_str in Hdid.
  unfold items_body, bind at 1, lift at 1. rewrite Hnorm.
  unfold bind at 1, emit at 1. rewrite Htruthy. cbn [negb].
  unfold bind at 1, lift at 1.
  destruct (obind (Py.dict_getitem post "author")
                  (fun author => Py.getitem author "did")) as [d| | | |];
    try discriminate.
  cbn [obind] in Hdid. unfold bind at 1, lift at 1. rewrite Hdid.
  unfold bind at 1, lift at 1. by rewrite Hiter.
Qed.

Lemma items_body_plain (item : pyval) (post : pydict) (images : pyval) (w : World) :
  normalize item = Return (post, images) ->
  Py.truthy images = false ->
  items_body item emit w = (Return tt, set_emitted (emitted w ++ [Directory post]) w).
Proof.
  intros Hnorm Hfalsy. unfold items_body, bind at 1, lift at 1. rewrite Hnorm.
  unfold bind at 1, emit at 1. by rewrite Hfalsy.
Qed.

(** The messages of a post whose images all have the expected shape. *)
Lemma items_body_messages (item : pyval) (post : pydict) (files : list pyval)
    (fields : list image_fields) (did : string) (w : World) :
  normalize item = Return (post, PList files) ->
  mapM read_image files = Some fields ->
  (files <> [] -> author_did post = Some did) ->
  items_body item emit w =
    (Return tt,
     set_emitted (emitted w ++ Directory post
                    :: media_messages (blob_base did) 0 (<["num" := PInt 0]> post)
                                      fields) w).
Proof.
  intros Hnorm Hread Hdid. destruct files as [|file rest].
  - injection Hread as <-. by rewrite (items_body_plain item post (PList []) w).
  - rewrite (items_body_media item post _ (file :: rest) did w Hnorm)
      by (done || by apply Hdid).
    rewrite (media_loop_read _ (file :: rest) fields _ 0 _ Hread
               (lookup_insert_eq _ _ _)).
    by rewrite emit_twice.
Qed.

Lemma media_post_keeps (num : Z) (fld : image_fields) (post : pydict) (k : string) :
  ~ In k media_keys -> media_post num fld post !! k = post !! k.
Proof.
  intros Hk. unfold media_post.
  rewrite !lookup_insert_ne; [reflexivity| | | | | |];
    intros <-; apply Hk; unfold media_keys; simpl; tauto.
Qed.

Lemma media_messages_keep (base : string) (fields : list image_fields) :
  forall (num : Z) (post : pydict) (m : Message),
    In m (media_messages base num post fields) ->
    exists (url : string) (p : pydict),
      m = Url url p /\ forall k : string, ~ In k media_keys -> p !! k = post !! k.
Proof.
  induction fields as [|fld fields IH]; intros num post m Hin; [destruct Hin|].
  cbn [media_messages] in Hin. destruct Hin as [<-|Hin].
  - eexists _, _. split; [reflexivity|]. intros k Hk. by apply media_post_keeps.
  - destruct (IH _ _ _ Hin) as (url & p & -> & Hp).
    exists url, p. split; [reflexivity|]. intros k Hk.
    rewrite (Hp k Hk). by apply media_post_keeps.
Qed.

(** X5. The directory message announces the media messages that follow it: its
    [count] is their number.  Every one of them is a Url message and
    carries the fields of the directory message, [count] among them; only
    the six fields the media loop writes may differ. *)
Theorem media_inherit_post (item : pyval) (post : pydict) (files : list pyval)
    (fields : list image_fields) (did : string) (w : World) :
  normalize item = Return (post, PList files) ->
  mapM read_image files = Some fields ->
  (files <> [] -> author_did post = Some did) ->
  exists msgs : list Message,
    items_body item emit w
      = (Return tt, set_emitted (emitted w ++ Directory post :: msgs) w)
    /\ post !! "count" = Some (PInt (Z.of_nat (List.length msgs)))
    /\ forall m : Message,
         In m msgs ->
         exists (url : string) (p : pydict),
           m = Url url p
           /\ p !! "count" = Some (PInt (Z.of_nat (List.length msgs)))
           /\ forall k : string, ~ In k media_keys -> p !! k = post !! k.
Proof.
  intros Hnorm Hread Hdid.
  exists (media_messages (blob_base did) 0 (<["num" := PInt 0]> post) fields).
  assert (Hcount : post !! "count"
                   = Some (PInt (Z.of_nat (List.length
                        (media_messages (blob_base did) 0
                                        (<["num" := PInt 0]> post) fields))))).
  { destruct (normalize_inverts item post _ Hnorm)
      as (flat & post1 & uri & n & created & _ & _ & _ & _ & Hn & ->).
    rewrite lookup_insert_ne by done. rewrite lookup_insert_eq.
    rewrite media_messages_length. injection Hn as <-.
    apply mapM_Some in Hread. apply Forall2_length in Hread.
    by rewrite <- Hread. }
  split; [by apply (items_body_messages item post files)|].
  split; [exact Hcount|].
  intros m Hin. destruct (media_messages_keep _ _ _ _ _ Hin) as (url & p & -> & Hp).
  assert (Hnum : forall k : string, ~ In k media_keys ->
                                    p !! k = post !! k).
  { intros k Hk. rewrite (Hp k Hk). apply lookup_insert_ne.
    intros <-. apply Hk. unfold media_keys. simpl. tauto. }
  exists url, p. split; [reflexivity|]. split; [|exact Hnum].
  rewrite Hnum; [exact Hcount|].
  unfold media_keys. simpl. intros [H|[H|[H|[H|[H|[H|[]]]]]]]; discriminate.
Qed.

Lemma media_inherit_post_witness :
  exists msgs : list Message,
    items_body Sample.item emit Sample.world
    = (Return tt,
       set_emitted (emitted Sample.world ++ Directory Sample.post :: msgs)
                   Sample.world)
    /\ Sample.post !! "count" = Some (PInt (Z.of_nat (List.length msgs))).
Proof.
  destruct (media_inherit_post Sample.item Sample.post Sample.images
              [mkImage (PStr "a cat") (PInt 4) (PInt 3) "bafkrei1" "image/jpeg";
               mkImage (PStr "a dog") (PInt 0) (PInt 0) "bafkrei2" "image/png"]
              "did:plc:abc" Sample.world
              ltac:(reflexivity) ltac:(reflexivity)
              ltac:(intros _; reflexivity))
    as (msgs & Hrun & Hcount & _).
  exists msgs. split; [exact Hrun | exact Hcount].
Defined.

Lemma set_dimensions_unread (fm : pydict) (post : pydict) :
  read_dimensions fm = None -> set_dimensions (PDict fm) post = Raise TypeError.
Proof.
  unfold read_dimensions, set_dimensions, Py.getitem.
  destruct (fm !! "aspectRatio") as [[| | | | | |a|]|]; try done.
  by destruct (a !! "width"), (a !! "height").
Qed.

Ltac media_step_raises :=
  eexists; intros ? ? ?;
  unfold media_step, increment_num, Py.dict_getitem;
  repeat (first
    [ progress cbn [obind Py.getitem Py.rpartition_last Py.str_add]
    | match goal with
          | H : ?m !! ?k = _ |- context [?m !! ?k] => rewrite H
          | H : read_dimensions ?fm = Some _ |- context [set_dimensions (PDict ?fm)] =>
              rewrite (set_dimensions_read fm _ _ _ H)
          | H : read_dimensions ?fm = None |- context [set_dimensions (PDict ?fm)] =>
              rewrite (set_dimensions_unread fm _ H)
      end ]);
  reflexivity.

(** An image entry that is not of the expected shape is not skipped: the
    turn of the loop raises, and what it raises depends on the entry
    only. *)
Lemma media_step_unread (base : string) (file : pyval) :
  read_image file = None ->
  exists e : exn,
    forall (post : pydict) (num : Z),
      post !! "num" = Some (PInt num) -> media_step base post file = Raise e.
Proof.
  intros Hr.
  destruct file as [| | | | | |fm|]; try media_step_raises.
  cbn [read_image] in Hr.
  destruct (fm !! "alt") as [alt|] eqn:Halt; [|media_step_raises].
  destruct (read_dimensions fm) as [[w h]|] eqn:Hdim; [|media_step_raises].
  destruct (fm !! "image") as [[| | | | | |im|]|] eqn:Him; try media_step_raises.
  destruct (im !! "ref") as [[| | | | | |rf|]|] eqn:Hrf; try media_step_raises.
  destruct (rf !! "$link") as [link|] eqn:Hlink; [|media_step_raises].
  destruct (im !! "mimeType") as [[| | |mime| | | |]|] eqn:Hmime;
    try media_step_raises.
  destruct link as [| | |link| | | |]; try media_step_raises.
  discriminate.
Qed.

Lemma media_step_alt (base : string) (fm post : pydict) (num : Z) :
  fm !! "alt" = None ->
  post !! "num" = Some (PInt num) ->
  media_step base post (PDict fm) = Raise (KeyError (PStr "alt")).
Proof.
  intros Halt Hnum. unfold media_step, increment_num, Py.dict_getitem.
  cbn [Py.getitem]. rewrite Hnum. cbn [obind]. by rewrite Halt.
Qed.

Lemma media_loop_stops (base : string) (bad : pyval) (suf : list pyval) (e : exn)
    (pre : list pyval) :
  forall (fields : list image_fields) (post : pydict) (num : Z) (w : World),
    mapM read_image pre = Some fields ->
    post !! "num" = Some (PInt num) ->
    (forall (post' : pydict) (n : Z),
        post' !! "num" = Some (PInt n) -> media_step base post' bad = Raise e) ->
    media_loop base post (pre ++ bad :: suf) emit w =
      (Raise e, set_emitted (emitted w ++ media_messages base num post fields) w).
Proof.
  induction pre as [|file pre IH]; intros fields post num w Hm Hnum Hbad.
  - injection Hm as <-. cbn [app media_loop]. unfold bind at 1, lift at 1.
    rewrite (Hbad post num Hnum). f_equal. world_eq. by rewrite app_nil_r.
  - apply mapM_Some in Hm. inversion Hm as [|? fld ? fields' Hf Hrest]; subst.
    apply mapM_Some in Hrest.
    cbn [app media_loop]. unfold bind at 1, lift at 1.
    rewrite (media_step_read base post file fld num Hf Hnum).
    unfold bind at 1, emit at 1.
    rewrite (IH fields' _ (num + 1) _ Hrest (media_post_num _ _ _) Hbad).
    cbn [media_messages]. by rewrite emit_twice.
Qed.

(** X6. An image entry that is not of the expected shape ends the run of
    [items] with an exception; it is not skipped.  The directory message
    and the messages of the images before it have been handed over by
    then.  An entry without [alt] raises KeyError. *)
Theorem bad_image_stops (item : pyval) (post : pydict) (pre suf : list pyval)
    (bad : pyval) (fields : list image_fields) (did : string) (w : World) :
  normalize item = Return (post, PList (pre ++ bad :: suf)) ->
  mapM read_image pre = Some fields ->
  read_image bad = None ->
  author_did post = Some did ->
  let w' := set_emitted
              (emitted w ++ Directory post
                 :: media_messages (blob_base did) 0 (<["num" := PInt 0]> post) fields)
              w in
  (exists e : exn, items_body item emit w = (Raise e, w'))
  /\ (forall fm : pydict,
        bad = PDict fm -> fm !! "alt" = None ->
        items_body item emit w = (Raise (KeyError (PStr "alt")), w')).
Proof.
  intros Hnorm Hpre Hbad Hdid w'.
  assert (Hrun : forall e : exn,
             (forall (post' : pydict) (n : Z),
                 post' !! "num" = Some (PInt n) ->
                 media_step (blob_base did) post' bad = Raise e) ->
             items_body item emit w = (Raise e, w')).
  { intros e He.
    rewrite (items_body_media item post _ (pre ++ bad :: suf) did w Hnorm);
      [|by destruct pre|reflexivity|exact Hdid].
    rewrite (media_loop_stops _ bad suf e pre fields _ 0 _ Hpre
               (lookup_insert_eq _ _ _) He).
    by rewrite emit_twice. }
  split.
  - destruct (media_step_unread (blob_base did) bad Hbad) as [e He].
    exists e. by apply Hrun.
  - intros fm -> Halt. apply Hrun. intros post' n Hn.
    by apply (media_step_alt _ fm post' n).
Qed.

Lemma bad_image_stops_witness :
  exists w' : World,
    items_body Edge.mute_item emit Sample.world
    = (Raise (KeyError (PStr "alt")), w')
    /\ List.length (emitted w') = 2%nat.
Proof.
  destruct (bad_image_stops Edge.mute_item (Edge.post_of Edge.mute_item)
              [Sample.image "a cat" "bafkrei1" "image/jpeg" ∅]
              [Sample.image "a dog" "bafkrei2" "image/png" ∅]
              (PDict Edge.mute_image)
              [mkImage (PStr "a cat") (PInt 0) (PInt 0) "bafkrei1" "image/jpeg"]
              "did:plc:abc" Sample.world
              ltac:(reflexivity) ltac:(reflexivity) ltac:(reflexivity)
              ltac:(reflexivity))
    as (_ & Halt).
  eexists. split; [apply (Halt Edge.mute_image); reflexivity|]. reflexivity.
Defined.

(** X7. The dimensions of an image (the try block and its handler): a missing
    key never escapes, and the width is kept only when the height is there
    too; with an aspect ratio that lacks one of them both are 0.  An
    aspect ratio that is not an object is not covered by the handler: the
    TypeError escapes. *)
Theorem dimensions_guarded (fm post : pydict) :
  (forall k : pyval, set_dimensions (PDict fm) post <> Raise (KeyError k))
  /\ (forall a : pydict,
        fm !! "aspectRatio" = Some (PDict a) ->
        a !! "width" = None \/ a !! "height" = None ->
        set_dimensions (PDict fm) post
        = Return (<["height" := PInt 0]> (<["width" := PInt 0]> post)))
  /\ (forall v : pyval,
        fm !! "aspectRatio" = Some v -> is_dict v = false ->
        set_dimensions (PDict fm) post = Raise TypeError).
Proof.
  unfold set_dimensions, Py.getitem. split; [|split].
  - intros k.
    destruct (fm !! "aspectRatio") as [[| | | | | |a|]|]; try done.
    cbn [obind]. by destruct (a !! "width"), (a !! "height").
  - intros a -> [Hw|Hh]; cbn [obind].
    + by rewrite Hw.
    + rewrite Hh. by destruct (a !! "width").
  - intros v -> Hv. by destruct v.
Qed.

Lemma dimensions_guarded_witness :
  set_dimensions (PDict Edge.narrow_image) ∅
  = Return (<["height" := PInt 0]> (<["width" := PInt 0]> ∅))
  /\ set_dimensions (PDict {["aspectRatio" := PNone]}) ∅ = Raise TypeError.
Proof.
  split.
  - destruct (dimensions_guarded Edge.narrow_image ∅) as (_ & Hpartial & _).
    apply (Hpartial {["width" := PInt 4]}); [reflexivity | right; reflexivity].
  - destruct (dimensions_guarded {["aspectRatio" := PNone]} ∅) as (_ & _ & Hother).
    apply (Hother PNone); reflexivity.
Defined.

(** X8. The author of a post is read after the directory message was handed
    over, and only when the post has images: a post without author gives
    its directory message and, when it has images, KeyError after it. *)
Theorem author_read_late (item : pyval) (post : pydict) (images : pyval)
    (w : World) :
  normalize item = Return (post, images) ->
  post !! "author" = None ->
  items_body item emit w =
    (if Py.truthy images then Raise (KeyError (PStr "author")) else Return tt,
     set_emitted (emitted w ++ [Directory post]) w).
Proof.
  intros Hnorm Hauthor. destruct (Py.truthy images) eqn:Htruthy.
  - unfold items_body, bind at 1, lift at 1. rewrite Hnorm.
    unfold bind at 1, emit at 1. rewrite Htruthy. cbn [negb].
    unfold bind at 1, lift at 1, Py.dict_getitem, Py.getitem.
    by rewrite Hauthor.
  - by apply (items_body_plain item post images).
Qed.

Lemma author_read_late_witness :
  items_body Edge.orphan_item emit Sample.world
  = (Raise (KeyError (PStr "author")),
     set_emitted [Directory (Edge.post_of Edge.orphan_item)] Sample.world).
Proof.
  apply (author_read_late Edge.orphan_item (Edge.post_of Edge.orphan_item)
           (PList Sample.images) Sample.world);
    reflexivity.
Defined.

(** ** Walks with a consumer that hands over messages *)

Lemma handed_over_app (f : pyval -> option (list Message)) (l1 : list pyval) :
  forall (l2 : list pyval) (msgs : list Message),
    handed_over f (l1 ++ l2) = Some msgs ->
    exists m1 m2 : list Message,
      handed_over f l1 = Some m1 /\ handed_over f l2 = Some m2
      /\ msgs = (m1 ++ m2)%list.
Proof.
  induction l1 as [|x l1 IH]; intros l2 msgs H.
  - by exists [], msgs.
  - cbn [app handed_over] in H. destruct (f x) as [m|] eqn:Hx; [|discriminate].
    destruct (handed_over f (l1 ++ l2)) as [more|] eqn:Hm; [|discriminate].
    injection H as <-. destruct (IH l2 more Hm) as (m1 & m2 & H1 & H2 & ->).
    exists (m ++ m1)%list, m2. cbn [handed_over]. rewrite Hx, H1.
    by rewrite List.app_assoc.
Qed.

Lemma for_each_emits (body : pyval -> Run unit) (f : pyval -> option (list Message)) :
  emits body f ->
  forall (l : list pyval) (msgs : list Message) (w : World),
    handed_over f l = Some msgs ->
    for_each l body w = (Return tt, set_emitted (emitted w ++ msgs) w).
Proof.
  intros Hb. induction l as [|x l IH]; intros msgs w H.
  - injection H as <-. cbn [for_each]. unfold ret. f_equal. world_eq.
    by rewrite app_nil_r.
  - cbn [handed_over] in H. destruct (f x) as [m|] eqn:Hx; [|discriminate].
    destruct (handed_over f l) as [more|] eqn:Hm; [|discriminate].
    injection H as <-. cbn [for_each]. unfold bind at 1.
    rewrite (Hb x m w Hx). rewrite (IH more _ eq_refl). f_equal. world_eq.
    by rewrite List.app_assoc.
Qed.

Lemma for_each_stops (body : pyval -> Run unit) (f : pyval -> option (list Message))
    (bad : pyval) (suf : list pyval) (e : exn) (part : list Message) :
  emits body f ->
  (forall w : World, body bad w = (Raise e, set_emitted (emitted w ++ part) w)) ->
  forall (pre : list pyval) (msgs : list Message) (w : World),
    handed_over f pre = Some msgs ->
    for_each (pre ++ bad :: suf) body w
    = (Raise e, set_emitted (emitted w ++ msgs ++ part) w).
Proof.
  intros Hb Hbad. induction pre as [|x pre IH]; intros msgs w H.
  - injection H as <-. cbn [app for_each]. unfold bind at 1. by rewrite Hbad.
  - cbn [handed_over] in H. destruct (f x) as [m|] eqn:Hx; [|discriminate].
    destruct (handed_over f pre) as [more|] eqn:Hm; [|discriminate].
    injection H as <-. cbn [app for_each]. unfold bind at 1.
    rewrite (Hb x m w Hx). rewrite (IH more _ eq_refl). f_equal. world_eq.
    by rewrite !List.app_assoc.
Qed.

Ltac feed_eq := unfold after_feed; world_eq.

Lemma after_feed_signed_in (self : BlueskyAPI) (endpoint : string)
    (params : pydict) (key : string) (pages rest : list Response)
    (msgs : list Message) (w : World) :
  signed_in self (after_feed self endpoint params key pages rest msgs w)
  = signed_in self w.
Proof. unfold signed_in. rewrite (signed_in_until_db self _ w) by reflexivity. done. Qed.

Lemma after_feed_cons (self : BlueskyAPI) (endpoint : string) (params : pydict)
    (key : string) (r : Response) (pages mid rest : list Response)
    (m1 m2 : list Message) (w : World) :
  after_feed self endpoint (<["cursor" := page_cursor r]> params) key pages rest m2
    (after_feed self endpoint params key [r] mid m1 w)
  = after_feed self endpoint params key (r :: pages) rest (m1 ++ m2) w.
Proof.
  unfold after_feed at 1, after_pages at 1.
  rewrite (bearer_headers_sent self w) by reflexivity.
  feed_eq.
  - by rewrite <- List.app_assoc.
  - simpl. by rewrite !app_nil_r.
  - by rewrite List.app_assoc.
Qed.

(** One turn of the loop of [_pagination] on a page, for any consumer: the
    items of the page are consumed, and the next page is asked for after
    that, if the page names one. *)
Lemma pagination_page (fuel : nat) (self : BlueskyAPI) (endpoint : string)
    (params : pydict) (key : string) (body : pyval -> Run unit) (w : World)
    (r : Response) (rest : list Response) :
  signed_in self w = true ->
  script w = r :: rest ->
  is_page key r = true ->
  _pagination_loop (S fuel) self endpoint params key body w =
    (for_each (page_items key r) body ;;;
     if has_next r
     then _pagination_loop fuel self endpoint (<["cursor" := page_cursor r]> params)
                           key body
     else ret tt)
      (after_pages self endpoint params key [r] [] rest w).
Proof.
  intros Hs Hscript Hp. destruct (page_body key r Hp) as (Hok & Hitems & Hcur).
  cbn [_pagination_loop]. unfold bind at 1.
  rewrite (call_turn self endpoint params w r rest Hs Hscript (or_intror Hok)).
  rewrite Hok. unfold bind at 1, lift at 1. rewrite Hitems.
  replace (after_pages self endpoint params "feed" [r] [] rest w)
    with (after_pages self endpoint params key [r] [] rest w) by world_eq.
  unfold bind at 1. unfold bind at 2.
  destruct (for_each (page_items key r) body
              (after_pages self endpoint params key [r] [] rest w))
    as [[[]| | | |] w1]; try reflexivity.
  unfold bind at 1, lift at 1. rewrite Hcur. fold (has_next r).
  by destruct (has_next r).
Qed.

(** A walk over pages that all announce a next one, with a consumer that
    hands over messages, ended by a turn on [last]. *)
Lemma pagination_hands_over (self : BlueskyAPI) (endpoint : string) (key : string)
    (body : pyval -> Run unit) (f : pyval -> option (list Message))
    (last : Response) (rest : list Response) (fin : list Message)
    (o : outcome unit) (init : list Response) :
  emits body f ->
  (forall (fuel : nat) (params : pydict) (w : World),
      signed_in self w = true -> script w = last :: rest ->
      _pagination_loop (S fuel) self endpoint params key body w =
        (o, after_feed self endpoint params key [last] rest fin w)) ->
  forall (fuel : nat) (params : pydict) (w : World) (msgs : list Message),
    (List.length init < fuel)%nat ->
    signed_in self w = true ->
    script w = (init ++ last :: rest)%list ->
    forallb (fun r => is_page key r && has_next r) init = true ->
    handed_over f (concat (map (page_items key) init)) = Some msgs ->
    _pagination_loop fuel self endpoint params key body w =
      (o, after_feed self endpoint params key (init ++ [last]) rest (msgs ++ fin) w).
Proof.
  intros Hb Hlast.
  induction init as [|r init IH]; intros fuel params w msgs Hfuel Hs Hscript Hall Hm.
  - destruct fuel as [|fuel]; [simpl in Hfuel; lia|].
    injection Hm as <-. by apply Hlast.
  - destruct fuel as [|fuel]; [simpl in Hfuel; lia|].
    simpl in Hall. apply andb_true_iff in Hall as [Hr Hall].
    apply andb_true_iff in Hr as [Hp Hn].
    cbn [map concat] in Hm.
    destruct (handed_over_app f _ _ _ Hm) as (m1 & m2 & H1 & H2 & ->).
    rewrite (pagination_page fuel self endpoint params key body w r _ Hs Hscript Hp).
    unfold bind at 1. rewrite (for_each_emits body f Hb _ m1 _ H1). rewrite Hn.
    replace (set_emitted _ _)
      with (after_feed self endpoint params key [r] (init ++ last :: rest) m1 w)
      by feed_eq.
    rewrite (IH fuel _ _ m2).
    + by rewrite after_feed_cons, List.app_assoc.
    + simpl in Hfuel. lia.
    + by rewrite after_feed_signed_in.
    + reflexivity.
    + exact Hall.
    + exact H2.
Qed.

Lemma pagination_last_page (self : BlueskyAPI) (endpoint : string) (key : string)
    (body : pyval -> Run unit) (f : pyval -> option (list Message))
    (last : Response) (rest : list Response) (fin : list Message) :
  emits body f ->
  is_page key last = true ->
  has_next last = false ->
  handed_over f (page_items key last) = Some fin ->
  forall (fuel : nat) (params : pydict) (w : World),
    signed_in self w = true -> script w = last :: rest ->
    _pagination_loop (S fuel) self endpoint params key body w =
      (Return tt, after_feed self endpoint params key [last] rest fin w).
Proof.
  intros Hb Hp Hn Hfin fuel params w Hs Hscript.
  rewrite (pagination_page fuel self endpoint params key body w last _ Hs Hscript Hp).
  unfold bind at 1. rewrite (for_each_emits body f Hb _ fin _ Hfin). rewrite Hn.
  unfold ret. f_equal.
Qed.

Lemma pagination_bad_item (self : BlueskyAPI) (endpoint : string) (key : string)
    (body : pyval -> Run unit) (f : pyval -> option (list Message))
    (last : Response) (rest : list Response) (pre suf : list pyval) (bad : pyval)
    (e : exn) (fin part : list Message) :
  emits body f ->
  is_page key last = true ->
  page_items key last = (pre ++ bad :: suf)%list ->
  handed_over f pre = Some fin ->
  (forall w : World, body bad w = (Raise e, set_emitted (emitted w ++ part) w)) ->
  forall (fuel : nat) (params : pydict) (w : World),
    signed_in self w = true -> script w = last :: rest ->
    _pagination_loop (S fuel) self endpoint params key body w =
      (Raise e, after_feed self endpoint params key [last] rest (fin ++ part) w).
Proof.
  intros Hb Hp Hitems Hfin Hbad fuel params w Hs Hscript.
  rewrite (pagination_page fuel self endpoint params key body w last _ Hs Hscript Hp).
  unfold bind at 1. rewrite Hitems.
  rewrite (for_each_stops body f bad suf e part Hb Hbad pre fin _ Hfin).
  f_equal.
Qed.

Lemma items_body_emits : emits (fun item => items_body item emit) messages_of.
Proof.
  intros item msgs w. unfold messages_of.
  destruct (normalize item) as [[post images]| | | |] eqn:Hnorm; try discriminate.
  destruct images as [| | | |files|files| |]; try discriminate.
  - destruct (mapM read_image files) as [fields|] eqn:Hread; [|discriminate].
    destruct files as [|file files].
    + intros [= <-]. injection Hread as <-.
      by apply (items_body_plain item post (PList [])).
    + destruct (author_did post) as [did|] eqn:Hdid; [|discriminate].
      intros [= <-].
      by apply (items_body_messages item post (file :: files) fields did).
  - destruct files; [|discriminate]. intros [= <-].
    by apply (items_body_plain item post (PTuple [])).
Qed.

Lemma items_body_raises (item : pyval) (e : exn) (w : World) :
  normalize item = Raise e -> items_body item emit w = (Raise e, w).
Proof. intros Hn. unfold items_body, bind, lift. by rewrite Hn. Qed.

Lemma forallb_both {A : Type} (p q : A -> bool) (l : list A) :
  forallb p l = true -> forallb q l = true ->
  forallb (fun a => p a && q a) l = true.
Proof.
  induction l as [|a l IH]; [done|]. cbn [forallb]. intros Hp Hq.
  apply andb_true_iff in Hp as [-> Hp]. apply andb_true_iff in Hq as [-> Hq].
  by rewrite IH.
Qed.

(** A cursor walk with a consumer that hands over messages. *)
Lemma pagination_feed (self : BlueskyAPI) (endpoint : string) (params : pydict)
    (key : string) (body : pyval -> Run unit) (f : pyval -> option (list Message))
    (w : World) (init : list Response) (last : Response) (rest : list Response)
    (msgs : list Message) :
  emits body f ->
  signed_in self w = true ->
  script w = (init ++ last :: rest)%list ->
  forallb (is_page key) (init ++ [last]) = true ->
  forallb has_next init = true ->
  has_next last = false ->
  handed_over f (concat (map (page_items key) (init ++ [last]))) = Some msgs ->
  _pagination self endpoint params key body w =
    (Return tt, after_feed self endpoint params key (init ++ [last]) rest msgs w).
Proof.
  intros Hb Hs Hscript Hpages Hnext Hlast Hm.
  rewrite forallb_app in Hpages. apply andb_true_iff in Hpages as [Hinit Hp].
  cbn [forallb] in Hp. rewrite andb_true_r in Hp.
  rewrite map_app, concat_app in Hm. cbn [map concat] in Hm.
  rewrite app_nil_r in Hm.
  destruct (handed_over_app _ _ _ _ Hm) as (m1 & fin & H1 & H2 & ->).
  unfold _pagination.
  apply (pagination_hands_over self endpoint key body f last rest fin (Return tt)
           init Hb).
  - by apply (pagination_last_page self endpoint key body f).
  - rewrite Hscript, length_app. simpl. lia.
  - exact Hs.
  - exact Hscript.
  - by apply forallb_both.
  - exact H1.
Qed.

(** ** Further properties of the extractors *)

(** X9. The messages of a feed: [items], run over a feed of several pages,
    hands over the messages of the posts in the order of the feed, page
    after page, and asks for each page once, with the cursor of the page
    before it. *)
Theorem feed_messages_in_order (self : BlueskyAPI) (endpoint : string)
    (params : pydict) (w : World) (init : list Response) (last : Response)
    (rest : list Response) (msgs : list Message) :
  signed_in self w = true ->
  script w = (init ++ last :: rest)%list ->
  forallb (is_page "feed") (init ++ [last]) = true ->
  forallb has_next init = true ->
  has_next last = false ->
  let pages := (init ++ [last])%list in
  handed_over messages_of (concat (map (page_items "feed") pages)) = Some msgs ->
  let w' := after_feed self endpoint params "feed" pages rest msgs w in
  items (ret (_pagination self endpoint params "feed")) emit w = (Return tt, w')
  /\ emitted w' = (emitted w ++ msgs)%list
  /\ requests w' =
       (requests w
        ++ page_requests self endpoint (bearer_headers self w) params pages)%list
  /\ script w' = rest
  /\ sleeps w' = sleeps w.
Proof.
  intros Hs Hscript Hpages Hnext Hlast pages Hm w'.
  split; [|by repeat split].
  unfold items, bind, ret.
  by apply (pagination_feed self endpoint params "feed" _ messages_of w init last
              rest msgs items_body_emits).
Qed.

Lemma feed_messages_in_order_witness :
  let w := SampleNet.serving [Edge.feed1; Edge.feed2] in
  exists w' : World,
    items (ret (_pagination SampleNet.public "app.bsky.feed.getAuthorFeed"
                            SampleNet.params "feed")) emit w
    = (Return tt, w')
    /\ emitted w'
       = Edge.messages [Sample.plain_item; Sample.item; Sample.plain_item]
    /\ List.length (emitted w') = 5%nat
    /\ List.length (requests w') = 2%nat
    /\ script w' = [].
Proof.
  intros w.
  destruct (feed_messages_in_order SampleNet.public "app.bsky.feed.getAuthorFeed"
              SampleNet.params w [Edge.feed1] Edge.feed2 []
              (Edge.messages [Sample.plain_item; Sample.item; Sample.plain_item])
              ltac:(reflexivity) ltac:(reflexivity) ltac:(reflexivity)
              ltac:(reflexivity) ltac:(reflexivity) ltac:(reflexivity))
    as (Hrun & Hemitted & _ & Hscript & _).
  eexists. split; [exact Hrun|]. split; [exact Hemitted|].
  split; [reflexivity|]. split; [reflexivity | exact Hscript].
Defined.

(** X10. A post that cannot be normalized ends the run at that post: the
    exception leaves [items] after the messages of the posts before it,
    the posts after it are not looked at, and the pages after its page are
    not asked for, whether the page names a next one or not. *)
Theorem bad_post_stops_feed (self : BlueskyAPI) (endpoint : string)
    (params : pydict) (w : World) (init : list Response) (page : Response)
    (rest : list Response) (pre suf : list pyval) (bad : pyval) (e : exn)
    (msgs : list Message) :
  signed_in self w = true ->
  script w = (init ++ page :: rest)%list ->
  forallb (is_page "feed") (init ++ [page]) = true ->
  forallb has_next init = true ->
  page_items "feed" page = (pre ++ bad :: suf)%list ->
  handed_over messages_of (concat (map (page_items "feed") init) ++ pre)%list
  = Some msgs ->
  normalize bad = Raise e ->
  let w' := after_feed self endpoint params "feed" (init ++ [page]) rest msgs w in
  items (ret (_pagination self endpoint params "feed")) emit w = (Raise e, w')
  /\ emitted w' = (emitted w ++ msgs)%list
  /\ List.length (requests w') = (List.length (requests w) + S (List.length init))%nat
  /\ script w' = rest.
Proof.
  intros Hs Hscript Hpages Hnext Hitems Hm Hbad w'.
  split; [|split; [reflexivity|split; [|reflexivity]]].
  - rewrite forallb_app in Hpages. apply andb_true_iff in Hpages as [Hinit Hp].
    cbn [forallb] in Hp. rewrite andb_true_r in Hp.
    destruct (handed_over_app _ _ _ _ Hm) as (m1 & fin & H1 & H2 & ->).
    unfold items, bind, ret, _pagination. subst w'.
    rewrite <- (app_nil_r fin).
    apply (pagination_hands_over self endpoint "feed" _ messages_of page rest
             (fin ++ []) (Raise e) init items_body_emits).
    + apply (pagination_bad_item self endpoint "feed" _ messages_of page rest
               pre suf bad e fin [] items_body_emits Hp Hitems H2).
      intros w0. rewrite (items_body_raises bad e w0 Hbad). f_equal.
      world_eq. by rewrite app_nil_r.
    + rewrite Hscript, length_app. simpl. lia.
    + exact Hs.
    + exact Hscript.
    + by apply forallb_both.
    + exact H1.
  - subst w'. unfold after_feed. world_fields.
    rewrite length_app, page_requests_length, length_app. simpl. lia.
Qed.

Lemma bad_post_stops_feed_witness :
  let w := SampleNet.serving [Edge.bad_feed; Edge.feed2] in
  exists w' : World,
    items (ret (_pagination SampleNet.public "app.bsky.feed.getAuthorFeed"
                            SampleNet.params "feed")) emit w
    = (Raise (KeyError (PStr "createdAt")), w')
    /\ List.length (emitted w') = 1%nat
    /\ List.length (requests w') = 1%nat
    /\ script w' = [Edge.feed2].
Proof.
  intros w.
  destruct (bad_post_stops_feed SampleNet.public "app.bsky.feed.getAuthorFeed"
              SampleNet.params w [] Edge.bad_feed [Edge.feed2]
              [Sample.plain_item] [Sample.item] Sample.undated_item
              (KeyError (PStr "createdAt")) (Edge.messages [Sample.plain_item])
              ltac:(reflexivity) ltac:(reflexivity) ltac:(reflexivity)
              ltac:(reflexivity) ltac:(reflexivity) ltac:(reflexivity)
              ltac:(reflexivity))
    as (Hrun & _ & _ & Hscript).
  eexists. split; [exact Hrun|]. split; [reflexivity|].
  split; [reflexivity | exact Hscript].
Defined.

(** X11. A response that is no page: when the body lacks the key of the items,
    [_pagination] raises KeyError for that key, and TypeError when the
    body is not an object; the cursor is not read and no further request
    is made. *)
Theorem page_without_items (self : BlueskyAPI) (endpoint : string)
    (params : pydict) (key : string) (consume : pyval -> Run unit) (w : World)
    (r : Response) (rest : list Response) :
  signed_in self w = true ->
  script w = r :: rest ->
  status_code r < 400 ->
  let w' := after_pages self endpoint params key [r] [] rest w in
  (forall d : pydict,
      json r = PDict d -> d !! key = None ->
      _pagination self endpoint params key consume w
      = (Raise (KeyError (PStr key)), w'))
  /\ (is_dict (json r) = false ->
      _pagination self endpoint params key consume w = (Raise TypeError, w'))
  /\ requests w' =
       (requests w ++ [api_request self endpoint (bearer_headers self w) params])%list
  /\ script w' = rest
  /\ yielded w' = yielded w.
Proof.
  intros Hs Hscript Hok w'. apply Z.ltb_lt in Hok.
  assert (Hcall : forall e : exn,
             obind (Py.getitem (json r) key) Py.iter = Raise e ->
             _pagination self endpoint params key consume w = (Raise e, w')).
  { intros e Ho. unfold _pagination. cbn [_pagination_loop].
    unfold bind at 1.
    rewrite (call_turn self endpoint params w r rest Hs Hscript (or_intror Hok)).
    rewrite Hok. unfold bind at 1, lift at 1. rewrite Ho.
    replace (after_pages self endpoint params "feed" [r] [] rest w)
      with w' by (subst w'; world_eq).
    reflexivity. }
  split; [|split; [|split; [|split]]].
  - intros d Hjson Hkey.
    apply Hcall. rewrite Hjson. cbn [Py.getitem]. by rewrite Hkey.
  - intros Hjson. apply Hcall. by destruct (json r).
  - subst w'. world_fields. reflexivity.
  - reflexivity.
  - subst w'. world_fields. simpl. by rewrite app_nil_r.
Qed.

Lemma page_without_items_witness :
  let w := SampleNet.serving [Edge.follows; SampleNet.p3] in
  exists w' : World,
    _pagination SampleNet.public "app.bsky.feed.getAuthorFeed" SampleNet.params
                "feed" collect w
    = (Raise (KeyError (PStr "feed")), w')
    /\ List.length (requests w') = 1%nat
    /\ script w' = [SampleNet.p3]
    /\ yielded w' = [].
Proof.
  intros w.
  destruct (page_without_items SampleNet.public "app.bsky.feed.getAuthorFeed"
              SampleNet.params "feed" collect w Edge.follows [SampleNet.p3]
              ltac:(reflexivity) ltac:(reflexivity) ltac:(simpl; lia))
    as (Hkey & _ & _ & Hscript & Hyielded).
  eexists. split.
  - exact (Hkey {["follows" := PList [Edge.follow "did:plc:one";
                                      Edge.follow "did:plc:two"]]}
             ltac:(reflexivity) ltac:(reflexivity)).
  - split; [reflexivity|]. split; [exact Hscript | exact Hyielded].
Defined.

Lemma queue_emits (yield : Message -> Run unit) :
  yield = emit ->
  emits (fun followed =>
           did <- lift (Py.getitem followed "did") ;;
           url <- lift (Py.str_add "https://bsky.app/profile/" did) ;;
           yield (Queue url followed)) queue_of.
Proof.
  intros -> item msgs w. unfold queue_of.
  destruct item as [| | | | | |d|]; try discriminate.
  destruct (d !! "did") as [[| | |did| | | |]|] eqn:Hdid; try discriminate.
  intros [= <-]. unfold bind at 1, lift at 1. cbn [Py.getitem]. rewrite Hdid.
  reflexivity.
Qed.

Lemma queue_of_each (follows : list pyval) :
  forall msgs : list Message,
    handed_over queue_of follows = Some msgs ->
    forall (i : nat) (followed : pyval),
      follows !! i = Some followed ->
      exists did : string,
        Py.getitem followed "did" = Return (PStr did)
        /\ msgs !! i = Some (Queue ("https://bsky.app/profile/" ++ did) followed).
Proof.
  induction follows as [|x follows IH]; intros msgs H i followed Hi; [done|].
  cbn [handed_over] in H. destruct (queue_of x) as [m|] eqn:Hx; [|discriminate].
  destruct (handed_over queue_of follows) as [more|] eqn:Hm; [|discriminate].
  injection H as <-. unfold queue_of in Hx.
  destruct x as [| | | | | |d|]; try discriminate.
  destruct (d !! "did") as [[| | |did| | | |]|] eqn:Hdid; try discriminate.
  injection Hx as <-. destruct i as [|i].
  - injection Hi as <-. exists did. cbn [Py.getitem]. by rewrite Hdid.
  - apply (IH more eq_refl i followed Hi).
Qed.

(** X12. The following extractor: for a user given by did, it walks the pages
    of getFollows under the key [follows] and hands over one Queue message
    per followed account, in order, whose URL is the profile URL of the
    account's did. *)
Theorem following_queued (ex : BlueskyExtractor) (w : World)
    (init : list Response) (last : Response) (rest : list Response)
    (msgs : list Message) :
  String.prefix "did:" (user ex) = true ->
  signed_in (api ex) w = true ->
  script w = (init ++ last :: rest)%list ->
  forallb (is_page "follows") (init ++ [last]) = true ->
  forallb has_next init = true ->
  has_next last = false ->
  let pages := (init ++ [last])%list in
  let follows := concat (map (page_items "follows") pages) in
  handed_over queue_of follows = Some msgs ->
  let w' := after_feed (api ex) "app.bsky.graph.getFollows"
                       (feed_params (PStr (user ex))) "follows" pages rest msgs w in
  BlueskyFollowingExtractor_items ex emit w = (Return tt, w')
  /\ emitted w' = (emitted w ++ msgs)%list
  /\ (forall (i : nat) (followed : pyval),
        follows !! i = Some followed ->
        exists did : string,
          Py.getitem followed "did" = Return (PStr did)
          /\ msgs !! i = Some (Queue ("https://bsky.app/profile/" ++ did) followed))
  /\ requests w' =
       (requests w
        ++ page_requests (api ex) "app.bsky.graph.getFollows"
                         (bearer_headers (api ex) w)
                         (feed_params (PStr (user ex))) pages)%list
  /\ script w' = rest.
Proof.
  intros Hdid Hs Hscript Hpages Hnext Hlast pages follows Hm w'.
  split; [|split; [reflexivity|split; [|by split]]].
  - unfold BlueskyFollowingExtractor_items, get_follows. unfold bind at 1.
    unfold bind at 1. rewrite (did_from_actor_durable _ _ w Hdid). unfold ret at 1.
    by apply (pagination_feed (api ex) _ _ "follows" _ queue_of w init last rest
                msgs (queue_emits emit eq_refl)).
  - by apply queue_of_each.
Qed.

Lemma following_queued_witness :
  let w := SampleNet.serving [Edge.follows] in
  exists w' : World,
    BlueskyFollowingExtractor_items SampleNet.extractor emit w = (Return tt, w')
    /\ emitted w'
       = [Queue "https://bsky.app/profile/did:plc:one" (Edge.follow "did:plc:one");
          Queue "https://bsky.app/profile/did:plc:two" (Edge.follow "did:plc:two")]
    /\ List.length (requests w') = 1%nat.
Proof.
  intros w.
  destruct (following_queued SampleNet.extractor w [] Edge.follows []
              [Queue "https://bsky.app/profile/did:plc:one" (Edge.follow "did:plc:one");
               Queue "https://bsky.app/profile/did:plc:two" (Edge.follow "did:plc:two")]
              ltac:(reflexivity) ltac:(reflexivity) ltac:(reflexivity)
              ltac:(reflexivity) ltac:(reflexivity) ltac:(reflexivity)
              ltac:(reflexivity))
    as (Hrun & Hemitted & _).
  eexists. split; [exact Hrun|]. split; [exact Hemitted | reflexivity].
Defined.

(** X13. The post extractor: for a user given by did, one request for the
    thread of the post is made, and the thread is the only item: the
    messages are those of the post of the thread.  A body without thread
    raises KeyError. *)
Theorem post_thread_single (ex : BlueskyExtractor) (post_id : string) (w : World)
    (r : Response) (rest : list Response) (d : pydict) :
  String.prefix "did:" (user ex) = true ->
  signed_in (api ex) w = true ->
  script w = r :: rest ->
  status_code r < 400 ->
  json r = PDict d ->
  let uri := "at://" ++ user ex ++ "/app.bsky.feed.post/" ++ post_id in
  let w' := after_pages (api ex) "app.bsky.feed.getPostThread"
                        {["uri" := PStr uri]} "feed" [r] [] rest w in
  (d !! "thread" = None ->
   items (BlueskyPostExtractor_posts ex post_id) emit w
   = (Raise (KeyError (PStr "thread")), w'))
  /\ (forall (thread : pyval) (msgs : list Message),
        d !! "thread" = Some thread ->
        messages_of thread = Some msgs ->
        items (BlueskyPostExtractor_posts ex post_id) emit w
        = (Return tt, set_emitted (emitted w ++ msgs) w'))
  /\ requests w' =
       (requests w
        ++ [api_request (api ex) "app.bsky.feed.getPostThread"
                        (bearer_headers (api ex) w) {["uri" := PStr uri]}])%list
  /\ script w' = rest.
Proof.
  intros Hdid Hs Hscript Hok Hjson uri w'. apply Z.ltb_lt in Hok.
  assert (Hrun : items (BlueskyPostExtractor_posts ex post_id) emit w
                 = (thread <- lift (Py.getitem (json r) "thread") ;;
                    items_body thread emit) w').
  { unfold items, BlueskyPostExtractor_posts, get_post_thread.
    unfold bind at 1. unfold bind at 1.
    rewrite (did_from_actor_durable _ _ w Hdid).
    unfold bind at 1, lift at 1, at_uri. cbn [Py.str obind].
    unfold bind at 1.
    rewrite (call_turn (api ex) _ _ w r rest Hs Hscript (or_intror Hok)).
    rewrite Hok. unfold bind, lift, ret.
    by destruct (Py.getitem (json r) "thread"). }
  split; [|split; [|by split]].
  - intros Hnone. rewrite Hrun, Hjson. unfold bind, lift. cbn [Py.getitem].
    by rewrite Hnone.
  - intros thread msgs Hthread Hmsgs. rewrite Hrun, Hjson.
    unfold bind, lift. cbn [Py.getitem]. rewrite Hthread.
    by rewrite (items_body_emits thread msgs w' Hmsgs).
Qed.

Lemma post_thread_single_witness :
  (exists w' : World,
      items (BlueskyPostExtractor_posts SampleNet.extractor "3kxyz") emit
            (SampleNet.serving [Edge.thread])
      = (Return tt, w')
      /\ List.length (emitted w') = 1%nat
      /\ List.length (requests w') = 1%nat)
  /\ (exists w' : World,
         items (BlueskyPostExtractor_posts SampleNet.extractor "3kxyz") emit
               (SampleNet.serving [Edge.no_thread])
         = (Raise (KeyError (PStr "thread")), w')
         /\ emitted w' = []).
Proof.
  split.
  - destruct (post_thread_single SampleNet.extractor "3kxyz"
                (SampleNet.serving [Edge.thread]) Edge.thread []
                {["thread" := Sample.plain_item]}
                ltac:(reflexivity) ltac:(reflexivity) ltac:(reflexivity)
                ltac:(simpl; lia) ltac:(reflexivity))
      as (_ & Hthread & _).
    eexists. split.
    + exact (Hthread Sample.plain_item (Edge.messages [Sample.plain_item])
               ltac:(reflexivity) ltac:(reflexivity)).
    + split; reflexivity.
  - destruct (post_thread_single SampleNet.extractor "3kxyz"
                (SampleNet.serving [Edge.no_thread]) Edge.no_thread [] ∅
                ltac:(reflexivity) ltac:(reflexivity) ltac:(reflexivity)
                ltac:(simpl; lia) ltac:(reflexivity))
      as (Hnone & _).
    eexists. split; [exact (Hnone ltac:(reflexivity))|]. reflexivity.
Defined.

(** ** Resolution before a walk *)

Lemma did_from_actor_resolves (self : BlueskyAPI) (handle : string) (w : World)
    (r : Response) (rest : list Response) (d : pydict) (did : pyval) :
  String.prefix "did:" handle = false ->
  memo w !! handle = None ->
  signed_in self w = true ->
  script w = r :: rest ->
  status_code r < 400 ->
  json r = PDict d ->
  d !! "did" = Some did ->
  _did_from_actor self handle w
  = (Return did, after_resolution self handle did rest w).
Proof.
  intros Hp Hmemo Hs Hscript Hok Hjson Hdid. apply Z.ltb_lt in Hok.
  unfold _did_from_actor. rewrite Hp. unfold resolve_handle, memcached.
  rewrite Hmemo. unfold bind at 1. unfold bind at 1.
  rewrite (call_turn self _ _ w r rest Hs Hscript (or_intror Hok)).
  rewrite Hok. unfold lift. rewrite Hjson. cbn [Py.getitem]. rewrite Hdid.
  f_equal. unfold after_resolution. world_eq; simpl; by rewrite ?app_nil_r.
Qed.

Lemma items_run_after (posts : Run (Generator pyval)) (gen : Generator pyval)
    (w w1 : World) :
  posts w = (Return gen, w1) ->
  items posts emit w = gen (fun item => items_body item emit) w1.
Proof. intros H. unfold items, bind. by rewrite H. Qed.

(** X14. The author-feed extractors on a handle: the handle is resolved by one
    request, and the feed is then walked with the did of the answer as
    actor; the posts, replies and media extractors differ in the filter
    only.  The messages are those of the posts, in the order of the
    feed. *)
Theorem handle_resolved_for_feed (ex : BlueskyExtractor) (w : World)
    (answer : Response) (d : pydict) (did : pyval)
    (init : list Response) (last : Response) (rest : list Response)
    (msgs : list Message) :
  String.prefix "did:" (user ex) = false ->
  memo w !! user ex = None ->
  signed_in (api ex) w = true ->
  script w = (answer :: init ++ last :: rest)%list ->
  status_code answer < 400 ->
  json answer = PDict d ->
  d !! "did" = Some did ->
  forallb (is_page "feed") (init ++ [last]) = true ->
  forallb has_next init = true ->
  has_next last = false ->
  let pages := (init ++ [last])%list in
  handed_over messages_of (concat (map (page_items "feed") pages)) = Some msgs ->
  let params (filter : string) : pydict :=
    <["filter" := PStr filter]>
      (<["actor" := did]> ({["limit" := PStr "100"]})) in
  let feed (filter : string) : World :=
    after_feed (api ex) "app.bsky.feed.getAuthorFeed" (params filter) "feed"
               pages rest msgs
               (after_resolution (api ex) (user ex) did (init ++ last :: rest) w) in
  items (BlueskyPostsExtractor_posts ex) emit w
  = (Return tt, feed "posts_and_author_threads")
  /\ items (BlueskyRepliesExtractor_posts ex) emit w
     = (Return tt, feed "posts_with_replies")
  /\ items (BlueskyMediaExtractor_posts ex) emit w
     = (Return tt, feed "posts_with_media")
  /\ forall filter : string,
       requests (feed filter) =
         (requests w
          ++ api_request (api ex) "com.atproto.identity.resolveHandle"
                         (bearer_headers (api ex) w)
                         {["handle" := PStr (user ex)]}
          :: page_requests (api ex) "app.bsky.feed.getAuthorFeed"
                           (bearer_headers (api ex) w) (params filter) pages)%list
       /\ emitted (feed filter) = (emitted w ++ msgs)%list
       /\ memo (feed filter) !! user ex = Some did
       /\ script (feed filter) = rest.
Proof.
  intros Hp Hmemo Hs Hscript Hok Hjson Hdid Hpages Hnext Hlast pages Hm params feed.
  assert (Hrun : forall filter : string,
             items (get_author_feed (api ex) (user ex) filter) emit w
             = (Return tt, feed filter)).
  { intros filter.
    rewrite (items_run_after _ (_pagination (api ex) "app.bsky.feed.getAuthorFeed"
                                           (params filter) "feed") w
               (after_resolution (api ex) (user ex) did (init ++ last :: rest) w)).
    - apply (pagination_feed (api ex) _ _ "feed" _ messages_of _ init last rest
               msgs items_body_emits); done.
    - unfold get_author_feed, bind.
      by rewrite (did_from_actor_resolves (api ex) (user ex) w answer
                    (init ++ last :: rest)%list d did) by done. }
  split; [apply Hrun|]. split; [apply Hrun|]. split; [apply Hrun|].
  intros filter. split; [|split; [reflexivity|split; [|reflexivity]]].
  - subst feed. unfold after_feed, after_resolution. world_fields.
    rewrite <- List.app_assoc. cbn [app]. do 3 f_equal.
    apply (bearer_headers_sent (api ex) w); reflexivity.
  - subst feed. unfold after_feed, after_resolution. world_fields.
    apply lookup_insert_eq.
Qed.

Lemma handle_resolved_for_feed_witness :
  let w := SampleNet.serving [SampleNet.resolved; Edge.feed1; Edge.feed2] in
  exists w' : World,
    items (BlueskyMediaExtractor_posts Edge.handle_extractor) emit w = (Return tt, w')
    /\ List.length (requests w') = 3%nat
    /\ List.length (emitted w') = 5%nat
    /\ memo w' !! "alice.bsky.social" = Some (PStr "did:plc:abc")
    /\ script w' = [].
Proof.
  intros w.
  destruct (handle_resolved_for_feed Edge.handle_extractor w SampleNet.resolved
              {["did" := PStr "did:plc:abc"]} (PStr "did:plc:abc")
              [Edge.feed1] Edge.feed2 []
              (Edge.messages [Sample.plain_item; Sample.item; Sample.plain_item])
              ltac:(reflexivity) ltac:(reflexivity) ltac:(reflexivity)
              ltac:(reflexivity) ltac:(simpl; lia) ltac:(reflexivity)
              ltac:(reflexivity) ltac:(reflexivity) ltac:(reflexivity)
              ltac:(reflexivity) ltac:(reflexivity))
    as (_ & _ & Hmedia & _).
  eexists. split; [exact Hmedia|]. repeat split; reflexivity.
Defined.

(** X15. The feed extractors on a user given by did: each is the same walk,
    over its own endpoint and parameters; no request is made to resolve
    the user.  The parameters of a custom feed and of a list name it by an
    at-URI made of the did and the name. *)
Theorem extractor_endpoints (ex : BlueskyExtractor) (name : string) (w : World)
    (init : list Response) (last : Response) (rest : list Response)
    (msgs : list Message) :
  String.prefix "did:" (user ex) = true ->
  signed_in (api ex) w = true ->
  script w = (init ++ last :: rest)%list ->
  forallb (is_page "feed") (init ++ [last]) = true ->
  forallb has_next init = true ->
  has_next last = false ->
  let pages := (init ++ [last])%list in
  handed_over messages_of (concat (map (page_items "feed") pages)) = Some msgs ->
  let walk (endpoint : string) (params : pydict) : outcome unit * World :=
    (Return tt, after_feed (api ex) endpoint params "feed" pages rest msgs w) in
  let limit : pydict := {["limit" := PStr "100"]} in
  let actor : pydict := <["actor" := PStr (user ex)]> limit in
  items (BlueskyPostsExtractor_posts ex) emit w
  = walk "app.bsky.feed.getAuthorFeed"
         (<["filter" := PStr "posts_and_author_threads"]> actor)
  /\ items (BlueskyRepliesExtractor_posts ex) emit w
     = walk "app.bsky.feed.getAuthorFeed"
            (<["filter" := PStr "posts_with_replies"]> actor)
  /\ items (BlueskyMediaExtractor_posts ex) emit w
     = walk "app.bsky.feed.getAuthorFeed"
            (<["filter" := PStr "posts_with_media"]> actor)
  /\ items (BlueskyLikesExtractor_posts ex) emit w
     = walk "app.bsky.feed.getActorLikes" actor
  /\ items (BlueskyFeedExtractor_posts ex name) emit w
     = walk "app.bsky.feed.getFeed"
            (<["feed" := PStr ("at://" ++ user ex ++ "/app.bsky.feed.generator/"
                               ++ name)]> limit)
  /\ items (BlueskyListExtractor_posts ex name) emit w
     = walk "app.bsky.feed.getListFeed"
            (<["list" := PStr ("at://" ++ user ex ++ "/app.bsky.graph.list/"
                               ++ name)]> limit).
Proof.
  intros Hdid Hs Hscript Hpages Hnext Hlast pages Hm walk limit actor.
  assert (Hwalk : forall (endpoint : string) (params : pydict),
             _pagination (api ex) endpoint params "feed"
                         (fun item => items_body item emit) w
             = walk endpoint params).
  { intros endpoint params.
    by apply (pagination_feed (api ex) _ _ "feed" _ messages_of _ init last rest
                msgs items_body_emits). }
  assert (Hactor : _did_from_actor (api ex) (user ex) w = (Return (PStr (user ex)), w))
    by apply (did_from_actor_durable _ _ w Hdid).
  repeat split.
  all: unfold items, BlueskyPostsExtractor_posts, BlueskyRepliesExtractor_posts,
         BlueskyMediaExtractor_posts, BlueskyLikesExtractor_posts,
         BlueskyFeedExtractor_posts, BlueskyListExtractor_posts,
         get_author_feed, get_actor_likes, get_feed, get_list_feed.
  all: unfold bind, lift, ret, at_uri; rewrite Hactor; cbn [Py.str obind].
  all: apply Hwalk.
Qed.

Lemma extractor_endpoints_witness :
  let w := SampleNet.serving [Edge.feed1; Edge.feed2] in
  exists w' : World,
    items (BlueskyFeedExtractor_posts SampleNet.extractor "whats-hot") emit w
    = (Return tt, w')
    /\ requests w' !! 0%nat =
         Some (api_request SampleNet.public "app.bsky.feed.getFeed" ∅
                 (<["feed" := PStr "at://did:plc:abc/app.bsky.feed.generator/whats-hot"]>
                    ({["limit" := PStr "100"]})))
    /\ List.length (emitted w') = 5%nat.
Proof.
  intros w.
  destruct (extractor_endpoints SampleNet.extractor "whats-hot" w
              [Edge.feed1] Edge.feed2 []
              (Edge.messages [Sample.plain_item; Sample.item; Sample.plain_item])
              ltac:(reflexivity) ltac:(reflexivity) ltac:(reflexivity)
              ltac:(reflexivity) ltac:(reflexivity) ltac:(reflexivity)
              ltac:(reflexivity))
    as (_ & _ & _ & _ & Hfeed & _).
  eexists. split; [exact Hfeed|]. split; reflexivity.
Defined.

(** ** Further properties of the call layer *)

Lemma call_loop_public (self : BlueskyAPI) (url : string) (params : pydict) :
  authenticate_noop self = true ->
  forall (fuel : nat) (w : World),
    (List.length (script w) < fuel)%nat ->
    let req := mkRequest url "GET" (Some (headers w)) (Some params) None in
    let w' := snd (_call_loop fuel self url params w) in
    exists n : nat,
      requests w' = (requests w ++ replicate (S n) req)%list
      /\ sleeps w' = (sleeps w ++ replicate n 60)%list
      /\ script w' = drop (S n) (script w)
      /\ headers w' = headers w /\ db w' = db w /\ memo w' = memo w.
Proof.
  intros Hnoop. induction fuel as [|fuel IH]; intros w Hfuel req w';
    [simpl in Hfuel; lia|].
  assert (Hs : signed_in self w = true).
  { unfold signed_in, signed_in_until. by rewrite Hnoop. }
  assert (Hh : bearer_headers self w = headers w).
  { unfold bearer_headers. by rewrite Hnoop. }
  destruct (script w) as [|r rest] eqn:Hscript.
  - assert (Hrun : _call_loop (S fuel) self url params w
                   = (Awaiting, set_requests (requests w ++ [req]) w)).
    { cbn [_call_loop]. unfold bind at 1, authenticate. rewrite Hnoop.
      unfold ret at 1. unfold bind at 1, request. by rewrite Hscript. }
    exists 0%nat. subst w'. rewrite Hrun. cbn [snd]. world_fields.
    rewrite Hscript, app_nil_r. by repeat split.
  - subst w'. rewrite (call_loop_turn fuel self url params w r rest Hs Hscript).
    rewrite Hh. fold req.
    destruct (status_code r <? 400);
      [exists 0%nat; cbn [snd]; world_fields; rewrite app_nil_r; by repeat split|].
    destruct (status_code r =? 429);
      [|exists 0%nat; cbn [snd]; world_fields; rewrite app_nil_r; by repeat split].
    match goal with |- context [_call_loop fuel self url params ?w0] =>
      set (w2 := w0) end.
    destruct (IH w2) as (n & Hreq & Hsl & Hsc & Hhd & Hdb & Hmemo).
    { subst w2. cbn [script set_clock set_sleeps set_script]. simpl in Hfuel. lia. }
    exists (S n). rewrite Hreq, Hsl, Hsc, Hhd, Hdb, Hmemo. subst w2. world_fields.
    repeat split.
    + by rewrite <- List.app_assoc.
    + by rewrite <- List.app_assoc.
Qed.

(** X16. Without a user name the API is anonymous: whatever the responses are,
    a call only issues GET requests to the public host, with the headers
    as they were, one more than the waits of 60 seconds it makes; it makes
    no session request, and changes neither the headers nor the caches. *)
Theorem public_mode_anonymous (auth : option string * option string)
    (endpoint : string) (params : pydict) (w : World) :
  opt_truthy (fst auth) = false ->
  let self := BlueskyAPI_init auth in
  let req := mkRequest ("https://api.bsky.app/xrpc/" ++ endpoint) "GET"
                       (Some (headers w)) (Some params) None in
  let w' := snd (_call self endpoint params w) in
  exists n : nat,
    requests w' = (requests w ++ replicate (S n) req)%list
    /\ sleeps w' = (sleeps w ++ replicate n 60)%list
    /\ script w' = drop (S n) (script w)
    /\ headers w' = headers w /\ db w' = db w /\ memo w' = memo w.
Proof.
  intros Hu self req w'. destruct auth as [u p]. cbn [fst] in Hu.
  assert (Hself : self = mkAPI u p "https://api.bsky.app" true).
  { subst self. unfold BlueskyAPI_init. by rewrite Hu. }
  subst w' req. unfold _call. rewrite Hself. cbn [root].
  apply (call_loop_public (mkAPI u p "https://api.bsky.app" true) _ params eq_refl).
  lia.
Qed.

Lemma public_mode_anonymous_witness :
  let w := SampleNet.serving [SampleNet.busy; SampleNet.broken; SampleNet.p3] in
  let w' := snd (_call (BlueskyAPI_init (Some "", Some "secret"))
                       "app.bsky.feed.getAuthorFeed" SampleNet.params w) in
  exists n : nat,
    requests w' =
      replicate (S n)
        (mkRequest "https://api.bsky.app/xrpc/app.bsky.feed.getAuthorFeed" "GET"
                   (Some ∅) (Some SampleNet.params) None)
    /\ sleeps w' = replicate n 60
    /\ headers w' = ∅
    /\ db w' = ∅.
Proof.
  intros w w'.
  destruct (public_mode_anonymous (Some "", Some "secret")
              "app.bsky.feed.getAuthorFeed" SampleNet.params w ltac:(reflexivity))
    as (n & Hreq & Hsleeps & _ & Hheaders & Hdb & _).
  exists n. split; [exact Hreq|]. split; [exact Hsleeps|].
  split; [exact Hheaders | exact Hdb].
Defined.

Lemma call_loop_ends (self : BlueskyAPI) (endpoint : string) (params : pydict)
    (last : Response) (rest : list Response) (limited : list Response) :
  forall (fuel : nat) (w : World),
    (List.length limited < fuel)%nat ->
    signed_in_until self (clock w + 60 * Z.of_nat (List.length limited)) w = true ->
    script w = (limited ++ last :: rest)%list ->
    forallb rate_limited limited = true ->
    failed last = true ->
    _call_loop fuel self (root self ++ "/xrpc/" ++ endpoint) params w =
      (Raise (stop_error last),
       after_retries self endpoint params (List.length limited) rest w).
Proof.
  induction limited as [|r limited IH]; intros fuel w Hfuel Hs Hscript Hlim Hbad.
  - destruct fuel as [|fuel]; [simpl in Hfuel; lia|].
    assert (Hs' : signed_in self w = true).
    { eapply signed_in_until_le, Hs. simpl. lia. }
    rewrite (call_loop_turn fuel self _ params w last rest Hs' Hscript).
    rewrite (failed_not_ok last Hbad).
    unfold failed in Hbad. apply andb_true_iff in Hbad as [_ Hne].
    apply negb_true_iff in Hne. rewrite Hne.
    f_equal. world_eq; simpl; [by rewrite app_nil_r | lia].
  - destruct fuel as [|fuel]; [simpl in Hfuel; lia|].
    assert (Hs' : signed_in self w = true).
    { eapply signed_in_until_le, Hs. lia. }
    simpl in Hlim. apply andb_true_iff in Hlim as [Hr Hlim].
    unfold rate_limited in Hr. apply Z.eqb_eq in Hr.
    rewrite (call_loop_turn fuel self _ params w r _ Hs' Hscript).
    rewrite Hr. cbn [Z.ltb Z.eqb Z.compare Pos.compare Pos.compare_cont Pos.eqb].
    match goal with |- _call_loop _ _ _ _ ?w2 = _ => set (w2' := w2) end.
    rewrite (IH fuel w2').
    + f_equal. unfold after_retries.
      rewrite (bearer_headers_sent self w w2') by reflexivity.
      subst w2'. world_eq.
      * by rewrite <- (List.app_assoc _ [_] _).
      * by rewrite <- (List.app_assoc _ [60] _).
      * cbn [List.length]. rewrite Nat2Z.inj_succ. lia.
    + simpl in Hfuel. lia.
    + rewrite (signed_in_until_db self _ w w2') by reflexivity.
      subst w2'. cbn [clock set_clock].
      replace (clock w + 60 + 60 * Z.of_nat (List.length limited))
        with (clock w + 60 * Z.of_nat (List.length (r :: limited))); [exact Hs|].
      simpl List.length. rewrite Nat2Z.inj_succ. lia.
    + reflexivity.
    + exact Hlim.
    + exact Hbad.
Qed.

(** X17. A failure after rate-limited attempts: the waits are made, one request
    follows each of them, and the failing status then stops the extraction
    as it does on a first attempt; nothing is handed over. *)
Theorem retries_then_failure (self : BlueskyAPI) (endpoint : string)
    (params : pydict) (key : string) (consume : pyval -> Run unit) (w : World)
    (limited : list Response) (bad : Response) (rest : list Response) :
  signed_in_until self (clock w + 60 * Z.of_nat (List.length limited)) w = true ->
  script w = (limited ++ bad :: rest)%list ->
  Forall (fun r => status_code r = 429) limited ->
  400 <= status_code bad ->
  status_code bad <> 429 ->
  let n := List.length limited in
  let err := StopExtraction "API request failed (%s %s)"
                            [PInt (status_code bad); PStr (reason bad)] in
  let w' := after_retries self endpoint params n rest w in
  _call self endpoint params w = (Raise err, w')
  /\ _pagination self endpoint params key consume w = (Raise err, w')
  /\ sleeps w' = (sleeps w ++ replicate n 60)%list
  /\ requests w' =
       (requests w ++ replicate (S n)
          (api_request self endpoint (bearer_headers self w) params))%list
  /\ script w' = rest
  /\ yielded w' = yielded w
  /\ emitted w' = emitted w.
Proof.
  intros Hs Hscript Hlim Hge Hne n err w'.
  assert (Hcall : _call self endpoint params w = (Raise err, w')).
  { unfold _call. apply call_loop_ends.
    - rewrite Hscript, length_app. simpl. lia.
    - exact Hs.
    - exact Hscript.
    - apply forallb_forall. intros r Hr. unfold rate_limited. apply Z.eqb_eq.
      rewrite Forall_forall in Hlim. apply Hlim. by apply list_elem_of_In.
    - by apply failed_status. }
  split; [exact Hcall|]. split; [|by repeat split].
  unfold _pagination. cbn [_pagination_loop]. unfold bind at 1. by rewrite Hcall.
Qed.

Lemma retries_then_failure_witness :
  let w := SampleNet.serving
             [SampleNet.busy; SampleNet.busy; SampleNet.broken; SampleNet.p3] in
  exists w' : World,
    _call SampleNet.public "app.bsky.feed.getAuthorFeed" SampleNet.params w
    = (Raise (StopExtraction "API request failed (%s %s)"
                             [PInt 500; PStr "Internal Server Error"]), w')
    /\ sleeps w' = [60; 60]
    /\ List.length (requests w') = 3%nat
    /\ script w' = [SampleNet.p3].
Proof.
  intros w.
  destruct (retries_then_failure SampleNet.public "app.bsky.feed.getAuthorFeed"
              SampleNet.params "feed" collect w
              [SampleNet.busy; SampleNet.busy] SampleNet.broken [SampleNet.p3]
              ltac:(reflexivity) ltac:(reflexivity) ltac:(repeat constructor)
              ltac:(simpl; lia) ltac:(simpl; lia))
    as (Hcall & _ & Hsleeps & _ & Hscript & _).
  eexists. split; [exact Hcall|]. split; [exact Hsleeps|].
  split; [reflexivity | exact Hscript].
Defined.

(** ** Further properties of the session *)

Ltac plain_fields :=
  cbn [script requests sleeps clock db memo headers yielded emitted
       set_script set_requests set_sleeps set_clock set_db set_memo
       set_headers set_yielded set_emitted].

(** The run of [authenticate] on a session response with both tokens. *)
Lemma authenticate_session (self : BlueskyAPI) (w : World) (r : Response)
    (rest : list Response) (d : pydict) (refresh : pyval) (access : string) :
  authenticate_noop self = false ->
  cache_lookup (access_key self) w = None ->
  token_ok (refresh_token self w) = true ->
  script w = r :: rest ->
  status_code r = 200 ->
  json r = PDict d ->
  d !! "refreshJwt" = Some refresh ->
  d !! "accessJwt" = Some (PStr access) ->
  authenticate self w =
    (Return tt,
     after_session (session_request self (refresh_token self w)) rest self refresh
                   ("Bearer " ++ access) w).
Proof.
  intros Hn Hmiss Htok Hscript Hstatus Hjson Hrefresh Haccess.
  rewrite (authenticate_derives self w Hn Hmiss).
  unfold bind at 1. unfold bind at 1.
  rewrite (authenticate_impl_body_asks self w r rest Htok Hscript).
  rewrite Hstatus. cbn [Z.eqb Pos.eqb negb]. rewrite Hjson.
  unfold bind at 1, lift at 1. cbn [Py.getitem]. rewrite Hrefresh.
  unfold bind at 1, _refresh_token_cache_update at 1, cache_store at 1.
  unfold bind at 1, lift at 1. rewrite Haccess.
  unfold bind at 1, lift at 1. cbn [Py.str_add]. unfold ret at 1.
  unfold bind at 1, cache_store at 1. unfold ret at 1.
  f_equal. unfold after_session, session_asked.
  destruct (probed_fields self w)
    as (Hsc & Hrq & Hsl & Hcl & Hm & Hh & Hy & He & Hdb).
  apply world_ext; plain_fields;
    rewrite ?Hsc, ?Hrq, ?Hsl, ?Hcl, ?Hm, ?Hh, ?Hy, ?He; try reflexivity.
  fold (refresh_key self). by rewrite Hdb.
Qed.

(** X18. A session response of status 200 has to hold both tokens.  Without
    refresh token KeyError is raised and nothing of the response is kept.
    Without access token KeyError is raised too, but after the refresh
    token of the response was stored: the cache then holds the new refresh
    token and no credential, and the headers are as before. *)
Theorem session_tokens_required (self : BlueskyAPI) (w : World) (r : Response)
    (rest : list Response) (d : pydict) :
  authenticate_noop self = false ->
  cache_lookup (access_key self) w = None ->
  token_ok (refresh_token self w) = true ->
  script w = r :: rest ->
  status_code r = 200 ->
  json r = PDict d ->
  (d !! "refreshJwt" = None ->
   authenticate self w
   = (Raise (KeyError (PStr "refreshJwt")), session_asked self rest w))
  /\ (forall refresh : pyval,
        d !! "refreshJwt" = Some refresh ->
        d !! "accessJwt" = None ->
        let w' :=
          set_db (<[refresh_key self := (refresh, clock w + 84 * 86400)]> (db w))
                 (set_script rest
                    (set_requests
                       (requests w ++ [session_request self (refresh_token self w)])
                       w)) in
        authenticate self w = (Raise (KeyError (PStr "accessJwt")), w')
        /\ cache_lookup (refresh_key self) w' = Some refresh
        /\ cache_lookup (access_key self) w' = None
        /\ headers w' = headers w).
Proof.
  intros Hn Hmiss Htok Hscript Hstatus Hjson.
  assert (Hrun : authenticate self w =
                 (bearer <-
                    (v <- (refresh <- lift (Py.getitem (json r) "refreshJwt") ;;
                           _refresh_token_cache_update (username self) refresh ;;;
                           access <- lift (Py.getitem (json r) "accessJwt") ;;
                           bearer <- lift (Py.str_add "Bearer " access) ;;
                           ret (PStr bearer)) ;;
                     cache_store (access_key self) access_maxage v ;;; ret v) ;;
                  (fun w' => (Return tt,
                              set_headers (<["Authorization" := bearer]> (headers w'))
                                          w')))
                   (session_asked self rest w)).
  { rewrite (authenticate_derives self w Hn Hmiss).
    unfold bind at 1. unfold bind at 1.
    rewrite (authenticate_impl_body_asks self w r rest Htok Hscript).
    rewrite Hstatus. cbn [Z.eqb Pos.eqb negb]. reflexivity. }
  split.
  - intros Hnone. rewrite Hrun, Hjson. unfold bind, lift. cbn [Py.getitem].
    by rewrite Hnone.
  - intros refresh Hrefresh Hnone w'. split; [|split; [|split]].
    + rewrite Hrun, Hjson.
      unfold bind at 1. unfold bind at 1. unfold bind at 1, lift at 1.
      cbn [Py.getitem]. rewrite Hrefresh.
      unfold bind at 1, _refresh_token_cache_update at 1, cache_store at 1.
      unfold bind at 1, lift at 1. rewrite Hnone.
      f_equal. subst w'. unfold session_asked.
      destruct (probed_fields self w)
        as (Hsc & Hrq & Hsl & Hcl & Hm & Hh & Hy & He & Hdb).
      apply world_ext; plain_fields;
        rewrite ?Hsc, ?Hrq, ?Hsl, ?Hcl, ?Hm, ?Hh, ?Hy, ?He; try reflexivity.
      fold (refresh_key self). by rewrite Hdb.
    + subst w'. unfold cache_lookup. plain_fields. rewrite lookup_insert_eq.
      destruct (Z.ltb_spec (clock w) (clock w + 84 * 86400)); [reflexivity|lia].
    + subst w'. unfold cache_lookup in *. plain_fields.
      rewrite lookup_insert_ne by apply keys_differ. exact Hmiss.
    + reflexivity.
Qed.

Lemma session_tokens_required_witness :
  let w := SampleNet.returning [Edge.half_session; SampleNet.p3] in
  exists w' : World,
    authenticate SampleNet.member w = (Raise (KeyError (PStr "accessJwt")), w')
    /\ cache_lookup (refresh_key SampleNet.member) w' = Some (PStr "ref")
    /\ cache_lookup (access_key SampleNet.member) w' = None
    /\ headers w' = ∅.
Proof.
  intros w.
  destruct (session_tokens_required SampleNet.member w Edge.half_session
              [SampleNet.p3] {["refreshJwt" := PStr "ref"]}
              ltac:(reflexivity) ltac:(reflexivity) ltac:(reflexivity)
              ltac:(reflexivity) ltac:(reflexivity) ltac:(reflexivity))
    as (_ & Hhalf).
  destruct (Hhalf (PStr "ref") ltac:(reflexivity) ltac:(reflexivity))
    as (Hrun & Hrefresh & Haccess & Hheaders).
  eexists. split; [exact Hrun|]. split; [exact Hrefresh|].
  split; [exact Haccess | exact Hheaders].
Defined.

Lemma after_session_signed_in (req : Request) (rest : list Response)
    (self : BlueskyAPI) (refresh : pyval) (bearer : string) (w : World) :
  let w1 := after_session req rest self refresh bearer w in
  signed_in_until self (clock w + 3599) w1 = true
  /\ bearer_headers self w1 = <["Authorization" := PStr bearer]> (headers w).
Proof.
  intros w1. split.
  - unfold signed_in_until. subst w1. unfold after_session. plain_fields.
    rewrite lookup_insert_eq.
    destruct (Z.ltb_spec (clock w + 3599) (clock w + 3600)); [|lia].
    apply orb_true_r.
  - unfold bearer_headers. subst w1. unfold after_session. plain_fields.
    rewrite lookup_insert_eq. destruct (authenticate_noop self); [reflexivity|].
    apply insert_insert_eq.
Qed.

(** One turn of the loop of [_call] that has to derive the session first:
    the session request, then the API request with the credential of the
    answer. *)
Lemma call_loop_signs_in (fuel : nat) (self : BlueskyAPI) (endpoint : string)
    (params : pydict) (w : World) (r1 r2 : Response) (rest : list Response)
    (d : pydict) (refresh : pyval) (access : string) :
  authenticate_noop self = false ->
  cache_lookup (access_key self) w = None ->
  token_ok (refresh_token self w) = true ->
  script w = r1 :: r2 :: rest ->
  status_code r1 = 200 ->
  json r1 = PDict d ->
  d !! "refreshJwt" = Some refresh ->
  d !! "accessJwt" = Some (PStr access) ->
  (status_code r2 <? 400) = true ->
  let bearer := "Bearer " ++ access in
  let w1 := after_session (session_request self (refresh_token self w))
                          (r2 :: rest) self refresh bearer w in
  _call_loop (S fuel) self (root self ++ "/xrpc/" ++ endpoint) params w =
    (Return (json r2),
     set_script rest
       (set_requests
          (requests w1
           ++ [api_request self endpoint
                           (<["Authorization" := PStr bearer]> (headers w)) params])
          w1)).
Proof.
  intros Hn Hmiss Htok Hscript Hstatus Hjson Hrefresh Haccess Hok bearer w1.
  cbn [_call_loop]. unfold bind at 1.
  rewrite (authenticate_session self w r1 (r2 :: rest) d refresh access)
    by assumption.
  fold bearer. fold w1. unfold bind at 1, request.
  replace (script w1) with (r2 :: rest) by reflexivity.
  by rewrite Hok.
Qed.

(** X19. The first call of a user without live credential: the session is
    derived by one request, the API request carries the credential of the
    answer, and the credential is reused: the next call within the hour
    makes no session request and sends the same credential. *)
Theorem first_call_signs_in (self : BlueskyAPI) (endpoint : string)
    (params : pydict) (w : World) (r1 r2 : Response) (rest : list Response)
    (d : pydict) (refresh : pyval) (access : string) :
  authenticate_noop self = false ->
  cache_lookup (access_key self) w = None ->
  token_ok (refresh_token self w) = true ->
  script w = r1 :: r2 :: rest ->
  status_code r1 = 200 ->
  json r1 = PDict d ->
  d !! "refreshJwt" = Some refresh ->
  d !! "accessJwt" = Some (PStr access) ->
  status_code r2 < 400 ->
  let signed : pydict := <["Authorization" := PStr ("Bearer " ++ access)]> (headers w) in
  exists w' : World,
    _call self endpoint params w = (Return (json r2), w')
    /\ requests w' =
         (requests w ++ [session_request self (refresh_token self w);
                         api_request self endpoint signed params])%list
    /\ script w' = rest
    /\ headers w' = signed
    /\ sleeps w' = sleeps w
    /\ forall (endpoint' : string) (params' : pydict) (r3 : Response)
              (rest' : list Response),
         rest = r3 :: rest' ->
         status_code r3 < 400 ->
         exists w'' : World,
           _call self endpoint' params' w' = (Return (json r3), w'')
           /\ requests w'' =
                (requests w' ++ [api_request self endpoint' signed params'])%list
           /\ script w'' = rest'.
Proof.
  intros Hn Hmiss Htok Hscript Hstatus Hjson Hrefresh Haccess Hok signed.
  apply Z.ltb_lt in Hok.
  eexists. split; [|split; [|split; [|split; [|split]]]].
  - unfold _call.
    apply (call_loop_signs_in _ self endpoint params w r1 r2 rest d refresh access);
      assumption.
  - unfold after_session. plain_fields. by rewrite <- List.app_assoc.
  - reflexivity.
  - reflexivity.
  - reflexivity.
  - intros endpoint' params' r3 rest' -> Hok3. apply Z.ltb_lt in Hok3.
    match goal with |- context [_call self endpoint' params' ?w0] =>
      set (w' := w0) end.
    destruct (after_session_signed_in
                (session_request self (refresh_token self w)) (r2 :: r3 :: rest')
                self refresh ("Bearer " ++ access) w) as [Hsigned Hbearer].
    assert (Hs : signed_in self w' = true).
    { unfold signed_in.
      rewrite (signed_in_until_db self _
                 (after_session (session_request self (refresh_token self w))
                                (r2 :: r3 :: rest') self refresh
                                ("Bearer " ++ access) w) w') by reflexivity.
      eapply signed_in_until_le, Hsigned. subst w'. unfold after_session.
      plain_fields. lia. }
    assert (Hb : bearer_headers self w' = signed).
    { unfold signed. rewrite <- Hbearer. reflexivity. }
    eexists. split; [|split].
    + rewrite (call_turn self endpoint' params' w' r3 rest' Hs eq_refl
                 (or_intror Hok3)).
      rewrite Hok3. reflexivity.
    + unfold after_pages. plain_fields. rewrite Hb. reflexivity.
    + reflexivity.
Qed.

Lemma first_call_signs_in_witness :
  let w := SampleNet.returning [SampleNet.session; SampleNet.p1; SampleNet.p3] in
  exists w' : World,
    _call SampleNet.member "app.bsky.feed.getAuthorFeed" SampleNet.params w
    = (Return (json SampleNet.p1), w')
    /\ requests w' =
         [refresh_request SampleNet.member "old";
          api_request SampleNet.member "app.bsky.feed.getAuthorFeed"
                      {["Authorization" := PStr "Bearer acc"]} SampleNet.params]
    /\ exists w'' : World,
         _call SampleNet.member "app.bsky.feed.getAuthorFeed" SampleNet.params w'
         = (Return (json SampleNet.p3), w'')
         /\ List.length (requests w'') = 3%nat.
Proof.
  intros w.
  destruct (first_call_signs_in SampleNet.member "app.bsky.feed.getAuthorFeed"
              SampleNet.params w SampleNet.session SampleNet.p1 [SampleNet.p3]
              (<["accessJwt" := PStr "acc"]> ({["refreshJwt" := PStr "ref"]}))
              (PStr "ref") "acc"
              ltac:(reflexivity) ltac:(reflexivity) ltac:(reflexivity)
              ltac:(reflexivity) ltac:(reflexivity) ltac:(reflexivity)
              ltac:(reflexivity) ltac:(reflexivity) ltac:(simpl; lia))
    as (w' & Hrun & Hreq & _ & _ & _ & Hnext).
  destruct (Hnext "app.bsky.feed.getAuthorFeed" SampleNet.params SampleNet.p3 []
              ltac:(reflexivity) ltac:(simpl; lia))
    as (w'' & Hrun' & Hreq' & _).
  exists w'. split; [exact Hrun|]. split; [exact Hreq|].
  exists w''. split; [exact Hrun'|]. rewrite Hreq', Hreq. reflexivity.
Defined.

(** X20. A credential that expires during a wait: [authenticate] runs at every
    turn of the loop of [_call], so the attempt after the wait refreshes
    the session first, with the cached refresh token, and sends the new
    credential; the attempt before the wait had sent the old one. *)
Theorem expired_credential_refreshed (self : BlueskyAPI) (endpoint : string)
    (params : pydict) (w : World) (busy r1 r2 : Response) (rest : list Response)
    (old : pyval) (expires : Z) (tok : string) (kept : Z)
    (d : pydict) (refresh : pyval) (access : string) :
  authenticate_noop self = false ->
  db w !! access_key self = Some (old, expires) ->
  clock w < expires <= clock w + 60 ->
  db w !! refresh_key self = Some (PStr tok, kept) ->
  clock w + 60 < kept ->
  tok <> "" ->
  script w = busy :: r1 :: r2 :: rest ->
  status_code busy = 429 ->
  status_code r1 = 200 ->
  json r1 = PDict d ->
  d !! "refreshJwt" = Some refresh ->
  d !! "accessJwt" = Some (PStr access) ->
  status_code r2 < 400 ->
  let renewed := PStr ("Bearer " ++ access) in
  exists w' : World,
    _call self endpoint params w = (Return (json r2), w')
    /\ requests w' =
         (requests w
          ++ [api_request self endpoint (<["Authorization" := old]> (headers w)) params;
              refresh_request self tok;
              api_request self endpoint (<["Authorization" := renewed]> (headers w))
                          params])%list
    /\ sleeps w' = (sleeps w ++ [60])%list
    /\ script w' = rest
    /\ db w' !! access_key self = Some (renewed, clock w + 60 + 3600)
    /\ headers w' = <["Authorization" := renewed]> (headers w).
Proof.
  intros Hn Hdb [Hlive Hexp] Hrdb Hkept Htok Hscript Hbusy Hst Hjson Hrefresh
         Haccess Hok renewed.
  apply Z.ltb_lt in Hok.
  assert (Hs : signed_in self w = true).
  { unfold signed_in, signed_in_until. rewrite Hdb, Hn. cbn [orb].
    by apply Z.ltb_lt. }
  assert (Hb : bearer_headers self w = <["Authorization" := old]> (headers w)).
  { unfold bearer_headers. by rewrite Hn, Hdb. }
  unfold _call. rewrite Hscript. cbn [List.length].
  rewrite (call_loop_turn _ self _ params w busy _ Hs Hscript).
  rewrite Hbusy. cbn [Z.ltb Z.eqb Z.compare Pos.compare Pos.compare_cont Pos.eqb].
  rewrite Hb.
  match goal with |- context [_call_loop _ _ _ _ ?w0] => set (w2 := w0) end.
  assert (Hmiss : cache_lookup (access_key self) w2 = None).
  { unfold cache_lookup. subst w2. plain_fields. rewrite Hdb.
    destruct (Z.ltb_spec (clock w + 60) expires); [lia|reflexivity]. }
  assert (Htoken : refresh_token self w2 = PStr tok).
  { unfold refresh_token, cache_lookup. subst w2. plain_fields. rewrite Hrdb.
    destruct (Z.ltb_spec (clock w + 60) kept); [reflexivity|lia]. }
  assert (Hreq : session_request self (refresh_token self w2) = refresh_request self tok).
  { rewrite Htoken. unfold session_request. cbn [Py.truthy].
    destruct (String.eqb_spec tok ""); [contradiction|reflexivity]. }
  rewrite (call_loop_signs_in _ self endpoint params w2 r1 r2 rest d refresh access);
    try assumption; try reflexivity.
  2: { rewrite Htoken. reflexivity. }
  rewrite Hreq. eexists. split; [reflexivity|].
  unfold after_session. subst w2. plain_fields.
  split; [|split; [reflexivity|split; [reflexivity|split]]].
  - rewrite <- !List.app_assoc. cbn [app]. do 4 f_equal.
    by rewrite insert_insert_eq.
  - apply lookup_insert_eq.
  - apply insert_insert_eq.
Qed.

Lemma expired_credential_refreshed_witness :
  let w := Edge.expiring [SampleNet.busy; SampleNet.session; SampleNet.p3] in
  exists w' : World,
    _call SampleNet.member "app.bsky.feed.getAuthorFeed" SampleNet.params w
    = (Return (json SampleNet.p3), w')
    /\ requests w' =
         [api_request SampleNet.member "app.bsky.feed.getAuthorFeed"
                      {["Authorization" := PStr "Bearer tok"]} SampleNet.params;
          refresh_request SampleNet.member "old";
          api_request SampleNet.member "app.bsky.feed.getAuthorFeed"
                      {["Authorization" := PStr "Bearer acc"]} SampleNet.params]
    /\ sleeps w' = [60].
Proof.
  intros w.
  destruct (expired_credential_refreshed SampleNet.member
              "app.bsky.feed.getAuthorFeed" SampleNet.params w
              SampleNet.busy SampleNet.session SampleNet.p3 []
              (PStr "Bearer tok") 30 "old" 1000
              (<["accessJwt" := PStr "acc"]> ({["refreshJwt" := PStr "ref"]}))
              (PStr "ref") "acc"
              ltac:(reflexivity) ltac:(reflexivity) ltac:(simpl; lia)
              ltac:(reflexivity) ltac:(simpl; lia) ltac:(discriminate)
              ltac:(reflexivity) ltac:(reflexivity) ltac:(reflexivity)
              ltac:(reflexivity) ltac:(reflexivity) ltac:(reflexivity)
              ltac:(simpl; lia))
    as (w' & Hrun & Hreq & Hsleeps & _).
  exists w'. split; [exact Hrun|]. split; [exact Hreq | exact Hsleeps].
Defined.

(** ** Rate limits in the middle of a walk *)

(** One turn of the loop of [_pagination] on a page that is served after
    rate-limited responses. *)
Lemma pagination_retried_page (fuel : nat) (self : BlueskyAPI) (endpoint : string)
    (params : pydict) (key : string) (body : pyval -> Run unit) (w : World)
    (limited : list Response) (page : Response) (tail : list Response) :
  signed_in_until self (clock w + 60 * Z.of_nat (List.length limited)) w = true ->
  script w = (limited ++ page :: tail)%list ->
  forallb rate_limited limited = true ->
  is_page key page = true ->
  _pagination_loop (S fuel) self endpoint params key body w =
    (for_each (page_items key page) body ;;;
     if has_next page
     then _pagination_loop fuel self endpoint
                           (<["cursor" := page_cursor page]> params) key body
     else ret tt)
      (after_retries self endpoint params (List.length limited) tail w).
Proof.
  intros Hs Hscript Hlim Hp.
  destruct (page_body key page Hp) as (Hok & Hitems & Hcur).
  assert (Hcall : _call self endpoint params w
                  = (Return (json page),
                     after_retries self endpoint params (List.length limited) tail w)).
  { unfold _call. apply call_loop_retries; try done.
    rewrite Hscript, length_app. simpl. lia. }
  cbn [_pagination_loop]. unfold bind at 1. rewrite Hcall.
  unfold bind at 1, lift at 1. rewrite Hitems.
  unfold bind at 1. unfold bind at 2.
  destruct (for_each (page_items key page) body
              (after_retries self endpoint params (List.length limited) tail w))
    as [[[]| | | |] w1]; try reflexivity.
  unfold bind at 1, lift at 1. rewrite Hcur. fold (has_next page).
  by destruct (has_next page).
Qed.

Lemma served_cons (s : list Response * Response)
    (more : list (list Response * Response)) (rest : list Response) :
  (served (s :: more) ++ rest)%list
  = (fst s ++ snd s :: served more ++ rest)%list.
Proof.
  unfold served. cbn [map concat]. by rewrite <- !List.app_assoc.
Qed.

Lemma waits_cons (s : list Response * Response)
    (more : list (list Response * Response)) :
  waits (s :: more) = (List.length (fst s) + waits more)%nat.
Proof. unfold waits. cbn [map concat]. by rewrite length_app. Qed.

(** A walk over pages each of which may be served after rate-limited
    responses, with a consumer that hands over messages. *)
Lemma pagination_retried_walk (self : BlueskyAPI) (endpoint : string)
    (key : string) (body : pyval -> Run unit) (f : pyval -> option (list Message))
    (last : list Response * Response) (rest : list Response)
    (init : list (list Response * Response)) :
  emits body f ->
  has_next (snd last) = false ->
  forall (fuel : nat) (params : pydict) (w : World) (msgs : list Message),
    (List.length init < fuel)%nat ->
    signed_in_until self (clock w + 60 * Z.of_nat (waits (init ++ [last]))) w = true ->
    script w = (served (init ++ [last]) ++ rest)%list ->
    forallb (fun s => forallb rate_limited (fst s)) (init ++ [last]) = true ->
    forallb (fun s => is_page key (snd s)) (init ++ [last]) = true ->
    forallb (fun s => has_next (snd s)) init = true ->
    handed_over f (concat (map (fun s => page_items key (snd s)) (init ++ [last])))
    = Some msgs ->
    exists w' : World,
      _pagination_loop fuel self endpoint params key body w = (Return tt, w')
      /\ emitted w' = (emitted w ++ msgs)%list
      /\ requests w' =
           (requests w
            ++ retried_requests self endpoint (bearer_headers self w) params
                                (init ++ [last]))%list
      /\ sleeps w' = (sleeps w ++ replicate (waits (init ++ [last])) 60)%list
      /\ script w' = rest
      /\ clock w' = clock w + 60 * Z.of_nat (waits (init ++ [last]))
      /\ db w' = db w
      /\ headers w' = bearer_headers self w.
Proof.
  intros Hb Hend.
  induction init as [|s init IH];
    intros fuel params w msgs Hfuel Hs Hscript Hlim Hpages Hnext Hm;
    (destruct fuel as [|fuel]; [simpl in Hfuel; lia|]).
  - cbn [app] in *. rewrite served_cons in Hscript. rewrite waits_cons in *.
    unfold served, waits in *. cbn [map concat app List.length] in *.
    rewrite Nat.add_0_r in *. rewrite app_nil_r in Hm.
    cbn [forallb] in Hlim, Hpages. rewrite andb_true_r in Hlim, Hpages.
    rewrite (pagination_retried_page fuel self endpoint params key body w _ _ _
               Hs Hscript Hlim Hpages).
    unfold bind at 1. rewrite (for_each_emits body f Hb _ msgs _ Hm). rewrite Hend.
    eexists. split; [reflexivity|]. unfold ret. world_fields.
    cbn [retried_requests]. rewrite app_nil_r. by repeat split.
  - cbn [app] in *. rewrite served_cons in Hscript. rewrite waits_cons in *.
    cbn [forallb] in Hlim, Hpages, Hnext.
    apply andb_true_iff in Hlim as [Hl Hlim].
    apply andb_true_iff in Hpages as [Hp Hpages].
    apply andb_true_iff in Hnext as [Hn Hnext].
    cbn [map concat] in Hm.
    destruct (handed_over_app f _ _ _ Hm) as (m1 & m2 & H1 & H2 & ->).
    assert (Hs1 : signed_in_until self
                    (clock w + 60 * Z.of_nat (List.length (fst s))) w = true).
    { eapply signed_in_until_le, Hs. lia. }
    rewrite (pagination_retried_page fuel self endpoint params key body w _ _ _
               Hs1 Hscript Hl Hp).
    unfold bind at 1. rewrite (for_each_emits body f Hb _ m1 _ H1). rewrite Hn.
    match goal with |- context [_pagination_loop fuel _ _ _ _ _ ?w0] =>
      set (w1 := w0) end.
    destruct (IH fuel (<["cursor" := page_cursor (snd s)]> params) w1 m2)
      as (w' & Hrun & Hem & Hreq & Hsl & Hsc & Hcl & Hdb & Hhd);
      try assumption.
    + simpl in Hfuel. lia.
    + rewrite (signed_in_until_db self _ w w1) by reflexivity.
      subst w1. world_fields.
      replace (clock w + 60 * Z.of_nat (List.length (fst s))
               + 60 * Z.of_nat (waits (init ++ [last])))
        with (clock w + 60 * Z.of_nat (List.length (fst s) + waits (init ++ [last])));
        [exact Hs|lia].
    + reflexivity.
    + exists w'. split; [exact Hrun|].
      rewrite Hem, Hreq, Hsl, Hsc, Hcl, Hdb, Hhd.
      rewrite (bearer_headers_sent self w w1) by reflexivity.
      subst w1. world_fields. cbn [retried_requests].
      rewrite replicate_add, <- !List.app_assoc.
      repeat split. lia.
Qed.

Lemma served_length (segments : list (list Response * Response)) :
  (List.length segments <= List.length (served segments))%nat.
Proof.
  induction segments as [|s segments IH]; [done|].
  unfold served in *. cbn [map concat List.length].
  rewrite !length_app. cbn [List.length]. lia.
Qed.

Lemma forallb_mapped {A B : Type} (p : B -> bool) (g : A -> B) (l : list A) :
  forallb p (map g l) = forallb (fun a => p (g a)) l.
Proof. induction l as [|a l IH]; [done|]. cbn [map forallb]. by rewrite IH. Qed.

(** X21. Rate limits do not show in what a feed gives: when the pages of a
    feed are served after any number of rate-limited responses each,
    [items] hands over the messages of the posts of the pages, in order
    and once; every rate-limited response costs a wait of 60 seconds and
    a repetition of the request, with the same cursor. *)
Theorem rate_limits_transparent (self : BlueskyAPI) (endpoint : string)
    (params : pydict) (w : World) (init : list (list Response * Response))
    (last : list Response * Response) (rest : list Response)
    (msgs : list Message) :
  let segments := (init ++ [last])%list in
  let pages := map snd segments in
  signed_in_until self (clock w + 60 * Z.of_nat (waits segments)) w = true ->
  script w = (served segments ++ rest)%list ->
  forallb (fun s => forallb rate_limited (fst s)) segments = true ->
  forallb (is_page "feed") pages = true ->
  forallb has_next (map snd init) = true ->
  has_next (snd last) = false ->
  handed_over messages_of (concat (map (page_items "feed") pages)) = Some msgs ->
  exists w' : World,
    items (ret (_pagination self endpoint params "feed")) emit w = (Return tt, w')
    /\ emitted w' = (emitted w ++ msgs)%list
    /\ requests w' =
         (requests w
          ++ retried_requests self endpoint (bearer_headers self w) params
                              segments)%list
    /\ sleeps w' = (sleeps w ++ replicate (waits segments) 60)%list
    /\ script w' = rest.
Proof.
  intros segments pages Hs Hscript Hlim Hpages Hnext Hend Hm.
  subst pages. rewrite forallb_mapped in Hpages. rewrite forallb_mapped in Hnext.
  rewrite map_map in Hm.
  destruct (pagination_retried_walk self endpoint "feed" _ messages_of last rest
              init items_body_emits Hend (S (List.length (script w))) params w msgs)
    as (w' & Hrun & Hem & Hreq & Hsl & Hsc & _); try assumption.
  - rewrite Hscript, length_app.
    pose proof (served_length segments) as Hlen. subst segments.
    rewrite length_app in Hlen. simpl in Hlen. lia.
  - exists w'. by repeat split.
Qed.

Lemma rate_limits_transparent_witness :
  let w := SampleNet.serving
             [SampleNet.busy; Edge.feed1; SampleNet.busy; SampleNet.busy; Edge.feed2] in
  exists w' : World,
    items (ret (_pagination SampleNet.public "app.bsky.feed.getAuthorFeed"
                            SampleNet.params "feed")) emit w
    = (Return tt, w')
    /\ emitted w'
       = Edge.messages [Sample.plain_item; Sample.item; Sample.plain_item]
    /\ sleeps w' = [60; 60; 60]
    /\ List.length (requests w') = 5%nat
    /\ script w' = [].
Proof.
  intros w.
  destruct (rate_limits_transparent SampleNet.public "app.bsky.feed.getAuthorFeed"
              SampleNet.params w [([SampleNet.busy], Edge.feed1)]
              ([SampleNet.busy; SampleNet.busy], Edge.feed2) []
              (Edge.messages [Sample.plain_item; Sample.item; Sample.plain_item])
              ltac:(reflexivity) ltac:(reflexivity) ltac:(reflexivity)
              ltac:(reflexivity) ltac:(reflexivity) ltac:(reflexivity)
              ltac:(reflexivity))
    as (w' & Hrun & Hemitted & Hreq & Hsleeps & Hscript).
  exists w'. split; [exact Hrun|]. split; [exact Hemitted|].
  split; [exact Hsleeps|]. split; [by rewrite Hreq | exact Hscript].
Defined.

(** X22. A handle that the server does not resolve: an answer without did
    raises KeyError, and nothing is memoized, so that a later resolution
    asks again.  Whatever needs the did stops there, before its own
    request is made: the profile, the feed of the posts extractor, the
    follows. *)
Theorem unresolved_handle_stops (ex : BlueskyExtractor) (w : World)
    (r : Response) (rest : list Response) (d : pydict) :
  String.prefix "did:" (user ex) = false ->
  memo w !! user ex = None ->
  signed_in (api ex) w = true ->
  script w = r :: rest ->
  status_code r < 400 ->
  json r = PDict d ->
  d !! "did" = None ->
  let w' := after_pages (api ex) "com.atproto.identity.resolveHandle"
                        {["handle" := PStr (user ex)]} "did" [r] [] rest w in
  _did_from_actor (api ex) (user ex) w = (Raise (KeyError (PStr "did")), w')
  /\ get_profile (api ex) (user ex) w = (Raise (KeyError (PStr "did")), w')
  /\ items (BlueskyPostsExtractor_posts ex) emit w
     = (Raise (KeyError (PStr "did")), w')
  /\ BlueskyFollowingExtractor_items ex emit w
     = (Raise (KeyError (PStr "did")), w')
  /\ memo w' !! user ex = None
  /\ requests w' =
       (requests w
        ++ [api_request (api ex) "com.atproto.identity.resolveHandle"
                        (bearer_headers (api ex) w)
                        {["handle" := PStr (user ex)]}])%list
  /\ script w' = rest.
Proof.
  intros Hp Hmemo Hs Hscript Hok Hjson Hdid w'. apply Z.ltb_lt in Hok.
  assert (Hrun : _did_from_actor (api ex) (user ex) w
                 = (Raise (KeyError (PStr "did")), w')).
  { unfold _did_from_actor. rewrite Hp. unfold resolve_handle, memcached.
    rewrite Hmemo. unfold bind at 1. unfold bind at 1.
    rewrite (call_turn (api ex) _ _ w r rest Hs Hscript (or_intror Hok)).
    rewrite Hok. unfold lift. rewrite Hjson. cbn [Py.getitem].
    by rewrite Hdid. }
  split; [exact Hrun|].
  split; [unfold get_profile, bind; by rewrite Hrun|].
  split; [unfold items, BlueskyPostsExtractor_posts, get_author_feed, bind;
          by rewrite Hrun|].
  split; [unfold BlueskyFollowingExtractor_items, get_follows, bind;
          by rewrite Hrun|].
  split; [exact Hmemo|]. by split.
Qed.

Lemma unresolved_handle_stops_witness :
  let w := SampleNet.serving [Edge.no_thread; SampleNet.p3] in
  exists w' : World,
    items (BlueskyPostsExtractor_posts Edge.handle_extractor) emit w
    = (Raise (KeyError (PStr "did")), w')
    /\ memo w' !! "alice.bsky.social" = None
    /\ List.length (requests w') = 1%nat
    /\ script w' = [SampleNet.p3].
Proof.
  intros w.
  destruct (unresolved_handle_stops Edge.handle_extractor w Edge.no_thread
              [SampleNet.p3] ∅
              ltac:(reflexivity) ltac:(reflexivity) ltac:(reflexivity)
              ltac:(reflexivity) ltac:(simpl; lia) ltac:(reflexivity)
              ltac:(reflexivity))
    as (_ & _ & Hposts & _ & Hmemo & _ & Hscript).
  eexists. split; [exact Hposts|]. split; [exact Hmemo|].
  split; [reflexivity | exact Hscript].
Defined.

(** ** What [items] hands over, whatever the item *)

Lemma emit_none (w : World) : set_emitted (emitted w ++ []) w = w.
Proof. world_eq. apply app_nil_r. Qed.

Lemma media_loop_shape (base : string) (files : list pyval) :
  forall (post : pydict) (w : World),
    exists urls : list Message,
      snd (media_loop base post files emit w) = set_emitted (emitted w ++ urls) w
      /\ forallb is_url urls = true
      /\ (List.length urls <= List.length files)%nat.
Proof.
  induction files as [|file files IH]; intros post w.
  - exists []. cbn [media_loop]. unfold ret. cbn [snd]. by rewrite emit_none.
  - cbn [media_loop]. unfold bind at 1, lift at 1.
    destruct (media_step base post file) as [[url post']| | | |];
      try (exists []; cbn [snd]; rewrite emit_none; repeat split; simpl; lia).
    unfold bind at 1, emit at 1.
    destruct (IH post' (set_emitted (emitted w ++ [Url url post']) w))
      as (urls & Hw & Hurls & Hlen).
    exists (Url url post' :: urls). rewrite Hw, emit_twice.
    split; [reflexivity|]. split; [exact Hurls|]. simpl. lia.
Qed.

Lemma chars_length (s : string) : List.length (Py.chars s) = String.length s.
Proof. induction s as [|c s IH]; [done|]. simpl. by rewrite IH. Qed.

Lemma iter_len (v : pyval) (l : list pyval) (n : Z) :
  Py.iter v = Return l -> Py.len v = Return n -> Z.of_nat (List.length l) = n.
Proof.
  destruct v as [| | |s|l'|l'|d|]; try discriminate; simpl.
  - intros [= <-] [= <-]. by rewrite chars_length.
  - by intros [= <-] [= <-].
  - by intros [= <-] [= <-].
  - intros [= <-] [= <-]. by rewrite length_map, length_map_to_list.
Qed.

(** X23. The shape of what [items] hands over for one feed item, whatever
    the item is and however its processing ends: nothing, or one directory
    message followed by Url messages only, at most [count] of them, where
    [count] is the field of the directory message.  Nothing else changes:
    no request is made for an item. *)
Theorem items_body_shape (item : pyval) (w : World) :
  exists msgs : list Message,
    snd (items_body item emit w) = set_emitted (emitted w ++ msgs) w
    /\ (msgs = []
        \/ exists (post : pydict) (urls : list Message) (n : Z),
             msgs = Directory post :: urls
             /\ forallb is_url urls = true
             /\ post !! "count" = Some (PInt n)
             /\ Z.of_nat (List.length urls) <= n).
Proof.
  unfold items_body, bind at 1, lift at 1.
  destruct (normalize item) as [[post images]| | | |] eqn:Hnorm;
    try (exists []; cbn [snd]; rewrite emit_none; by split; [|left]).
  destruct (normalize_inverts item post images Hnorm)
    as (flat & post1 & uri & n & created & _ & _ & _ & _ & Hlen & Hpost).
  assert (Hcount : post !! "count" = Some (PInt n)).
  { rewrite Hpost. rewrite lookup_insert_ne by done. apply lookup_insert_eq. }
  assert (Hn : 0 <= n).
  { destruct images; try discriminate; simpl in Hlen; injection Hlen as <-; lia. }
  unfold bind at 1, emit at 1.
  assert (Hone : forall o : outcome unit,
             exists msgs : list Message,
               snd (o, set_emitted (emitted w ++ [Directory post]) w)
               = set_emitted (emitted w ++ msgs) w
               /\ (msgs = []
                   \/ exists (post0 : pydict) (urls : list Message) (n0 : Z),
                        msgs = Directory post0 :: urls
                        /\ forallb is_url urls = true
                        /\ post0 !! "count" = Some (PInt n0)
                        /\ Z.of_nat (List.length urls) <= n0)).
  { intros o. exists [Directory post]. split; [reflexivity|]. right.
    exists post, [], n. by repeat split. }
  destruct (negb (Py.truthy images)); [apply Hone|].
  unfold bind at 1, lift at 1.
  destruct (obind (Py.dict_getitem post "author")
                  (fun author => Py.getitem author "did")) as [did| | | |];
    try apply Hone.
  unfold bind at 1, lift at 1.
  destruct (Py.str did) as [d| | | |]; try apply Hone.
  unfold bind at 1, lift at 1.
  destruct (Py.iter images) as [files| | | |] eqn:Hiter; try apply Hone.
  destruct (media_loop_shape (blob_endpoint ++ "?did=" ++ d ++ "&cid=") files
              (<["num" := PInt 0]> post)
              (set_emitted (emitted w ++ [Directory post]) w))
    as (urls & Hw & Hurls & Hle).
  exists (Directory post :: urls). rewrite Hw, emit_twice.
  split; [reflexivity|]. right. exists post, urls, n.
  split; [reflexivity|]. split; [exact Hurls|]. split; [exact Hcount|].
  rewrite <- (iter_len images files n Hiter Hlen). lia.
Qed.

(** X24. The post id makes the round trip: the post extractor asks for the
    thread of the at-URI it builds from the did and the post id, and a
    post with that uri is normalized to the same post id, provided the id
    holds no slash. *)
Theorem post_id_round_trip (did post_id : string) (uri : pyval) (item : pyval)
    (flat post : pydict) (images : pyval) :
  Py.has_slash post_id = false ->
  at_uri (PStr did) "app.bsky.feed.post" post_id = Return uri ->
  flatten item = Return flat ->
  flat !! "uri" = Some uri ->
  normalize item = Return (post, images) ->
  post !! "post_id" = Some (PStr post_id).
Proof.
  intros Hslash Huri Hflat Hkey Hnorm.
  destruct (normalize_inverts item post images Hnorm)
    as (flat' & post1 & u & n & created & Hflat' & _ & _ & Hu & _ & ->).
  rewrite Hflat in Hflat'. injection Hflat' as <-.
  rewrite Hkey in Hu. injection Hu as ->.
  unfold at_uri in Huri. cbn [Py.str obind] in Huri. injection Huri as <-.
  rewrite !lookup_insert_ne by done. rewrite lookup_insert_eq. do 2 f_equal.
  replace ("at://" ++ did ++ "/" ++ "app.bsky.feed.post" ++ "/" ++ post_id)
    with (("at://" ++ did ++ "/app.bsky.feed.post") ++ "/" ++ post_id)
    by (by rewrite !append_assoc).
  by apply after_last_slash_app.
Qed.

Lemma post_id_round_trip_witness :
  Edge.post_of Sample.plain_item !! "post_id" = Some (PStr "3kxyz").
Proof.
  apply (post_id_round_trip "did:plc:abc" "3kxyz"
           (PStr "at://did:plc:abc/app.bsky.feed.post/3kxyz")
           Sample.plain_item (Edge.flat_of Sample.plain_item)
           (Edge.post_of Sample.plain_item) (PTuple []));
    reflexivity.
Defined.
